(** * rarejobctl: the reservation flow of [librarejob/rarejob.go]

    A shallow embedding of [NewClient], [Login], [ReserveTutor],
    [Teardown] and the log marshalers over an abstract webdriver backend,
    together with the part of Go's [time] package the flow relies on.

    - The webdriver session and the driver service are a record of
      capabilities over a backend state; every call a method's body makes
      is recorded, with the error it returned, in the trace of the run.
      A call of a helper of the package is one entry of the trace,
      whatever the helper does with the driver.
    - A run ends by returning or by panicking (nil dereference, index out
      of range).
    - Constants and helpers of the package that [rarejob.go] uses but
      does not declare are parameters of the client.
    - Logging through zap is left out of the flow: it neither reaches
      the backend nor changes a result.  The marshalers the log calls are
      modelled on their own. *)

From Stdlib Require Import ZArith List String Ascii Bool Lia DecimalString.
Import ListNotations.
Open Scope Z_scope.

(** ** Go's [time] package, wall-clock part

    [time.Time] is modelled by its seconds since January 1, year 1
    (the [ext] field of a value without monotonic reading), its
    nanoseconds and its location.  Integer arithmetic is on [Z]: the
    instants of interest are far from the limits of [int64]. *)
Module GoTime.

Definition Duration := Z.

Definition Nanosecond : Duration := 1.
Definition Microsecond : Duration := 1000 * Nanosecond.
Definition Millisecond : Duration := 1000 * Microsecond.
Definition Second : Duration := 1000 * Millisecond.
Definition Minute : Duration := 60 * Second.
Definition Hour : Duration := 60 * Minute.

Definition secondsPerMinute := 60.
Definition secondsPerHour := 60 * secondsPerMinute.
Definition secondsPerDay := 24 * secondsPerHour.
Definition daysPer400Years := 365 * 400 + 97.
Definition daysPer100Years := 365 * 100 + 24.
Definition daysPer4Years := 365 * 4 + 1.

Definition absoluteZeroYear := -292277022399.
Definition internalYear := 1.
Definition absoluteToInternal :=
  (absoluteZeroYear - internalYear) / 400 * daysPer400Years * secondsPerDay.
Definition internalToAbsolute := - absoluteToInternal.
Definition unixToInternal :=
  (1969 * 365 + 1969 / 4 - 1969 / 100 + 1969 / 400) * secondsPerDay.
Definition internalToUnix := - unixToInternal.

(** What [Location.lookup] reports for an instant: the offset east of UTC
    and the interval of Unix seconds over which that offset applies. *)
Record zone := mkZone { offset : Z; zstart : Z; zend : Z }.

Definition alpha := - 2 ^ 63.
Definition omega := 2 ^ 63 - 1.

(** Locations are compared by identity in Go; [UTC] also stands for the
    nil location of the zero [Time]. *)
Inductive Location := UTC | Local | FixedZone (off : Z).

Record Time := mkTime { ext : Z; nsec : Z; loc : Location }.

(** [time.Time{}] *)
Definition zeroTime : Time := mkTime 0 0 UTC.

Definition Month := Z.
Definition January : Month := 1.
Definition February : Month := 2.
Definition March : Month := 3.

Definition daysBefore : list Z :=
  [ 0; 31; 31 + 28; 31 + 28 + 31; 31 + 28 + 31 + 30;
    31 + 28 + 31 + 30 + 31; 31 + 28 + 31 + 30 + 31 + 30;
    31 + 28 + 31 + 30 + 31 + 30 + 31;
    31 + 28 + 31 + 30 + 31 + 30 + 31 + 31;
    31 + 28 + 31 + 30 + 31 + 30 + 31 + 31 + 30;
    31 + 28 + 31 + 30 + 31 + 30 + 31 + 31 + 30 + 31;
    31 + 28 + 31 + 30 + 31 + 30 + 31 + 31 + 30 + 31 + 30;
    31 + 28 + 31 + 30 + 31 + 30 + 31 + 31 + 30 + 31 + 30 + 31 ].

Definition daysBeforeAt (i : Z) : Z := nth (Z.to_nat i) daysBefore 0.

Definition isLeap (year : Z) : bool :=
  (Z.rem year 4 =? 0) && (negb (Z.rem year 100 =? 0) || (Z.rem year 400 =? 0)).

(** [norm hi lo base]: carry [lo] into [hi] so that [0 <= lo < base]. *)
Definition norm (hi lo base : Z) : Z * Z :=
  let '(hi, lo) :=
    if lo <? 0 then
      let n := Z.quot (- lo - 1) base + 1 in (hi - n, lo + n * base)
    else (hi, lo) in
  if lo >=? base then
    let n := Z.quot lo base in (hi + n, lo - n * base)
  else (hi, lo).

Definition daysSinceEpoch (year : Z) : Z :=
  let y := year - absoluteZeroYear in
  let n := y / 400 in
  let y := y - 400 * n in
  let d := daysPer400Years * n in
  let n := y / 100 in
  let y := y - 100 * n in
  let d := d + daysPer100Years * n in
  let n := y / 4 in
  let y := y - 4 * n in
  let d := d + daysPer4Years * n in
  let n := y in
  d + 365 * n.

(** [absDate abs] with [full = true]: year, month, day and day of year. *)
Definition absDate (abs : Z) : Z * Month * Z * Z :=
  let d := abs / secondsPerDay in
  let n := d / daysPer400Years in
  let y := 400 * n in
  let d := d - daysPer400Years * n in
  let n := d / daysPer100Years in
  let n := n - Z.shiftr n 2 in
  let y := y + 100 * n in
  let d := d - daysPer100Years * n in
  let n := d / daysPer4Years in
  let y := y + 4 * n in
  let d := d - daysPer4Years * n in
  let n := d / 365 in
  let n := n - Z.shiftr n 2 in
  let y := y + n in
  let d := d - 365 * n in
  let year := y + absoluteZeroYear in
  let yday := d in
  let day := yday in
  if isLeap year && (day =? 31 + 29 - 1) then (year, February, 29, yday)
  else
    let day := if isLeap year && (day >? 31 + 29 - 1) then day - 1 else day in
    let month := day / 31 in
    let end_ := daysBeforeAt (month + 1) in
    let '(month, begin) :=
      if day >=? end_ then (month + 1, end_) else (month, daysBeforeAt month) in
    (year, month + 1, day - begin + 1, yday).

Section WithLocalZone.

(** The zone table behind [time.Local], fixed by the process environment. *)
Variable localLookup : Z -> zone.

Definition lookup (l : Location) (sec : Z) : zone :=
  match l with
  | UTC => mkZone 0 alpha omega
  | Local => localLookup sec
  | FixedZone off => mkZone off alpha omega
  end.

Definition unixSec (t : Time) : Z := ext t + internalToUnix.

Definition unixTime (sec nsec : Z) : Time := mkTime (sec + unixToInternal) nsec Local.

Definition setLoc (t : Time) (l : Location) : Time := mkTime (ext t) (nsec t) l.

(** [t.abs()]: seconds since the absolute zero year, in [t]'s location. *)
Definition abs (t : Time) : Z :=
  let sec := unixSec t in
  sec + offset (lookup (loc t) sec) + (unixToInternal + internalToAbsolute).

Definition Time_Year (t : Time) : Z := let '(y, _, _, _) := absDate (abs t) in y.
Definition Time_Month (t : Time) : Month := let '(_, m, _, _) := absDate (abs t) in m.
Definition Time_Day (t : Time) : Z := let '(_, _, d, _) := absDate (abs t) in d.
Definition Time_Hour (t : Time) : Z := (abs t mod secondsPerDay) / secondsPerHour.
Definition Time_Minute (t : Time) : Z := (abs t mod secondsPerHour) / secondsPerMinute.
Definition Time_Second (t : Time) : Z := abs t mod secondsPerMinute.

(** [t.Local()] *)
Definition Time_Local (t : Time) : Time := setLoc t Local.

(** [t.Add(d)] *)
Definition Time_Add (t : Time) (d : Duration) : Time :=
  let dsec := Z.quot d 1000000000 in
  let ns := nsec t + Z.rem d 1000000000 in
  let '(dsec, ns) :=
    if ns >=? 1000000000 then (dsec + 1, ns - 1000000000)
    else if ns <? 0 then (dsec - 1, ns + 1000000000)
    else (dsec, ns) in
  mkTime (ext t + dsec) ns (loc t).

(** [time.Date(year, month, day, hour, min, sec, nsec, loc)] *)
Definition Date (year : Z) (month : Month) (day hour min sec ns : Z)
    (l : Location) : Time :=
  let m := month - 1 in
  let '(year, m) := norm year m 12 in
  let month := m + 1 in
  let '(sec, ns) := norm sec ns 1000000000 in
  let '(min, sec) := norm min sec 60 in
  let '(hour, min) := norm hour min 60 in
  let '(day, hour) := norm day hour 24 in
  let d := daysSinceEpoch year in
  let d := d + daysBeforeAt (month - 1) in
  let d := if isLeap year && (month >=? March) then d + 1 else d in
  let d := d + (day - 1) in
  let abs := d * secondsPerDay in
  let abs := abs + (hour * secondsPerHour + min * secondsPerMinute + sec) in
  let unix := abs + (absoluteToInternal + internalToUnix) in
  let z := lookup l unix in
  let unix :=
    if offset z =? 0 then unix
    else
      let utc := unix - offset z in
      let off :=
        if (utc <? zstart z) || (utc >=? zend z)
        then offset (lookup l utc) else offset z in
      unix - off in
  setLoc (unixTime unix ns) l.

End WithLocalZone.

End GoTime.


Import GoTime.
Open Scope string_scope.
Open Scope list_scope.
Open Scope Z_scope.

(** ** Go values of the flow *)

(** Error values.  [ErrSpreadAcrossTwoDays] is the package's sentinel for
    a search window that spreads across two days; [Errorf fmt args e]
    is [fmt.Errorf(fmt + ": %w", args..., e)]; [ExternalError] is any
    error produced outside this file (webdriver, parser, URL builder). *)
Inductive error :=
| ErrSpreadAcrossTwoDays
| ExternalError (msg : string)
| Errorf (format : string) (args : list Z) (wrapped : error).

Inductive Panic :=
| NilDereference
| IndexOutOfRange (index length : Z).

Inductive Outcome (A : Type) :=
| Returned (a : A)
| Panicked (p : Panic).
Arguments Returned {A} a.
Arguments Panicked {A} p.

Record Reserve := mkReserve { Name : string; StartAt : Time; EndAt : Time }.

(** The field [Name] of [Tutor] is [TutorName] here, [Name] being taken. *)
Record Tutor := mkTutor { TutorName : string; AvailableSlots : list Time }.

Definition Tutors := list Tutor.

(** ** The webdriver backend *)

Inductive By := ByCSSSelector | ByLinkText | ByName.

(** A [selenium.WebElement] is an interface value: a handle or nil. *)
Definition Handle := Z.
Definition WebElement := option Handle.

Inductive Call :=
| CallGet (url : string)
| CallFindElement (by_ : By) (value : string)
| CallFindElements (by_ : By) (value : string)
| CallCurrentURL
| CallWait
| CallQuit
| CallStop
| CallText (h : Handle)
| CallClick (h : Handle)
| CallSendKeys (h : Handle) (keys : string)
| CallWaitUntilElementLoaded (by_ : By) (value : string)
| CallWaitUntilURLChanged (url : string).

(** One entry of the recorded call trace: the call and the error it gave.
    The trace lists the calls the bodies of the client's methods make, in
    order.  The two helpers, [waitUntilElementLoaded] and
    [waitUntilURLChanged], are handed [c.wd] and call the driver
    themselves: whatever a helper does with the driver is its effect on
    the backend state, and in the trace a call of a helper is the one
    event [CallWaitUntilElementLoaded] or [CallWaitUntilURLChanged].  The
    calls a helper makes are not events of the trace, so [CallFindElement]
    is always a lookup written in the body of [Login] or [ReserveTutor]. *)
Inductive Event := Ev (c : Call) (err : option error).

Definition callOf (e : Event) : Call := let 'Ev c _ := e in c.

(** The capabilities of [selenium.WebDriver], [selenium.WebElement] and
    [selenium.Service] the client uses, over a backend state [World]. *)
Record Backend (World : Type) := mkBackend {
  wd_Get : string -> World -> option error * World;
  wd_FindElement : By -> string -> World -> (WebElement * option error) * World;
  wd_FindElements : By -> string -> World -> (list WebElement * option error) * World;
  wd_CurrentURL : World -> (string * option error) * World;
  wd_SessionID : World -> string;
  wd_Wait : (World -> bool * option error) -> World -> option error * World;
  wd_Quit : World -> option error * World;
  we_Text : Handle -> World -> (string * option error) * World;
  we_Click : Handle -> World -> option error * World;
  we_SendKeys : Handle -> string -> World -> option error * World;
  s_Stop : World -> option error * World
}.
Arguments wd_Get {World}.
Arguments wd_FindElement {World}.
Arguments wd_FindElements {World}.
Arguments wd_CurrentURL {World}.
Arguments wd_SessionID {World}.
Arguments wd_Wait {World}.
Arguments wd_Quit {World}.
Arguments we_Text {World}.
Arguments we_Click {World}.
Arguments we_SendKeys {World}.
Arguments s_Stop {World}.

(** ** Computations: backend state, recorded calls, panics *)
Module Go.
Section Monad.
Context {World : Type}.

Record Run (A : Type) :=
  mkRun { outcome : Outcome A; final : World; events : list Event }.
Arguments mkRun {A}.
Arguments outcome {A}.
Arguments final {A}.
Arguments events {A}.

Definition M (A : Type) := World -> Run A.

Definition ret {A} (a : A) : M A := fun w => mkRun (Returned a) w [].

Definition bind {A B} (c : M A) (k : A -> M B) : M B :=
  fun w =>
    let r := c w in
    match outcome r with
    | Returned a =>
        let r' := k a (final r) in
        mkRun (outcome r') (final r') (events r ++ events r')
    | Panicked p => mkRun (Panicked p) (final r) (events r)
    end.

Definition panic {A} (p : Panic) : M A := fun w => mkRun (Panicked p) w [].

(** A backend call, recorded with the error it returned. *)
Definition invoke {A} (c : Call) (errOf : A -> option error)
    (op : World -> A * World) : M A :=
  fun w => mkRun (Returned (fst (op w))) (snd (op w)) [Ev c (errOf (fst (op w)))].

(** A method call on an interface value panics when the value is nil. *)
Definition method {A} (e : WebElement) (m : Handle -> M A) : M A :=
  match e with
  | Some h => m h
  | None => panic NilDereference
  end.

(** [xs[i]] *)
Definition index {A} (xs : list A) (i : Z) : M A :=
  if (i <? 0) || (i >=? Z.of_nat (List.length xs)) then
    panic (IndexOutOfRange i (Z.of_nat (List.length xs)))
  else
    match nth_error xs (Z.to_nat i) with
    | Some x => ret x
    | None => panic (IndexOutOfRange i (Z.of_nat (List.length xs)))
    end.

End Monad.

Arguments Run World A : clear implicits.
Arguments M World A : clear implicits.
Arguments mkRun {World A}.
Arguments outcome {World A}.
Arguments final {World A}.
Arguments events {World A}.

Module Notations.
Declare Scope go_scope.
Delimit Scope go_scope with go.
Notation "x <- c ;; k" := (bind c (fun x => k))
  (at level 61, c at next level, right associativity) : go_scope.
Notation "' p <- c ;; k" := (bind c (fun x => let 'p := x in k))
  (at level 61, p pattern, c at next level, right associativity) : go_scope.
End Notations.
End Go.

Import Go.Notations.
Open Scope go_scope.

(** Control flow of a loop body: carry on with the loop state, or
    [return] from the enclosing function. *)
Inductive Flow (S R : Type) :=
| Next (s : S)
| Return_ (r : R).
Arguments Next {S R} s.
Arguments Return_ {S R} r.

(** ** Log encoders (zapcore)

    Of [zapcore.ObjectEncoder] and [zapcore.ArrayEncoder] the methods the
    marshalers call, over the state of an encoder. *)
Record ObjectEncoder (E : Type) := mkObjectEncoder {
  AddString : string -> string -> E -> E
}.
Arguments AddString {E}.

(** A [zapcore.ObjectMarshaler]: its method [MarshalLogObject]. *)
Definition ObjectMarshaler : Type :=
  forall E : Type, ObjectEncoder E -> E -> option error * E.

Record ArrayEncoder (A : Type) := mkArrayEncoder {
  AppendObject : ObjectMarshaler -> A -> option error * A
}.
Arguments AppendObject {A}.

(** [func (t Tutor) MarshalLogObject(enc zapcore.ObjectEncoder) error] *)
Definition Tutor_MarshalLogObject (t : Tutor) : ObjectMarshaler :=
  fun E enc e =>
    let e := AddString enc "name" (TutorName t) e in
    (None, e).

(** [func (ts Tutors) MarshalLogArray(enc zapcore.ArrayEncoder) error];
    the loop drops what [AppendObject] returns. *)
Fixpoint Tutors_MarshalLogArray_range {A} (enc : ArrayEncoder A) (ts : Tutors)
    (a : A) : A :=
  match ts with
  | [] => a
  | t :: ts' =>
      let '(_, a) := AppendObject enc (Tutor_MarshalLogObject t) a in
      Tutors_MarshalLogArray_range enc ts' a
  end.

Definition Tutors_MarshalLogArray {A} (ts : Tutors) (enc : ArrayEncoder A) (a : A)
  : option error * A :=
  let a := Tutors_MarshalLogArray_range enc ts a in
  (None, a).

(** Encoders that keep what they are given: an object is the list of its
    fields, an array the list of its objects. *)
Definition Fields := list (string * string).

Definition keepFields : ObjectEncoder Fields :=
  mkObjectEncoder Fields (fun key value e => e ++ [(key, value)]).

Definition keepObjects : ArrayEncoder (list Fields) :=
  mkArrayEncoder (list Fields) (fun m a =>
    let r := m Fields keepFields [] in
    (fst r, a ++ [snd r])).

(** ** Starting the driver service and the session (lines 56-86)

    Of the selenium package the functions [NewClient] calls, over the
    state of the host. *)
Inductive ServiceOption :=
| StartFrameBuffer
| GeckoDriver (path : string).

Inductive SetupCall :=
| CallSetDebug (debug : bool)
| CallNewSeleniumService (jar : string) (port : Z) (opts : list ServiceOption)
| CallNewRemote (caps : list (string * string)) (urlPrefix : string).

Record Selenium (Host Service Driver : Type) := mkSelenium {
  SetDebug : bool -> Host -> Host;
  NewSeleniumService :
    string -> Z -> list ServiceOption -> Host
    -> (option Service * option error) * Host;
  NewRemote :
    list (string * string) -> string -> Host
    -> (option Driver * option error) * Host
}.
Arguments SetDebug {Host Service Driver}.
Arguments NewSeleniumService {Host Service Driver}.
Arguments NewRemote {Host Service Driver}.

(** The [client] struct: the service pointer and the webdriver. *)
Record client (Service Driver : Type) := mkClient {
  client_s : option Service;
  client_wd : option Driver
}.
Arguments mkClient {Service Driver}.
Arguments client_s {Service Driver}.
Arguments client_wd {Service Driver}.

Section Construction.

Context {Host Service Driver : Type}.
Variable selenium : Selenium Host Service Driver.

(** [fmt.Sprintf] on the URL template. *)
Variable Sprintf : string -> list Z -> string.

Definition seleniumPath := "/opt/selenium/selenium-server-standalone.jar".
Definition geckoDriverPath := "/usr/bin/geckodriver".
Definition port := 8080.

(** [NewClient], with the calls it makes. *)
Definition NewClient (h : Host)
  : (option (client Service Driver) * option error) * Host * list SetupCall :=
  let opts := [StartFrameBuffer; GeckoDriver geckoDriverPath] in
  let h := SetDebug selenium false h in
  let '((service, err), h) := NewSeleniumService selenium seleniumPath port opts h in
  let log := [CallSetDebug false; CallNewSeleniumService seleniumPath port opts] in
  match err with
  | Some e => ((None, Some e), h, log)
  | None =>
      let caps := [("browserName", "firefox")] in
      let url := Sprintf "http://localhost:%d/wd/hub" [port] in
      let '((wd, err), h) := NewRemote selenium caps url h in
      let log := log ++ [CallNewRemote caps url] in
      match err with
      | Some e => ((None, Some e), h, log)
      | None => ((Some (mkClient service wd), None), h, log)
      end
  end.

End Construction.

(** ** The slot-label parser *)
Module SlotText.

Definition digit (a : ascii) : option Z :=
  let n := Z.of_nat (nat_of_ascii a) in
  if (48 <=? n) && (n <=? 57) then Some (n - 48) else None.

Fixpoint digits (s : string) (acc : Z) : option Z :=
  match s with
  | EmptyString => Some acc
  | String a s' =>
      match digit a with
      | Some d => digits s' (10 * acc + d)
      | None => None
      end
  end.

Definition atoi (s : string) : option Z :=
  match s with
  | EmptyString => None
  | _ => digits s 0
  end.

(** Split at the first colon. *)
Fixpoint cut (s : string) : option (string * string) :=
  match s with
  | EmptyString => None
  | String a s' =>
      if Ascii.eqb a ":" then Some (EmptyString, s')
      else match cut s' with
           | Some (l, r) => Some (String a l, r)
           | None => None
           end
  end.

(** Modelled from the spec: [parseTime] is declared outside [rarejob.go].
    Section 4.2 describes it as parsing a label of the form H:MM into
    hour and minute integers and failing on anything else. *)
Definition parseTime (s : string) : Z * Z * option error :=
  match cut s with
  | Some (hs, ms) =>
      match atoi hs, atoi ms with
      | Some h, Some m => (h, m, None)
      | _, _ => (0, 0, Some (ExternalError "invalid time format"))
      end
  | None => (0, 0, Some (ExternalError "invalid time format"))
  end.

End SlotText.

(** ** A scripted page as backend

    A fake driver in the sense of the spec's design notes: the page is a
    table of tutor rows and every capability answers from the table.
    Rows listed as [lateRows] are rendered only once the client waits
    for an element other than the tutor list.  The fake serves to run
    the client on concrete inputs. *)
Module Fake.

Record Row := mkRow {
  rowName : string;
  rowSlotsError : bool;            (* enumerating the row's slots fails *)
  rowLabels : list (option string) (* [None]: the slot's button is missing *)
}.

Record Page := mkPage {
  rows : list Row;
  lateRows : list Row;
  quitError : option error;
  stopError : option error;
  sessionID : string
}.

Definition itoa (z : Z) : string := NilZero.string_of_int (Z.to_int z).

Fixpoint join (args : list Z) : string :=
  match args with
  | [] => ""
  | [a] => itoa a
  | a :: rest => String.append (itoa a) (String.append "," (join rest))
  end.

Definition Sprintf (template : string) (args : list Z) : string :=
  String.append template (String.append "/" (join args)).

Definition rarejobLoginURL := "https://www.rarejob.com/account/login/".
Definition rarejobReservationFinishURL := "https://www.rarejob.com/reservation/reserve/finish/".
Definition loginPageEmailSelector := "#RJ_LoginForm_email".
Definition loginPagePasswordSelector := "#RJ_LoginForm_password".
Definition tutorListSelector := "ul#tutorList > li".
Definition tutorNameSelector := "li:nth-child(%d) .name".
Definition tutorTimeSlotSelector := "li:nth-child(%d) .slot".
Definition tutorTimeSlotButtonSelector := "li:nth-child(%d) .slot:nth-child(%d) a".

Definition noSuchElement : error := ExternalError "no such element".

(** Handles: [1000 * tnum] is the name of row [tnum], [1000 * tnum + snum]
    its slot button [snum]; small numbers are the fixed controls. *)
Definition nameHandle (tnum : Z) : Handle := 1000 * tnum.
Definition slotHandle (tnum snum : Z) : Handle := 1000 * tnum + snum.

Definition rowAt (p : Page) (tnum : Z) : option Row :=
  if tnum <? 1 then None else nth_error (rows p) (Z.to_nat (tnum - 1)).

Definition labelAt (p : Page) (tnum snum : Z) : option string :=
  match rowAt p tnum with
  | Some r =>
      if snum <? 1 then None
      else match nth_error (rowLabels r) (Z.to_nat (snum - 1)) with
           | Some l => l
           | None => None
           end
  | None => None
  end.

(** The numbers [1 .. n]. *)
Definition upto (n : nat) : list Z := map (fun i => Z.of_nat i + 1) (seq 0 n).

Definition findName (p : Page) (value : string) : option Handle :=
  match filter (fun t => String.eqb value (Sprintf tutorNameSelector [t]))
               (upto (List.length (rows p))) with
  | t :: _ => Some (nameHandle t)
  | [] => None
  end.

Definition slotPositions (p : Page) : list (Z * Z) :=
  flat_map (fun t =>
    match rowAt p t with
    | Some r => map (fun s => (t, s)) (upto (List.length (rowLabels r)))
    | None => []
    end) (upto (List.length (rows p))).

Definition findSlot (p : Page) (value : string) : option Handle :=
  match filter (fun ts =>
                  String.eqb value
                    (Sprintf tutorTimeSlotButtonSelector [fst ts; snd ts]))
               (slotPositions p) with
  | (t, s) :: _ =>
      match labelAt p t s with
      | Some _ => Some (slotHandle t s)
      | None => None
      end
  | [] => None
  end.

Definition findControl (by_ : By) (value : string) : option Handle :=
  match by_ with
  | ByCSSSelector =>
      if String.eqb value loginPageEmailSelector then Some 1
      else if String.eqb value loginPagePasswordSelector then Some 2
      else None
  | ByName => if String.eqb value "yt0" then Some 3 else None
  | ByLinkText => if String.eqb value "予約する" then Some 4 else None
  end.

Definition FindElement (by_ : By) (value : string) (p : Page)
  : (WebElement * option error) * Page :=
  let found :=
    match findControl by_ value with
    | Some h => Some h
    | None =>
        match by_ with
        | ByCSSSelector =>
            match findName p value with
            | Some h => Some h
            | None => findSlot p value
            end
        | _ => None
        end
    end in
  match found with
  | Some h => ((Some h, None), p)
  | None => ((None, Some noSuchElement), p)
  end.

Definition FindElements (by_ : By) (value : string) (p : Page)
  : (list WebElement * option error) * Page :=
  if String.eqb value tutorListSelector then
    ((map (fun t => Some (nameHandle t)) (upto (List.length (rows p))), None), p)
  else
    match filter (fun t => String.eqb value (Sprintf tutorTimeSlotSelector [t]))
                 (upto (List.length (rows p))) with
    | t :: _ =>
        match rowAt p t with
        | Some r =>
            if rowSlotsError r then (([], Some noSuchElement), p)
            else ((map (fun s => Some (slotHandle t s))
                       (upto (List.length (rowLabels r))), None), p)
        | None => (([], None), p)
        end
    | [] => (([], None), p)
    end.

Definition Text (h : Handle) (p : Page) : (string * option error) * Page :=
  let t := h / 1000 in
  let s := h mod 1000 in
  if s =? 0 then
    match rowAt p t with
    | Some r => ((rowName r, None), p)
    | None => (("", Some noSuchElement), p)
    end
  else
    match labelAt p t s with
    | Some l => ((l, None), p)
    | None => (("", Some noSuchElement), p)
    end.

Definition backend : Backend Page := {|
  wd_Get := fun _ p => (None, p);
  wd_FindElement := FindElement;
  wd_FindElements := FindElements;
  wd_CurrentURL := fun p => ((rarejobReservationFinishURL, None), p);
  wd_SessionID := sessionID;
  wd_Wait := fun cond p =>
    (if fst (cond p) then None else Some (ExternalError "timeout"), p);
  wd_Quit := fun p => (quitError p, p);
  we_Text := Text;
  we_Click := fun _ p => (None, p);
  we_SendKeys := fun _ _ p => (None, p);
  s_Stop := fun p => (stopError p, p)
|}.

Definition generateTutorSearchQuery (from by_ : Time) : string * option error :=
  ("https://www.rarejob.com/reservation/", None).

Definition waitUntilElementLoaded (by_ : By) (value : string) (p : Page)
  : option error * Page :=
  if String.eqb value tutorListSelector then (None, p)
  else
    (None,
     mkPage (rows p ++ lateRows p) [] (quitError p) (stopError p) (sessionID p)).

Definition waitUntilURLChanged (url : string) (p : Page)
  : option error * Page := (None, p).

(** Japan Standard Time, as the local zone of the examples. *)
Definition jst (_ : Z) : zone := mkZone (9 * 3600) alpha omega.

Definition Getenv (key : string) : string :=
  if String.eqb key "RAREJOB_EMAIL" then "student@example.com"
  else if String.eqb key "RAREJOB_PASSWORD" then "hunter2"
  else "".

(** Pages and a search instant for the examples. *)
Definition pageOf (rs late : list Row) : Page := mkPage rs late None None "session".

(** Two tutors; the second label of the first row is malformed. *)
Definition pageAliceBob : Page :=
  pageOf [mkRow "Alice" false [Some "9:00"; Some "N/A"; Some "10:30"];
          mkRow "Bob" false [Some "11:00"]] [].

(** The second slot button of the row is missing from the page. *)
Definition pageMissingButton : Page :=
  pageOf [mkRow "Alice" false [Some "9:00"; None; Some "10:30"]] [].

(** Enumerating the slots of the second row fails. *)
Definition pageSlotsError : Page :=
  pageOf [mkRow "Alice" false [Some "9:00"]; mkRow "Bob" true [Some "11:00"]] [].

(** The tutor list is still empty when it is read; the row is rendered
    by the time the client waits for the slot button. *)
Definition pageRenderedLate : Page :=
  pageOf [] [mkRow "Alice" false [Some "9:00"]].

Definition pageNineOhFive : Page :=
  pageOf [mkRow "Alice" false [Some "9:05"]] [].

(** Quitting the session fails. *)
Definition pageQuitFails : Page :=
  mkPage [] [] (Some (ExternalError "invalid session id")) None "session".

(** 2024-05-01 08:00 and 23:30, local time. *)
Definition morning : Time := Eval vm_compute in Date jst 2024 5 1 8 0 0 0 Local.
Definition lateEvening : Time :=
  Eval vm_compute in Date jst 2024 5 1 23 30 0 0 Local.

(** A backend on which typing and clicking fail. *)
Definition backendRejectingInput : Backend Page := {|
  wd_Get := wd_Get backend;
  wd_FindElement := wd_FindElement backend;
  wd_FindElements := wd_FindElements backend;
  wd_CurrentURL := wd_CurrentURL backend;
  wd_SessionID := wd_SessionID backend;
  wd_Wait := wd_Wait backend;
  wd_Quit := wd_Quit backend;
  we_Text := we_Text backend;
  we_Click := fun _ p => (Some (ExternalError "element not interactable"), p);
  we_SendKeys := fun _ _ p => (Some (ExternalError "element not interactable"), p);
  s_Stop := s_Stop backend
|}.

(** The finish URL is never reached. *)
Definition waitUntilURLChangedTimeout (url : string) (p : Page)
  : option error * Page := (Some (ExternalError "timeout"), p).

(** The first label of the first row is malformed. *)
Definition pageFirstMalformed : Page :=
  pageOf [mkRow "Alice" false [Some "N/A"; Some "9:00"]] [].

(** A helper that looks the element up on the driver once and returns
    the error of that lookup. *)
Definition waitUntilElementLoadedPolling (by_ : By) (value : string) (p : Page)
  : option error * Page :=
  let r := FindElement by_ value p in
  (snd (fst r), snd r).

(** The label reads 25:00. *)
Definition pageTwentyFive : Page :=
  pageOf [mkRow "Alice" false [Some "25:00"]] [].

(** 2024-05-01 20:00 and 14:00 UTC: in Japan, 05:00 of the next day and
    23:00 of the same day. *)
Definition eveningUTC : Time := Eval vm_compute in Date jst 2024 5 1 20 0 0 0 UTC.
Definition afternoonUTC : Time := Eval vm_compute in Date jst 2024 5 1 14 0 0 0 UTC.

(** A host on which the service does not start. *)
Definition seleniumNotInstalled : Selenium unit Z Z := {|
  SetDebug := fun _ h => h;
  NewSeleniumService := fun _ _ _ h =>
    ((None, Some (ExternalError "no such file or directory")), h);
  NewRemote := fun _ _ h => ((Some 7, None), h)
|}.

(** A host on which the service starts and the session is refused. *)
Definition seleniumRefusing : Selenium unit Z Z := {|
  SetDebug := fun _ h => h;
  NewSeleniumService := fun _ _ _ h => ((Some 1, None), h);
  NewRemote := fun _ _ h => ((None, Some (ExternalError "connection refused")), h)
|}.

End Fake.

(** ** The client *)
Section Client.

#[local] Set Default Proof Using "Type".

(** The process environment: the local time zone and [os.Getenv]. *)
Variable localLookup : Z -> zone.
Variable Getenv : string -> string.

(** The webdriver session [c.wd] and the driver service [c.s]. *)
Context {World : Type}.
Variable c : Backend World.

(** [fmt.Sprintf] on the selector templates. *)
Variable Sprintf : string -> list Z -> string.

(** Package constants declared outside [rarejob.go]. *)
Variable rarejobLoginURL : string.
Variable rarejobReservationFinishURL : string.
Variable loginPageEmailSelector : string.
Variable loginPagePasswordSelector : string.
Variable tutorListSelector : string.
Variable tutorNameSelector : string.
Variable tutorTimeSlotSelector : string.
Variable tutorTimeSlotButtonSelector : string.

(** Package helpers declared outside [rarejob.go]. *)
Variable parseTime : string -> Z * Z * option error.
Variable generateTutorSearchQuery : Time -> Time -> string * option error.
Variable waitUntilElementLoaded : By -> string -> World -> option error * World.
Variable waitUntilURLChanged : string -> World -> option error * World.

(** [context.Context]; no function of the file reads it. *)
Definition Context := unit.

#[local] Abbreviation Go := (Go.M World).

(** *** Backend calls, recorded *)

Definition Get (url : string) : Go (option error) :=
  Go.invoke (CallGet url) (fun e => e) (wd_Get c url).

Definition FindElement (by_ : By) (value : string) : Go (WebElement * option error) :=
  Go.invoke (CallFindElement by_ value) snd (wd_FindElement c by_ value).

Definition FindElements (by_ : By) (value : string)
  : Go (list WebElement * option error) :=
  Go.invoke (CallFindElements by_ value) snd (wd_FindElements c by_ value).

Definition CurrentURL : Go (string * option error) :=
  Go.invoke CallCurrentURL snd (wd_CurrentURL c).

Definition Wait (cond : World -> bool * option error) : Go (option error) :=
  Go.invoke CallWait (fun e => e) (wd_Wait c cond).

Definition Quit : Go (option error) :=
  Go.invoke CallQuit (fun e => e) (wd_Quit c).

Definition Stop : Go (option error) :=
  Go.invoke CallStop (fun e => e) (s_Stop c).

Definition Text (e : WebElement) : Go (string * option error) :=
  Go.method e (fun h => Go.invoke (CallText h) snd (we_Text c h)).

Definition Click (e : WebElement) : Go (option error) :=
  Go.method e (fun h => Go.invoke (CallClick h) (fun e => e) (we_Click c h)).

Definition SendKeys (e : WebElement) (keys : string) : Go (option error) :=
  Go.method e (fun h =>
    Go.invoke (CallSendKeys h keys) (fun e => e) (we_SendKeys c h keys)).

(** The helpers: [waitUntilElementLoaded(c.wd, by, value)] and
    [waitUntilURLChanged(c.wd, url)].  Their source is not in the file;
    they are state transformers returning an error, free to poll the
    driver any number of times, and each call is recorded as one event. *)
Definition WaitUntilElementLoaded (by_ : By) (value : string) : Go (option error) :=
  Go.invoke (CallWaitUntilElementLoaded by_ value) (fun e => e)
    (waitUntilElementLoaded by_ value).

Definition WaitUntilURLChanged (url : string) : Go (option error) :=
  Go.invoke (CallWaitUntilURLChanged url) (fun e => e) (waitUntilURLChanged url).

(** *** [Login] *)

Definition Login (ctx : Context) (username password : string) : Go (option error) :=
  err <- Get rarejobLoginURL ;;
  match err with
  | Some e => Go.ret (Some (Errorf "failed to access rarejob login page" [] e))
  | None =>
  _ <- WaitUntilElementLoaded ByCSSSelector loginPageEmailSelector ;;
  '(emailInput, err) <- FindElement ByCSSSelector loginPageEmailSelector ;;
  match err with
  | Some e => Go.ret (Some (Errorf "failed to find the email input box" [] e))
  | None =>
  _ <- SendKeys emailInput (Getenv "RAREJOB_EMAIL") ;;
  _ <- WaitUntilElementLoaded ByCSSSelector loginPagePasswordSelector ;;
  '(passwordInput, err) <- FindElement ByCSSSelector loginPagePasswordSelector ;;
  match err with
  | Some e => Go.ret (Some (Errorf "failed to find the password input box" [] e))
  | None =>
  _ <- SendKeys passwordInput (Getenv "RAREJOB_PASSWORD") ;;
  '(submit, err) <- FindElement ByName "yt0" ;;
  match err with
  | Some e => Go.ret (Some (Errorf "failed to find submit button" [] e))
  | None =>
  _ <- Click submit ;;
  err <- Wait (fun w => (negb (String.eqb (wd_SessionID c w) ""), None)) ;;
  match err with
  | Some e => Go.ret (Some (Errorf "login failed" [] e))
  | None => Go.ret None
  end end end end end.

(** *** [ReserveTutor] *)

(** The body of the loop over [snum] (lines 163-174). *)
Definition scrapeSlot (from : Time) (tnum snum : Z) (slots : list Time)
  : Go (list Time) :=
  '(slotElm, err) <-
    FindElement ByCSSSelector (Sprintf tutorTimeSlotButtonSelector [tnum; snum]) ;;
  let slots :=
    match err with
    | Some _ => slots ++ [zeroTime]
    | None => slots
    end in
  '(slotText, _) <- Text slotElm ;;
  let '(h, m, err) := parseTime slotText in
  let slots :=
    match err with
    | Some _ => slots ++ [zeroTime]
    | None => slots
    end in
  Go.ret (slots ++
    [Date localLookup (Time_Year localLookup from) (Time_Month localLookup from)
       (Time_Day localLookup from) h m 0 0 Local]).

(** [for snum := 1; snum <= len(slotElms); snum++], with [n] iterations
    left. *)
Fixpoint scrapeSlots (from : Time) (tnum : Z) (n : nat) (snum : Z)
    (slots : list Time) : Go (list Time) :=
  match n with
  | O => Go.ret slots
  | S n' =>
      slots' <- scrapeSlot from tnum snum slots ;;
      scrapeSlots from tnum n' (snum + 1) slots'
  end.

(** The body of the loop over [tnum] (lines 155-178). *)
Definition scrapeTutor (from : Time) (tnum : Z) (tutors : Tutors)
  : Go (Flow Tutors (option Reserve * option error)) :=
  '(nameElm, _) <- FindElement ByCSSSelector (Sprintf tutorNameSelector [tnum]) ;;
  '(name, _) <- Text nameElm ;;
  '(slotElms, err) <-
    FindElements ByCSSSelector (Sprintf tutorTimeSlotSelector [tnum]) ;;
  match err with
  | Some e =>
      Go.ret (Return_
        (None, Some (Errorf "failed to get time slots for tutor #%d" [tnum] e)))
  | None =>
      slots <- scrapeSlots from tnum (List.length slotElms) 1 [] ;;
      Go.ret (Next (tutors ++ [mkTutor name slots]))
  end.

(** [for tnum := 1; tnum <= len(tutorList); tnum++], with [n] iterations
    left. *)
Fixpoint scrapeTutors (from : Time) (n : nat) (tnum : Z) (tutors : Tutors)
  : Go (Flow Tutors (option Reserve * option error)) :=
  match n with
  | O => Go.ret (Next tutors)
  | S n' =>
      r <- scrapeTutor from tnum tutors ;;
      match r with
      | Return_ x => Go.ret (Return_ x)
      | Next tutors' => scrapeTutors from n' (tnum + 1) tutors'
      end
  end.

(** The final [return &Reserve{...}, nil] (lines 207-211). *)
Definition newReserve (tutors : Tutors) : Go (option Reserve * option error) :=
  t0 <- Go.index tutors 0 ;;
  let name := TutorName t0 in
  t0 <- Go.index tutors 0 ;;
  startAt <- Go.index (AvailableSlots t0) 0 ;;
  t0 <- Go.index tutors 0 ;;
  s0 <- Go.index (AvailableSlots t0) 0 ;;
  let endAt := Time_Add s0 (25 * Minute) in
  Go.ret (Some (mkReserve name startAt endAt), None).

Definition ReserveTutor (ctx : Context) (from : Time) (margin : Duration)
  : Go (option Reserve * option error) :=
  let by_ := Time_Add (Time_Local from) margin in
  if negb ((margin <? 24 * Hour)
           && (Time_Hour localLookup from <? Time_Hour localLookup by_)) then
    Go.ret (None, Some ErrSpreadAcrossTwoDays)
  else
  let '(queryURL, err) := generateTutorSearchQuery from by_ in
  match err with
  | Some e => Go.ret (None, Some (Errorf "failed to generate search query" [] e))
  | None =>
  err <- Get queryURL ;;
  match err with
  | Some e => Go.ret (None, Some (Errorf "failed to get availabe tutor list" [] e))
  | None =>
  _ <- WaitUntilElementLoaded ByCSSSelector tutorListSelector ;;
  '(tutorList, err) <- FindElements ByCSSSelector tutorListSelector ;;
  match err with
  | Some e => Go.ret (None, Some (Errorf "failed to get tutor info" [] e))
  | None =>
  r <- scrapeTutors from (List.length tutorList) 1 [] ;;
  match r with
  | Return_ x => Go.ret x
  | Next tutors =>
  let timeSlotButtonSelector := Sprintf tutorTimeSlotButtonSelector [1; 1] in
  _ <- WaitUntilElementLoaded ByCSSSelector timeSlotButtonSelector ;;
  '(timeSlot, err) <- FindElement ByCSSSelector timeSlotButtonSelector ;;
  match err with
  | Some e => Go.ret (None, Some (Errorf "failed to find time slot button" [] e))
  | None =>
  _ <- Click timeSlot ;;
  _ <- CurrentURL ;;
  _ <- WaitUntilElementLoaded ByLinkText "予約する" ;;
  '(reserveButton, err) <- FindElement ByLinkText "予約する" ;;
  match err with
  | Some e => Go.ret (None, Some (Errorf "failed to get reserve button" [] e))
  | None =>
  _ <- Click reserveButton ;;
  _ <- WaitUntilURLChanged rarejobReservationFinishURL ;;
  newReserve tutors
  end end end end end end.

(** *** [Teardown] *)

Definition Teardown : Go (option error) :=
  err <- Quit ;;
  match err with
  | Some e =>
      Go.ret (Some (Errorf "failed to quit current webdriver session" [] e))
  | None =>
  err <- Stop ;;
  match err with
  | Some e =>
      Go.ret (Some (Errorf "failed to quit current webdriver session" [] e))
  | None => Go.ret None
  end end.

(** ** Vocabulary of the properties *)

(** [returns m P]: every value [m] returns satisfies [P]. *)
Definition returns {A} (m : Go A) (P : A -> Prop) : Prop :=
  forall w a, Go.outcome (m w) = Returned a -> P a.

(** [emits m Q]: in every backend state, the calls [m] records and the
    way it ends satisfy [Q]. *)
Definition emits {A} (m : Go A) (Q : list Event -> Outcome A -> Prop) : Prop :=
  forall w, Q (Go.events (m w)) (Go.outcome (m w)).

(** The tutor rows [ReserveTutor] finds listed (line 147), with the backend
    state in which the scrape of the rows then starts. *)
Definition listedTutors (from : Time) (margin : Duration) (w : World)
  : list WebElement * World :=
  let by_ := Time_Add (Time_Local from) margin in
  let queryURL := fst (generateTutorSearchQuery from by_) in
  let w1 := snd (wd_Get c queryURL w) in
  let w2 := snd (waitUntilElementLoaded ByCSSSelector tutorListSelector w1) in
  let found := wd_FindElements c ByCSSSelector tutorListSelector w2 in
  (fst (fst found), snd found).

(** The ways [ReserveTutor] can end that only its final construction
    produces: a [Reserve], or an index out of range. *)
Definition fromFinalStep (o : Outcome (option Reserve * option error)) : Prop :=
  match o with
  | Returned (Some _, _) => True
  | Panicked (IndexOutOfRange _ _) => True
  | _ => False
  end.

(** The calendar computation of [absDate], in two stages: the year
    cycles, giving years since the absolute zero year and the day of the
    year, then the month and day. *)
Definition cycles (d : Z) : Z * Z :=
  let n := d / daysPer400Years in
  let y := 400 * n in
  let d := d - daysPer400Years * n in
  let n := d / daysPer100Years in
  let n := n - Z.shiftr n 2 in
  let y := y + 100 * n in
  let d := d - daysPer100Years * n in
  let n := d / daysPer4Years in
  let y := y + 4 * n in
  let d := d - daysPer4Years * n in
  let n := d / 365 in
  let n := n - Z.shiftr n 2 in
  let y := y + n in
  let d := d - 365 * n in
  (y, d).

Definition monthDay (leap : bool) (yday : Z) : Month * Z :=
  if leap && (yday =? 31 + 29 - 1) then (February, 29)
  else
    let day := if leap && (yday >? 31 + 29 - 1) then yday - 1 else yday in
    let month := day / 31 in
    let end_ := daysBeforeAt (month + 1) in
    let '(month, begin) :=
      if day >=? end_ then (month + 1, end_) else (month, daysBeforeAt month) in
    (month + 1, day - begin + 1).

Definition monthDay_ok (leap : bool) (yd : Z) : bool :=
  let '(m, d) := monthDay leap yd in
  (1 <=? m) && (m <=? 12) && (1 <=? d) && (d <=? 31) &&
  (daysBeforeAt (m - 1) + (if leap && (m >=? March) then 1 else 0) + (d - 1) =? yd).

(** The day count [Date] computes from a year, month and day. *)
Definition civilDays (y : Z) (m : Month) (d : Z) : Z :=
  daysSinceEpoch y + daysBeforeAt (m - 1)
  + (if isLeap y && (m >=? March) then 1 else 0) + (d - 1).

(** The calls of a recorded trace, and the keys typed into the page. *)
Definition calls (evs : list Event) : list Call := map callOf evs.

Definition sentKeys (evs : list Event) : list string :=
  flat_map (fun e =>
    match callOf e with
    | CallSendKeys _ keys => [keys]
    | _ => []
    end) evs.

(** The trace ends with a failed call of [ReserveTutor]'s navigation or
    lookups, which returned [e]. *)
Definition failedLast (e : error) (evs : list Event) : Prop :=
  exists pre call,
    evs = pre ++ [Ev call (Some e)] /\
    match call with
    | CallGet _ | CallFindElement _ _ | CallFindElements _ _ | CallWait => True
    | _ => False
    end.

(** Calls whose error [Login] and [ReserveTutor] drop. *)
Definition unchecked (call : Call) : Prop :=
  match call with
  | CallSendKeys _ _ | CallClick _ | CallText _ | CallCurrentURL
  | CallWaitUntilElementLoaded _ _ | CallWaitUntilURLChanged _ => True
  | _ => False
  end.

(** The actions on the page of a trace: keys typed and clicks. *)
Definition formActions (evs : list Event) : list Call :=
  filter (fun call =>
    match call with
    | CallSendKeys _ _ | CallClick _ => true
    | _ => false
    end) (calls evs).

(** The element lookups of a trace that failed: lookups written in the
    method's body, those a helper makes not being events of the trace. *)
Definition failedLookups (evs : list Event) : nat :=
  List.length (filter (fun ev =>
    match ev with
    | Ev (CallFindElement _ _) (Some _) => true
    | _ => false
    end) evs).

(** The contract of selenium's [FindElement]: a handle and no error, or
    the nil handle and an error. *)
Definition nilOnError : Prop :=
  forall by_ value w,
    match fst (wd_FindElement c by_ value w) with
    | (Some _, None) | (None, Some _) => True
    | _ => False
    end.

(** The contract of selenium's [Wait]: it returns no error only once the
    condition holds. *)
Definition waitsForCondition : Prop :=
  forall cond w,
    fst (wd_Wait c cond w) = None ->
    fst (cond (snd (wd_Wait c cond w))) = true.

(** The local day of an instant, counted from the absolute zero year. *)
Definition localDay (t : Time) : Z := abs localLookup t / secondsPerDay.

(** Every failed element lookup of the trace is its last call, and the
    run then ends as [ok] says of the lookup's error. *)
Definition lookupFatal {A} (ok : error -> Outcome A -> Prop)
    (evs : list Event) (o : Outcome A) : Prop :=
  forall by_ value e,
    In (Ev (CallFindElement by_ value) (Some e)) evs ->
    (exists pre, evs = pre ++ [Ev (CallFindElement by_ value) (Some e)]) /\ ok e o.

(** How a run ends on a failed lookup: in the scrape, and in
    [ReserveTutor] as a whole. *)
Definition nilPanic {A} (_ : error) (o : Outcome A) : Prop :=
  o = Panicked NilDereference.

Definition nilPanicOrWrapped (e : error)
    (o : Outcome (option Reserve * option error)) : Prop :=
  o = Panicked NilDereference \/
  exists msg, o = Returned (None, Some (Errorf msg [] e)).

(** Calls that [ReserveTutor] never makes: it neither types keys nor
    waits on a condition, and it leaves the session and the driver
    service running. *)
Definition madeByReserveTutor (call : Call) : Prop :=
  match call with
  | CallQuit | CallStop | CallSendKeys _ _ | CallWait => False
  | _ => True
  end.

(** Calls that [Login] never makes: it reads nothing off the page and it
    leaves the session and the driver service running. *)
Definition madeByLogin (call : Call) : Prop :=
  match call with
  | CallQuit | CallStop | CallFindElements _ _ | CallText _ | CallCurrentURL
  | CallWaitUntilURLChanged _ => False
  | _ => True
  end.

(** ** Reasoning about computations *)

Lemma outcome_bind {A B} (m : Go A) (k : A -> Go B) (w : World) :
  Go.outcome (Go.bind m k w) =
  match Go.outcome (m w) with
  | Returned a => Go.outcome (k a (Go.final (m w)))
  | Panicked p => Panicked p
  end.
Proof. unfold Go.bind. destruct (Go.outcome (m w)); reflexivity. Qed.

Lemma events_bind {A B} (m : Go A) (k : A -> Go B) (w : World) :
  Go.events (Go.bind m k w) =
  Go.events (m w) ++
  match Go.outcome (m w) with
  | Returned a => Go.events (k a (Go.final (m w)))
  | Panicked _ => []
  end.
Proof.
  unfold Go.bind. destruct (Go.outcome (m w)); simpl; auto using app_nil_r.
Qed.

Lemma final_bind {A B} (m : Go A) (k : A -> Go B) (w : World) :
  Go.final (Go.bind m k w) =
  match Go.outcome (m w) with
  | Returned a => Go.final (k a (Go.final (m w)))
  | Panicked _ => Go.final (m w)
  end.
Proof. unfold Go.bind. destruct (Go.outcome (m w)); reflexivity. Qed.

Lemma returns_ret {A} (a : A) (P : A -> Prop) : P a -> returns (Go.ret a) P.
Proof. intros H w a' E. inversion E. subst. exact H. Qed.

Lemma returns_panic {A} (p : Panic) (P : A -> Prop) : returns (Go.panic p) P.
Proof. intros w a E. discriminate E. Qed.

Lemma returns_bind {A B} (m : Go A) (k : A -> Go B) (P : A -> Prop) (Q : B -> Prop) :
  returns m P -> (forall a, P a -> returns (k a) Q) -> returns (Go.bind m k) Q.
Proof.
  intros Hm Hk w b E. rewrite outcome_bind in E.
  destruct (Go.outcome (m w)) as [a|p] eqn:Em; [|discriminate].
  exact (Hk a (Hm w a Em) _ b E).
Qed.

Lemma returns_any {A} (m : Go A) : returns m (fun _ => True).
Proof. intros w a _. exact I. Qed.

Lemma returns_weaken {A} (m : Go A) (P Q : A -> Prop) :
  returns m P -> (forall a, P a -> Q a) -> returns m Q.
Proof. intros H HPQ w a E. apply HPQ. exact (H w a E). Qed.

Lemma emits_ret {A} (a : A) (Q : list Event -> Outcome A -> Prop) :
  Q [] (Returned a) -> emits (Go.ret a) Q.
Proof. intros H w. exact H. Qed.

Lemma emits_panic {A} (p : Panic) (Q : list Event -> Outcome A -> Prop) :
  Q [] (Panicked p) -> emits (Go.panic p) Q.
Proof. intros H w. exact H. Qed.

Lemma emits_invoke {A} (cl : Call) (errOf : A -> option error)
    (op : World -> A * World) (Q : list Event -> Outcome A -> Prop) :
  (forall a, Q [Ev cl (errOf a)] (Returned a)) -> emits (Go.invoke cl errOf op) Q.
Proof. intros H w. apply H. Qed.

Lemma emits_bind {A B} (m : Go A) (k : A -> Go B)
    (P : list Event -> Outcome A -> Prop) (Q : list Event -> Outcome B -> Prop) :
  emits m P ->
  (forall evs a, P evs (Returned a) -> emits (k a) (fun evs' o => Q (evs ++ evs') o)) ->
  (forall evs p, P evs (Panicked p) -> Q evs (Panicked p)) ->
  emits (Go.bind m k) Q.
Proof.
  intros Hm Hk Hp w. specialize (Hm w).
  rewrite events_bind, outcome_bind.
  destruct (Go.outcome (m w)) as [a|p].
  - exact (Hk _ a Hm (Go.final (m w))).
  - rewrite app_nil_r. exact (Hp _ p Hm).
Qed.

(** Sequencing after a backend call: the call is recorded, then the
    continuation runs on whatever the call returned. *)
Lemma emits_bind_invoke {A B} (cl : Call) (errOf : A -> option error)
    (op : World -> A * World) (k : A -> Go B)
    (Q : list Event -> Outcome B -> Prop) :
  (forall a, emits (k a) (fun evs o => Q (Ev cl (errOf a) :: evs) o)) ->
  emits (Go.bind (Go.invoke cl errOf op) k) Q.
Proof.
  intros H. eapply emits_bind.
  - apply emits_invoke with (Q := fun evs o =>
      exists a, evs = [Ev cl (errOf a)] /\ o = Returned a).
    intros a. eauto.
  - intros evs a [a' [-> E]]. inversion E. subst a'. apply H.
  - intros evs p [a' [_ E]]. discriminate E.
Qed.

(** Sequencing after a method call on an element. *)
Lemma emits_bind_method {A B} (e : WebElement) (m : Handle -> Go A)
    (k : A -> Go B) (Q : list Event -> Outcome B -> Prop) :
  match e with
  | Some h => emits (Go.bind (m h) k) Q
  | None => Q [] (Panicked NilDereference)
  end ->
  emits (Go.bind (Go.method e m) k) Q.
Proof.
  destruct e as [h|]; simpl; intros H; [exact H|].
  intros w. exact H.
Qed.

Lemma emits_weaken {A} (m : Go A) (P Q : list Event -> Outcome A -> Prop) :
  emits m P -> (forall evs o, P evs o -> Q evs o) -> emits m Q.
Proof. intros H HPQ w. apply HPQ, H. Qed.

Lemma returns_bind_any {A B} (m : Go A) (k : A -> Go B) (Q : B -> Prop) :
  (forall a, returns (k a) Q) -> returns (Go.bind m k) Q.
Proof.
  intros Hk. apply returns_bind with (P := fun _ => True); auto using returns_any.
Qed.

(** ** The window validation (lines 133-136) *)

Lemma day_in_nanoseconds : 24 * Hour = 86400000000000.
Proof. reflexivity. Qed.

Lemma Time_Hour_range (t : Time) : 0 <= Time_Hour localLookup t <= 23.
Proof.
  unfold Time_Hour.
  change secondsPerDay with 86400. change secondsPerHour with 3600.
  pose proof (Z.mod_pos_bound (abs localLookup t) 86400 ltac:(lia)) as Hm.
  split.
  - apply Z.div_pos; lia.
  - apply Z.lt_succ_r. apply Z.div_lt_upper_bound; lia.
Qed.

(** A rejected window returns the sentinel at once: the backend state is
    untouched and no call is recorded. *)
Lemma ReserveTutor_rejected (ctx : Context) (from : Time) (margin : Duration)
    (w : World) :
  ~ (margin < 24 * Hour /\
     Time_Hour localLookup from <
     Time_Hour localLookup (Time_Add (Time_Local from) margin)) ->
  ReserveTutor ctx from margin w =
  Go.mkRun (Returned (None, Some ErrSpreadAcrossTwoDays)) w [].
Proof.
  intros H. unfold ReserveTutor.
  destruct (margin <? 24 * Hour) eqn:E1; simpl; [|reflexivity].
  destruct (Time_Hour localLookup from <?
            Time_Hour localLookup (Time_Add (Time_Local from) margin)) eqn:E2;
    simpl; [|reflexivity].
  exfalso. apply H. split; [apply Z.ltb_lt, E1 | apply Z.ltb_lt, E2].
Qed.

Lemma scrapeTutor_return_wrapped (from : Time) (tnum : Z) (tutors : Tutors) :
  returns (scrapeTutor from tnum tutors) (fun r =>
    match r with
    | Next _ => True
    | Return_ x => exists f a e, x = (None, Some (Errorf f a e))
    end).
Proof.
  unfold scrapeTutor.
  apply returns_bind_any. intros [nameElm ?].
  apply returns_bind_any. intros [name ?].
  apply returns_bind_any. intros [slotElms [e|]].
  - apply returns_ret. eauto.
  - apply returns_bind_any. intros slots. apply returns_ret. exact I.
Qed.

Lemma scrapeTutors_return_wrapped (from : Time) (n : nat) :
  forall tnum tutors,
  returns (scrapeTutors from n tnum tutors) (fun r =>
    match r with
    | Next _ => True
    | Return_ x => exists f a e, x = (None, Some (Errorf f a e))
    end).
Proof.
  induction n as [|n IH]; intros tnum tutors; simpl.
  - apply returns_ret. exact I.
  - eapply returns_bind; [apply scrapeTutor_return_wrapped|].
    intros [tutors'|x] Hx.
    + apply IH.
    + apply returns_ret. exact Hx.
Qed.

Lemma newReserve_returns_reservation (tutors : Tutors) :
  returns (newReserve tutors) (fun r => exists x, r = (Some x, None)).
Proof.
  unfold newReserve.
  repeat (apply returns_bind_any; intros ?).
  apply returns_ret. eauto.
Qed.

(** Past the validation, [ReserveTutor] returns a reservation or a wrapped
    error, never the bare sentinel. *)
Lemma ReserveTutor_accepted (ctx : Context) (from : Time) (margin : Duration) :
  margin < 24 * Hour ->
  Time_Hour localLookup from <
  Time_Hour localLookup (Time_Add (Time_Local from) margin) ->
  returns (ReserveTutor ctx from margin) (fun r =>
    (exists x, r = (Some x, None)) \/
    (exists f a e, r = (None, Some (Errorf f a e)))).
Proof.
  intros H1 H2. unfold ReserveTutor.
  apply Z.ltb_lt in H1. apply Z.ltb_lt in H2. rewrite H1, H2. simpl.
  destruct (generateTutorSearchQuery _ _) as [queryURL [e|]].
  { apply returns_ret. right. eauto. }
  apply returns_bind_any. intros [e|].
  { apply returns_ret. right. eauto. }
  apply returns_bind_any. intros _.
  apply returns_bind_any. intros [tutorList [e|]].
  { apply returns_ret. right. eauto. }
  eapply returns_bind; [apply scrapeTutors_return_wrapped|].
  intros [tutors|x] Hx.
  2:{ apply returns_ret. right. exact Hx. }
  apply returns_bind_any. intros _.
  apply returns_bind_any. intros [timeSlot [e|]].
  { apply returns_ret. right. eauto. }
  apply returns_bind_any. intros _.
  apply returns_bind_any. intros _.
  apply returns_bind_any. intros _.
  apply returns_bind_any. intros [reserveButton [e|]].
  { apply returns_ret. right. eauto. }
  apply returns_bind_any. intros _.
  apply returns_bind_any. intros _.
  eapply returns_weaken; [apply newReserve_returns_reservation|].
  intros r Hr. left. exact Hr.
Qed.

(** An hour later, on the same local offset, hour 23 becomes hour 0. *)
Lemma abs_add_hour (from : Time) :
  loc from = Local ->
  0 <= nsec from < 1000000000 ->
  offset (localLookup (unixSec from + 3600)) = offset (localLookup (unixSec from)) ->
  abs localLookup (Time_Add (Time_Local from) (1 * Hour)) =
  abs localLookup from + 3600.
Proof.
  intros Hloc Hns Hoff.
  unfold abs, Time_Add, Time_Local, setLoc, unixSec in Hoff |- *. simpl.
  change (1 * Hour) with 3600000000000.
  change (Z.quot 3600000000000 1000000000) with 3600.
  change (Z.rem 3600000000000 1000000000) with 0.
  rewrite Z.add_0_r.
  destruct (nsec from >=? 1000000000) eqn:E1; [lia|].
  destruct (nsec from <? 0) eqn:E2; [lia|].
  simpl. rewrite Hloc. simpl.
  replace (ext from + 3600 + internalToUnix)
    with (ext from + internalToUnix + 3600) by lia.
  rewrite Hoff. lia.
Qed.

Lemma Time_Hour_after_23 (from : Time) :
  loc from = Local ->
  0 <= nsec from < 1000000000 ->
  offset (localLookup (unixSec from + 3600)) = offset (localLookup (unixSec from)) ->
  Time_Hour localLookup from = 23 ->
  Time_Hour localLookup (Time_Add (Time_Local from) (1 * Hour)) = 0.
Proof.
  intros Hloc Hns Hoff H23.
  unfold Time_Hour in H23 |- *. rewrite (abs_add_hour from Hloc Hns Hoff).
  revert H23. generalize (abs localLookup from). intros a.
  change secondsPerDay with 86400. change secondsPerHour with 3600.
  intros H23. clear - H23. Z.div_mod_to_equations. lia.
Qed.


(** C4: when the window is rejected, as it is for every margin of 25
    hours, [ReserveTutor] returns the cross-day error with the backend
    state untouched and no backend call recorded; when the window is
    accepted and the query URL is built, the first backend call is the
    navigation to that URL. *)
Theorem ReserveTutor_validates_before_navigation
    (ctx : Context) (from : Time) (margin : Duration) (w : World) :
  (margin = 25 * Hour \/
   ~ (margin < 24 * Hour /\
      Time_Hour localLookup from <
      Time_Hour localLookup (Time_Add (Time_Local from) margin)) ->
   ReserveTutor ctx from margin w
     = Go.mkRun (Returned (None, Some ErrSpreadAcrossTwoDays)) w [])
  /\ (margin < 24 * Hour ->
      Time_Hour localLookup from <
      Time_Hour localLookup (Time_Add (Time_Local from) margin) ->
      forall url,
      generateTutorSearchQuery from (Time_Add (Time_Local from) margin)
        = (url, None) ->
      exists err rest,
        Go.events (ReserveTutor ctx from margin w) = Ev (CallGet url) err :: rest).
Proof.
  split.
  - intros H. apply ReserveTutor_rejected. destruct H as [-> | H]; [|exact H].
    intros [H1 _]. revert H1. rewrite day_in_nanoseconds.
    change (25 * Hour) with 90000000000000. lia.
  - intros H1 H2 url Hurl. unfold ReserveTutor.
    apply Z.ltb_lt in H1. apply Z.ltb_lt in H2. rewrite H1, H2. simpl.
    rewrite Hurl. rewrite events_bind. simpl. eauto.
Qed.

(** ** [Teardown] (lines 214-222) *)

(** C3, amended: [Teardown] quits the session first; when that fails it
    returns the wrapped error at once and the driver service is never
    stopped; when it succeeds the service is stopped and a failure of
    that step is returned wrapped.  The error returned is the first one
    met. *)
Theorem Teardown_stops_at_first_error (w : World) :
  match fst (wd_Quit c w) with
  | Some e =>
      Teardown w =
      Go.mkRun
        (Returned (Some (Errorf "failed to quit current webdriver session" [] e)))
        (snd (wd_Quit c w)) [Ev CallQuit (Some e)]
  | None =>
      let w1 := snd (wd_Quit c w) in
      Teardown w =
      Go.mkRun
        (Returned
           (option_map (Errorf "failed to quit current webdriver session" [])
              (fst (s_Stop c w1))))
        (snd (s_Stop c w1)) [Ev CallQuit None; Ev CallStop (fst (s_Stop c w1))]
  end.
Proof.
  unfold Teardown, Go.bind, Quit, Stop, Go.invoke. simpl.
  destruct (fst (wd_Quit c w)) as [e|]; simpl; [reflexivity|].
  destruct (fst (s_Stop c (snd (wd_Quit c w)))) as [e|]; reflexivity.
Qed.

(** ** [Login] (lines 88-123) *)

Lemma Login_sent_keys (ctx : Context) (username password : string) :
  emits (Login ctx username password) (fun evs o =>
    (exists n,
       sentKeys evs = firstn n [Getenv "RAREJOB_EMAIL"; Getenv "RAREJOB_PASSWORD"])
    /\ (o = Returned None ->
        sentKeys evs = [Getenv "RAREJOB_EMAIL"; Getenv "RAREJOB_PASSWORD"])).
Proof.
  unfold Login.
  unfold Get. apply emits_bind_invoke. intros [e|].
  { apply emits_ret. split; [exists 0%nat; reflexivity | discriminate]. }
  unfold WaitUntilElementLoaded. apply emits_bind_invoke. intros ?.
  unfold FindElement. apply emits_bind_invoke. intros [emailInput [e|]].
  { apply emits_ret. split; [exists 0%nat; reflexivity | discriminate]. }
  unfold SendKeys. apply emits_bind_method. destruct emailInput as [h1|].
  2:{ split; [exists 0%nat; reflexivity | discriminate]. }
  apply emits_bind_invoke. intros ?.
  apply emits_bind_invoke. intros ?.
  apply emits_bind_invoke. intros [passwordInput [e|]].
  { apply emits_ret. split; [exists 1%nat; reflexivity | discriminate]. }
  apply emits_bind_method. destruct passwordInput as [h2|].
  2:{ split; [exists 1%nat; reflexivity | discriminate]. }
  apply emits_bind_invoke. intros ?.
  apply emits_bind_invoke. intros [submit [e|]].
  { apply emits_ret. split; [exists 2%nat; reflexivity | discriminate]. }
  unfold Click. apply emits_bind_method. destruct submit as [h3|].
  2:{ split; [exists 2%nat; reflexivity | discriminate]. }
  apply emits_bind_invoke. intros ?.
  unfold Wait. apply emits_bind_invoke. intros [e|].
  { apply emits_ret. split; [exists 2%nat; reflexivity | discriminate]. }
  apply emits_ret. split; [exists 2%nat; reflexivity | reflexivity].
Qed.

(** C8: [Login] does not read its [username] and [password] parameters:
    two calls in the same backend state run identically whatever the
    parameters, and the keys typed into the form are, in order, the
    values of [RAREJOB_EMAIL] and [RAREJOB_PASSWORD]: both when [Login]
    succeeds, and never anything else. *)
Theorem Login_ignores_its_credentials
    (ctx : Context) (u1 p1 u2 p2 : string) (w : World) :
  Login ctx u1 p1 w = Login ctx u2 p2 w
  /\ (exists n,
        sentKeys (Go.events (Login ctx u1 p1 w))
          = firstn n [Getenv "RAREJOB_EMAIL"; Getenv "RAREJOB_PASSWORD"])
  /\ (Go.outcome (Login ctx u1 p1 w) = Returned None ->
      sentKeys (Go.events (Login ctx u1 p1 w))
        = [Getenv "RAREJOB_EMAIL"; Getenv "RAREJOB_PASSWORD"]).
Proof.
  split; [reflexivity|]. exact (Login_sent_keys ctx u1 p1 w).
Qed.

(** ** The slot loop (lines 163-174) *)

(** What one iteration of the slot loop does, case by case. *)
Lemma scrapeSlot_run (from : Time) (tnum snum : Z) (slots : list Time) (w : World) :
  let find := CallFindElement ByCSSSelector
                (Sprintf tutorTimeSlotButtonSelector [tnum; snum]) in
  let r1 := wd_FindElement c ByCSSSelector
              (Sprintf tutorTimeSlotButtonSelector [tnum; snum]) w in
  let err := snd (fst r1) in
  scrapeSlot from tnum snum slots w =
  match fst (fst r1) with
  | None => Go.mkRun (Panicked NilDereference) (snd r1) [Ev find err]
  | Some hdl =>
      let r2 := we_Text c hdl (snd r1) in
      let p := parseTime (fst (fst r2)) in
      Go.mkRun
        (Returned
           ((match snd p with
             | Some _ =>
                 match err with Some _ => slots ++ [zeroTime] | None => slots end
                 ++ [zeroTime]
             | None =>
                 match err with Some _ => slots ++ [zeroTime] | None => slots end
             end)
            ++ [Date localLookup (Time_Year localLookup from)
                  (Time_Month localLookup from) (Time_Day localLookup from)
                  (fst (fst p)) (snd (fst p)) 0 0 Local]))
        (snd r2) [Ev find err; Ev (CallText hdl) (snd (fst r2))]
  end.
Proof.
  unfold scrapeSlot, FindElement, Text, Go.bind, Go.invoke, Go.method, Go.panic,
    Go.ret.
  simpl.
  destruct (wd_FindElement c ByCSSSelector
              (Sprintf tutorTimeSlotButtonSelector [tnum; snum]) w)
    as [[[hdl|] err] w1]; simpl; [|reflexivity].
  destruct (we_Text c hdl w1) as [[text terr] w2]; simpl.
  destruct (parseTime text) as [[hh mm] [perr|]]; simpl; reflexivity.
Qed.

Lemma scrapeSlots_panic (from : Time) (tnum : Z) (n : nat) (snum : Z)
    (slots : list Time) (w : World) (p : Panic) :
  Go.outcome (scrapeSlot from tnum snum slots w) = Panicked p ->
  Go.outcome (scrapeSlots from tnum (S n) snum slots w) = Panicked p.
Proof. intros H. simpl. rewrite outcome_bind, H. reflexivity. Qed.

(** C9: when the lookup of a slot element fails, the iteration does not
    skip to the next slot: it goes on to call [Text] on the handle it was
    given.  With the nil handle that a failed lookup yields, the call
    panics and so does the loop; with a handle, [Text] is still invoked
    on it. *)
Theorem scrapeSlot_calls_Text_after_failed_lookup
    (from : Time) (tnum snum : Z) (slots : list Time) (w : World) (e : error) :
  let value := Sprintf tutorTimeSlotButtonSelector [tnum; snum] in
  snd (fst (wd_FindElement c ByCSSSelector value w)) = Some e ->
  match fst (fst (wd_FindElement c ByCSSSelector value w)) with
  | None =>
      scrapeSlot from tnum snum slots w =
        Go.mkRun (Panicked NilDereference)
          (snd (wd_FindElement c ByCSSSelector value w))
          [Ev (CallFindElement ByCSSSelector value) (Some e)]
      /\ forall n,
         Go.outcome (scrapeSlots from tnum (S n) snum slots w)
           = Panicked NilDereference
  | Some hdl =>
      exists terr,
        calls (Go.events (scrapeSlot from tnum snum slots w)) =
          [CallFindElement ByCSSSelector value; CallText hdl] /\
        Go.events (scrapeSlot from tnum snum slots w) =
          [Ev (CallFindElement ByCSSSelector value) (Some e);
           Ev (CallText hdl) terr]
  end.
Proof.
  intros value He. subst value.
  pose proof (scrapeSlot_run from tnum snum slots w) as Hrun. simpl in Hrun.
  rewrite He in Hrun.
  destruct (fst (fst (wd_FindElement c ByCSSSelector
                        (Sprintf tutorTimeSlotButtonSelector [tnum; snum]) w)))
    as [hdl|].
  - rewrite Hrun. simpl. eexists. split; reflexivity.
  - split; [exact Hrun|].
    intros n. apply scrapeSlots_panic. rewrite Hrun. reflexivity.
Qed.

(** ** The tutor loop (lines 154-179) *)

Lemma scrapeSlot_no_enumeration (from : Time) (tnum snum : Z) (slots : list Time) :
  emits (scrapeSlot from tnum snum slots) (fun evs _ =>
    forall by_ value err, ~ In (Ev (CallFindElements by_ value) err) evs).
Proof.
  unfold scrapeSlot, FindElement, Text.
  apply emits_bind_invoke. intros [slotElm err].
  apply emits_bind_method. destruct slotElm as [hdl|].
  - apply emits_bind_invoke. intros [text terr].
    destruct (parseTime text) as [[hh mm] perr].
    apply emits_ret. simpl. intros by_ value err' [H|[H|[]]]; discriminate H.
  - simpl. intros by_ value err' [H|[]]. discriminate H.
Qed.

Lemma scrapeSlots_no_enumeration (from : Time) (tnum : Z) (n : nat) :
  forall snum slots,
  emits (scrapeSlots from tnum n snum slots) (fun evs _ =>
    forall by_ value err, ~ In (Ev (CallFindElements by_ value) err) evs).
Proof.
  induction n as [|n IH]; intros snum slots; simpl.
  - apply emits_ret. intros by_ value err [].
  - eapply emits_bind; [apply scrapeSlot_no_enumeration| |].
    + intros evs slots' H1. eapply emits_weaken; [apply IH|].
      simpl. intros evs' _ H2 by_ value err Hin.
      apply in_app_or in Hin. destruct Hin as [Hin|Hin].
      * exact (H1 _ _ _ Hin).
      * exact (H2 _ _ _ Hin).
    + intros evs p H1. exact H1.
Qed.

(** A failed enumeration of a row's slots ends the row with an early
    return of the error; the tutors gathered so far are dropped. *)
Lemma scrapeTutor_enumeration_fatal (from : Time) (tnum : Z) (tutors : Tutors) :
  emits (scrapeTutor from tnum tutors) (fun evs o =>
    forall by_ value e,
    In (Ev (CallFindElements by_ value) (Some e)) evs ->
    o = Returned (Return_
          (None, Some (Errorf "failed to get time slots for tutor #%d" [tnum] e)))).
Proof.
  unfold scrapeTutor, FindElement, Text, FindElements.
  apply emits_bind_invoke. intros [nameElm nerr].
  apply emits_bind_method. destruct nameElm as [hdl|].
  2:{ simpl. intros by_ value e [H|[]]. discriminate H. }
  apply emits_bind_invoke. intros [name terr].
  apply emits_bind_invoke. intros [slotElms [e|]].
  - apply emits_ret. simpl. intros by_ value e' [H|[H|[H|[]]]]; try discriminate H.
    inversion H. reflexivity.
  - eapply emits_bind; [apply scrapeSlots_no_enumeration| |].
    + intros evs slots H1. apply emits_ret. rewrite app_nil_r. simpl.
      intros by_ value e' [H|[H|[H|H]]]; try discriminate H.
      exfalso. exact (H1 _ _ _ H).
    + intros evs p H1. simpl.
      intros by_ value e' [H|[H|[H|H]]]; try discriminate H.
      exfalso. exact (H1 _ _ _ H).
Qed.

Lemma scrapeTutors_enumeration_fatal (from : Time) (n : nat) :
  forall tnum tutors,
  emits (scrapeTutors from n tnum tutors) (fun evs o =>
    forall by_ value e,
    In (Ev (CallFindElements by_ value) (Some e)) evs ->
    exists k,
      o = Returned (Return_
            (None, Some (Errorf "failed to get time slots for tutor #%d" [k] e)))).
Proof.
  induction n as [|n IH]; intros tnum tutors; simpl.
  - apply emits_ret. intros by_ value e [].
  - eapply emits_bind; [apply scrapeTutor_enumeration_fatal| |].
    + intros evs [tutors'|x] H1.
      * eapply emits_weaken; [apply IH|]. simpl.
        intros evs' o H2 by_ value e Hin.
        apply in_app_or in Hin. destruct Hin as [Hin|Hin].
        -- specialize (H1 _ _ _ Hin). discriminate H1.
        -- exact (H2 _ _ _ Hin).
      * apply emits_ret. rewrite app_nil_r. intros by_ value e Hin.
        exists tnum. exact (H1 _ _ _ Hin).
    + intros evs p H1 by_ value e Hin. specialize (H1 _ _ _ Hin). discriminate H1.
Qed.

Lemma ReserveTutor_enumeration_fatal (ctx : Context) (from : Time) (margin : Duration) :
  emits (ReserveTutor ctx from margin) (fun evs o =>
    forall by_ value e,
    In (Ev (CallFindElements by_ value) (Some e)) evs ->
    o = Returned (None, Some (Errorf "failed to get tutor info" [] e)) \/
    exists k,
      o = Returned
            (None, Some (Errorf "failed to get time slots for tutor #%d" [k] e))).
Proof.
  unfold ReserveTutor.
  destruct (negb _).
  { apply emits_ret. intros by_ value e []. }
  destruct (generateTutorSearchQuery _ _) as [queryURL [e|]].
  { apply emits_ret. intros by_ value e' []. }
  unfold Get, WaitUntilElementLoaded, FindElements.
  apply emits_bind_invoke. intros [e|].
  { apply emits_ret. simpl. intros by_ value e' [H|[]]. discriminate H. }
  apply emits_bind_invoke. intros werr.
  apply emits_bind_invoke. intros [tutorList [e|]].
  { apply emits_ret. simpl. intros by_ value e' [H|[H|[H|[]]]]; try discriminate H.
    inversion H. left. reflexivity. }
  eapply emits_bind; [apply scrapeTutors_enumeration_fatal| |].
  2:{ intros evs p H1. simpl. intros by_ value e' [H|[H|[H|H]]]; try discriminate H.
      destruct (H1 _ _ _ H) as [k Hk]. discriminate Hk. }
  intros evs [tutors|x] H1.
  2:{ apply emits_ret. rewrite app_nil_r. simpl.
      intros by_ value e' [H|[H|[H|H]]]; try discriminate H.
      destruct (H1 _ _ _ H) as [k Hk]. inversion Hk. right. exists k. reflexivity. }
  assert (Hpre : forall by_ value e (rest : list Event),
            In (Ev (CallFindElements by_ value) (Some e))
               (Ev (CallGet queryURL) None
                :: Ev (CallWaitUntilElementLoaded ByCSSSelector tutorListSelector) werr
                :: Ev (CallFindElements ByCSSSelector tutorListSelector) None
                :: evs ++ rest) ->
            In (Ev (CallFindElements by_ value) (Some e)) rest).
  { intros by_ value e rest [H|[H|[H|H]]]; try discriminate H.
    apply in_app_or in H. destruct H as [H|H]; [|exact H].
    destruct (H1 _ _ _ H) as [k Hk]. discriminate Hk. }
  unfold FindElement, Click, CurrentURL, WaitUntilURLChanged.
  apply emits_bind_invoke. intros werr2.
  apply emits_bind_invoke. intros [timeSlot [e|]].
  { apply emits_ret. intros by_ value e' Hin. apply Hpre in Hin.
    simpl in Hin. destruct Hin as [H|[H|[]]]; discriminate H. }
  apply emits_bind_method. destruct timeSlot as [h1|].
  2:{ intros by_ value e' Hin. apply Hpre in Hin.
      simpl in Hin. destruct Hin as [H|[H|[]]]; discriminate H. }
  apply emits_bind_invoke. intros cerr.
  apply emits_bind_invoke. intros [url uerr].
  apply emits_bind_invoke. intros werr3.
  apply emits_bind_invoke. intros [reserveButton [e|]].
  { apply emits_ret. intros by_ value e' Hin. apply Hpre in Hin.
    simpl in Hin.
    repeat (destruct Hin as [Hin|Hin]; [discriminate Hin|]). destruct Hin. }
  apply emits_bind_method. destruct reserveButton as [h2|].
  2:{ intros by_ value e' Hin. apply Hpre in Hin.
      simpl in Hin.
      repeat (destruct Hin as [Hin|Hin]; [discriminate Hin|]). destruct Hin. }
  apply emits_bind_invoke. intros cerr2.
  apply emits_bind_invoke. intros werr4.
  intros w by_ value e' Hin. apply Hpre in Hin. exfalso.
  simpl in Hin.
  repeat (destruct Hin as [Hin|Hin]; [discriminate Hin|]).
  revert Hin. unfold newReserve, Go.index, Go.bind, Go.panic, Go.ret.
  destruct tutors as [|[name [|s ss]] ts]; simpl; intros [].
Qed.

(** C6: if the enumeration of slot elements fails, for whichever tutor
    row, then [ReserveTutor] returns that error, wrapped, and no
    [Reserve]: neither the tutors gathered before the failure nor any
    other partial result reaches the caller.  (The enumeration of the
    tutor rows themselves is fatal in the same way.) *)
Theorem ReserveTutor_slot_enumeration_failure_is_fatal
    (ctx : Context) (from : Time) (margin : Duration) (w : World)
    (by_ : By) (value : string) (e : error) :
  In (Ev (CallFindElements by_ value) (Some e))
     (Go.events (ReserveTutor ctx from margin w)) ->
  Go.outcome (ReserveTutor ctx from margin w)
    = Returned (None, Some (Errorf "failed to get tutor info" [] e)) \/
  exists tnum,
    Go.outcome (ReserveTutor ctx from margin w)
      = Returned
          (None, Some (Errorf "failed to get time slots for tutor #%d" [tnum] e)).
Proof. apply ReserveTutor_enumeration_fatal. Qed.

(** ** The reservation returned (lines 207-211) *)

Lemma Date_nsec (y : Z) (mo : Month) (d h mi : Z) (l : Location) :
  nsec (Date localLookup y mo d h mi 0 0 l) = 0.
Proof.
  unfold Date.
  destruct (norm y (mo - 1) 12) as [y' m'].
  change (norm 0 0 1000000000) with (0, 0).
  cbv beta iota.
  destruct (norm mi 0 60) as [mi' s'].
  destruct (norm h mi' 60) as [h' mi''].
  destruct (norm d h' 24) as [d' h''].
  reflexivity.
Qed.

(** Every slot the loops gather is the zero time or comes from [Date] on
    the date of [from]: a property of both carries over to all slots. *)
Lemma scrapeSlot_invariant (P : Time -> Prop) (from : Time) (tnum snum : Z)
    (slots : list Time) :
  P zeroTime ->
  (forall h m,
     P (Date localLookup (Time_Year localLookup from) (Time_Month localLookup from)
          (Time_Day localLookup from) h m 0 0 Local)) ->
  Forall P slots ->
  returns (scrapeSlot from tnum snum slots) (Forall P).
Proof.
  intros Hzero Hdate H. unfold scrapeSlot.
  apply returns_bind_any. intros [slotElm err].
  apply returns_bind_any. intros [text terr].
  destruct (parseTime text) as [[hh mm] perr].
  apply returns_ret.
  repeat (apply Forall_app; split);
    try (destruct perr; [apply Forall_app; split|]);
    try (destruct err; [apply Forall_app; split|]);
    try exact H;
    repeat constructor; auto.
Qed.

Lemma scrapeSlots_invariant (P : Time -> Prop) (from : Time) (tnum : Z) (n : nat) :
  P zeroTime ->
  (forall h m,
     P (Date localLookup (Time_Year localLookup from) (Time_Month localLookup from)
          (Time_Day localLookup from) h m 0 0 Local)) ->
  forall snum slots,
  Forall P slots ->
  returns (scrapeSlots from tnum n snum slots) (Forall P).
Proof.
  intros Hzero Hdate.
  induction n as [|n IH]; intros snum slots H; simpl.
  - apply returns_ret. exact H.
  - eapply returns_bind;
      [exact (scrapeSlot_invariant P from tnum snum slots Hzero Hdate H)|].
    intros slots' H'. apply IH, H'.
Qed.

Lemma scrapeTutors_invariant (P : Time -> Prop) (from : Time) (n : nat) :
  P zeroTime ->
  (forall h m,
     P (Date localLookup (Time_Year localLookup from) (Time_Month localLookup from)
          (Time_Day localLookup from) h m 0 0 Local)) ->
  forall tnum tutors,
  Forall (fun t => Forall P (AvailableSlots t)) tutors ->
  returns (scrapeTutors from n tnum tutors) (fun r =>
    match r with
    | Next tutors' => Forall (fun t => Forall P (AvailableSlots t)) tutors'
    | Return_ _ => True
    end).
Proof.
  intros Hzero Hdate.
  induction n as [|n IH]; intros tnum tutors H; simpl.
  - apply returns_ret. exact H.
  - apply returns_bind with (P := fun r =>
      match r with
      | Next tutors' => Forall (fun t => Forall P (AvailableSlots t)) tutors'
      | Return_ _ => True
      end).
    + unfold scrapeTutor.
      apply returns_bind_any. intros [nameElm nerr].
      apply returns_bind_any. intros [name terr].
      apply returns_bind_any. intros [slotElms [e|]].
      * apply returns_ret. exact I.
      * eapply returns_bind;
          [exact (scrapeSlots_invariant P from tnum _ Hzero Hdate 1 []
                    (Forall_nil _))|].
        intros slots Hs. apply returns_ret.
        apply Forall_app. split; [exact H|]. repeat constructor. exact Hs.
    + intros [tutors'|x] H'.
      * apply IH, H'.
      * apply returns_ret. exact I.
Qed.

Lemma scrapeTutors_nsec (from : Time) (n : nat) (tnum : Z) (tutors : Tutors) :
  Forall (fun t => Forall (fun s => nsec s = 0) (AvailableSlots t)) tutors ->
  returns (scrapeTutors from n tnum tutors) (fun r =>
    match r with
    | Next tutors' =>
        Forall (fun t => Forall (fun s => nsec s = 0) (AvailableSlots t)) tutors'
    | Return_ _ => True
    end).
Proof.
  apply (scrapeTutors_invariant (fun s => nsec s = 0)).
  - reflexivity.
  - intros h m. apply Date_nsec.
Qed.

Lemma Time_Add_25_minutes (s : Time) :
  nsec s = 0 -> Time_Add s (25 * Minute) = mkTime (ext s + 1500) 0 (loc s).
Proof.
  intros H. unfold Time_Add. rewrite H.
  change (25 * Minute) with 1500000000000.
  reflexivity.
Qed.

Lemma newReserve_run (tutors : Tutors) (w : World) :
  newReserve tutors w =
  match tutors with
  | [] => Go.mkRun (Panicked (IndexOutOfRange 0 0)) w []
  | t :: _ =>
      match AvailableSlots t with
      | [] => Go.mkRun (Panicked (IndexOutOfRange 0 0)) w []
      | s :: _ =>
          Go.mkRun
            (Returned
               (Some (mkReserve (TutorName t) s (Time_Add s (25 * Minute))), None))
            w []
      end
  end.
Proof.
  unfold newReserve, Go.index, Go.bind, Go.panic, Go.ret.
  destruct tutors as [|[name [|s ss]] ts]; reflexivity.
Qed.

Lemma scrapeSlots_panics_nil (from : Time) (tnum : Z) (n : nat) :
  forall snum slots w p,
  Go.outcome (scrapeSlots from tnum n snum slots w) = Panicked p ->
  p = NilDereference.
Proof.
  induction n as [|n IH]; intros snum slots w p; simpl.
  - discriminate.
  - rewrite outcome_bind.
    pose proof (scrapeSlot_run from tnum snum slots w) as Hrun. simpl in Hrun.
    rewrite Hrun.
    destruct (fst (fst (wd_FindElement c ByCSSSelector
                          (Sprintf tutorTimeSlotButtonSelector [tnum; snum]) w))).
    + cbn [Go.outcome Go.final]. apply IH.
    + cbn [Go.outcome]. intros E. inversion E. reflexivity.
Qed.

Lemma scrapeTutors_panics_nil (from : Time) (n : nat) :
  forall tnum tutors w p,
  Go.outcome (scrapeTutors from n tnum tutors w) = Panicked p ->
  p = NilDereference.
Proof.
  induction n as [|n IH]; intros tnum tutors w p; simpl.
  - discriminate.
  - rewrite outcome_bind.
    destruct (Go.outcome (scrapeTutor from tnum tutors w)) as [[tutors'|x]|p'] eqn:E.
    + apply IH.
    + discriminate.
    + intros E'. inversion E'. subst p'. clear E'. revert E.
      unfold scrapeTutor, FindElement, FindElements, Text, Go.method.
      rewrite outcome_bind. cbn [Go.outcome Go.final Go.invoke].
      match goal with
      | |- context [wd_FindElement c ?b ?v ?w0] =>
          destruct (wd_FindElement c b v w0) as [[[h1|] nerr] w1]
      end; cbn [fst snd].
      2:{ rewrite outcome_bind. cbn. intros E. inversion E. reflexivity. }
      rewrite outcome_bind. cbn [Go.outcome Go.final Go.invoke].
      destruct (we_Text c h1 w1) as [[name terr] w2]; cbn [fst snd].
      rewrite outcome_bind. cbn [Go.outcome Go.final Go.invoke].
      match goal with
      | |- context [wd_FindElements c ?b ?v ?w0] =>
          destruct (wd_FindElements c b v w0) as [[slotElms [e|]] w3]
      end; cbn [fst snd]; [discriminate|].
      rewrite outcome_bind.
      destruct (Go.outcome (scrapeSlots from tnum (List.length slotElms) 1 [] w3))
        as [slots|p'] eqn:Es; [discriminate|].
      intros E. inversion E. subst p'.
      exact (scrapeSlots_panics_nil _ _ _ _ _ _ _ Es).
Qed.

(** A run that ends in a [Reserve] or in an index out of range went
    through the scrape and ends as [newReserve] does on the tutors
    gathered. *)
Lemma ReserveTutor_final_inv (ctx : Context) (from : Time) (margin : Duration)
    (w : World) :
  fromFinalStep (Go.outcome (ReserveTutor ctx from margin w)) ->
  exists w2 tutors,
    Go.outcome
      (scrapeTutors from (List.length (fst (listedTutors from margin w))) 1 []
         (snd (listedTutors from margin w)))
      = Returned (Next tutors) /\
    Go.outcome (newReserve tutors w2) = Go.outcome (ReserveTutor ctx from margin w).
Proof.
  unfold ReserveTutor, listedTutors. cbv zeta.
  destruct (negb _); [intros []|].
  destruct (generateTutorSearchQuery _ _) as [queryURL [e|]]; [intros []|].
  cbn [fst].
  unfold Get, WaitUntilElementLoaded, FindElements, FindElement, Click, CurrentURL,
    WaitUntilURLChanged, Go.method.
  rewrite outcome_bind. cbn [Go.outcome Go.final Go.invoke].
  destruct (fst (wd_Get c queryURL w)) as [e|]; [intros []|].
  rewrite outcome_bind. cbn [Go.outcome Go.final Go.invoke].
  rewrite outcome_bind. cbn [Go.outcome Go.final Go.invoke].
  match goal with
  | |- context [wd_FindElements c ?b ?v ?w0] =>
      destruct (wd_FindElements c b v w0) as [[tutorList [e|]] w1]
  end; cbn [fst snd]; [intros []|].
  rewrite outcome_bind.
  destruct (Go.outcome (scrapeTutors from (List.length tutorList) 1 [] w1))
    as [[tutors|x]|p] eqn:Hs.
  2:{ intros H. exfalso.
      pose proof (scrapeTutors_return_wrapped from _ _ _ _ _ Hs) as [f [a [e He]]].
      cbn in H. rewrite He in H. exact H. }
  2:{ intros H. exfalso.
      rewrite (scrapeTutors_panics_nil _ _ _ _ _ _ Hs) in H. exact H. }
  rewrite outcome_bind. cbn [Go.outcome Go.final Go.invoke].
  rewrite outcome_bind. cbn [Go.outcome Go.final Go.invoke].
  match goal with
  | |- context [wd_FindElement c ?b ?v ?w0] =>
      destruct (wd_FindElement c b v w0) as [[[h1|] [e|]] w3]
  end; cbn [fst snd]; try (intros []);
    try (rewrite outcome_bind; cbn; intros []).
  rewrite outcome_bind. cbn [Go.outcome Go.final Go.invoke].
  rewrite outcome_bind. cbn [Go.outcome Go.final Go.invoke].
  rewrite outcome_bind. cbn [Go.outcome Go.final Go.invoke].
  rewrite outcome_bind. cbn [Go.outcome Go.final Go.invoke].
  match goal with
  | |- context [wd_FindElement c ?b ?v ?w0] =>
      destruct (wd_FindElement c b v w0) as [[[h2|] [e|]] w5]
  end; cbn [fst snd]; try (intros []);
    try (rewrite outcome_bind; cbn; intros []).
  rewrite outcome_bind. cbn [Go.outcome Go.final Go.invoke].
  rewrite outcome_bind. cbn [Go.outcome Go.final Go.invoke].
  intros H. eauto 10.
Qed.

Lemma ReserveTutor_returned_inv (ctx : Context) (from : Time) (margin : Duration)
    (w : World) (r : Reserve) (err : option error) :
  Go.outcome (ReserveTutor ctx from margin w) = Returned (Some r, err) ->
  exists w2 tutors,
    Go.outcome
      (scrapeTutors from (List.length (fst (listedTutors from margin w))) 1 []
         (snd (listedTutors from margin w)))
      = Returned (Next tutors) /\
    Go.outcome (newReserve tutors w2) = Returned (Some r, err).
Proof.
  intros H. rewrite <- H. apply ReserveTutor_final_inv. rewrite H. exact I.
Qed.

(** In a local zone of constant offset, [Date] is the UTC reading moved
    by the offset. *)
Lemma Date_constant_offset (off : Z) (y : Z) (mo : Month) (d h mi : Z) :
  (forall s, offset (localLookup s) = off) ->
  Date localLookup y mo d h mi 0 0 Local =
  mkTime (ext (Date localLookup y mo d h mi 0 0 UTC) - off) 0 Local.
Proof.
  intros Hoff. unfold Date.
  destruct (norm y (mo - 1) 12) as [y' m'].
  change (norm 0 0 1000000000) with (0, 0).
  cbv beta iota.
  destruct (norm mi 0 60) as [mi' s'].
  destruct (norm h mi' 60) as [h' mi''].
  destruct (norm d h' 24) as [d' h''].
  cbn [lookup offset zstart zend]. rewrite !Hoff.
  change (0 =? 0) with true. cbv iota.
  unfold setLoc, unixTime. cbn [ext nsec].
  destruct (off =? 0) eqn:E.
  - apply Z.eqb_eq in E. subst off. f_equal. lia.
  - f_equal.
    match goal with
    | |- context [if ?b then off else off] => destruct b
    end; lia.
Qed.

Lemma abs_constant_offset (off : Z) (e ns : Z) :
  (forall s, offset (localLookup s) = off) ->
  abs localLookup (mkTime (e - off) ns Local) = abs localLookup (mkTime e ns UTC).
Proof.
  intros Hoff. unfold abs, unixSec. cbn [ext loc lookup offset]. rewrite Hoff. lia.
Qed.

(** C5: a [Reserve] is only ever returned with a nil error, and it is
    built from the first tutor the scrape gathered and that tutor's
    first slot: [StartAt] is that slot and [EndAt] is [StartAt] plus 25
    minutes, 1500 seconds later on the same clock.  For a first slot at
    2024-05-01 09:00 local (constant zone offset), [EndAt] is 2024-05-01
    09:25 local. *)
Theorem ReserveTutor_returns_first_tutor_first_slot
    (ctx : Context) (from : Time) (margin : Duration) (w : World)
    (r : Reserve) (err : option error) :
  Go.outcome (ReserveTutor ctx from margin w) = Returned (Some r, err) ->
  err = None
  /\ (exists t ts s ss,
        Go.outcome
          (scrapeTutors from (List.length (fst (listedTutors from margin w))) 1 []
             (snd (listedTutors from margin w)))
          = Returned (Next (t :: ts)) /\
        AvailableSlots t = s :: ss /\
        Name r = TutorName t /\ StartAt r = s)
  /\ EndAt r = Time_Add (StartAt r) (25 * Minute)
  /\ unixSec (EndAt r) = unixSec (StartAt r) + 25 * 60
  /\ nsec (EndAt r) = nsec (StartAt r)
  /\ loc (EndAt r) = loc (StartAt r)
  /\ (forall off,
        (forall s, offset (localLookup s) = off) ->
        StartAt r = Date localLookup 2024 5 1 9 0 0 0 Local ->
        EndAt r = Date localLookup 2024 5 1 9 25 0 0 Local /\
        (Time_Year localLookup (EndAt r), Time_Month localLookup (EndAt r),
         Time_Day localLookup (EndAt r), Time_Hour localLookup (EndAt r),
         Time_Minute localLookup (EndAt r)) = (2024, 5, 1, 9, 25)).
Proof.
  intros H.
  destruct (ReserveTutor_returned_inv ctx from margin w r err H)
    as [w2 [tutors [Hs Hn]]].
  pose proof (scrapeTutors_nsec from _ 1 [] (Forall_nil _) _ _ Hs) as Hns.
  cbn beta iota in Hns.
  rewrite newReserve_run in Hn.
  destruct tutors as [|t ts]; [discriminate Hn|].
  destruct (AvailableSlots t) as [|s ss] eqn:Hslots; [discriminate Hn|].
  cbn [Go.outcome] in Hn. injection Hn as Hr He. subst r err.
  cbn [Name StartAt EndAt].
  assert (Hs0 : nsec s = 0).
  { inversion Hns as [|? ? Ht _]. subst. rewrite Hslots in Ht.
    inversion Ht. assumption. }
  assert (HE : Time_Add s 1500000000000 = mkTime (ext s + 1500) 0 (loc s))
    by exact (Time_Add_25_minutes s Hs0).
  change (25 * Minute) with 1500000000000. rewrite HE.
  split; [reflexivity|].
  split; [exists t, ts, s, ss; auto|].
  split; [reflexivity|].
  split; [unfold unixSec; cbn [ext]; lia|].
  split; [cbn [nsec]; lia|].
  split; [reflexivity|].
  intros off Hoff Hstart.
  rewrite (Date_constant_offset off _ _ _ _ _ Hoff) in Hstart.
  rewrite (Date_constant_offset off _ _ _ _ _ Hoff).
  subst s. cbn [ext loc].
  assert (E1 : ext (Date localLookup 2024 5 1 9 0 0 0 UTC) = 63850150800)
    by reflexivity.
  assert (E2 : ext (Date localLookup 2024 5 1 9 25 0 0 UTC) = 63850152300)
    by reflexivity.
  rewrite E1, E2.
  replace (63850150800 - off + 1500) with (63850152300 - off) by lia.
  split; [reflexivity|].
  unfold Time_Year, Time_Month, Time_Day, Time_Hour, Time_Minute.
  rewrite (abs_constant_offset off _ _ Hoff).
  reflexivity.
Qed.

(** C10: the final construction indexes [tutors[0]] and
    [tutors[0].AvailableSlots[0]] unguarded: it returns the reservation
    when the first tutor has a first slot, and panics with an index out of
    range, rather than returning an error, when the tutor list or that
    slot sequence is empty.  Every index panic of [ReserveTutor] is this
    one: the scrape had gathered no tutor, or a first tutor without
    slots. *)
Theorem newReserve_indexes_unguarded
    (ctx : Context) (from : Time) (margin : Duration) (tutors : Tutors) (w : World) :
  (forall t ts s ss,
     tutors = t :: ts -> AvailableSlots t = s :: ss ->
     newReserve tutors w =
       Go.mkRun
         (Returned (Some (mkReserve (TutorName t) s (Time_Add s (25 * Minute))), None))
         w [])
  /\ (tutors = [] \/ (exists t ts, tutors = t :: ts /\ AvailableSlots t = []) ->
      newReserve tutors w = Go.mkRun (Panicked (IndexOutOfRange 0 0)) w [])
  /\ (forall r err,
        Go.outcome (newReserve tutors w) = Returned (r, err) ->
        exists t ts s ss, tutors = t :: ts /\ AvailableSlots t = s :: ss)
  /\ (forall i n,
        Go.outcome (ReserveTutor ctx from margin w) = Panicked (IndexOutOfRange i n) ->
        i = 0 /\ n = 0 /\
        exists scraped,
          Go.outcome
            (scrapeTutors from (List.length (fst (listedTutors from margin w))) 1 []
               (snd (listedTutors from margin w)))
            = Returned (Next scraped) /\
          (scraped = [] \/
           exists t ts, scraped = t :: ts /\ AvailableSlots t = [])).
Proof.
  rewrite newReserve_run. split; [|split; [|split]].
  - intros t ts s ss -> ->. reflexivity.
  - intros [-> | [t [ts [-> ->]]]]; reflexivity.
  - intros r err. destruct tutors as [|t ts]; [discriminate|].
    destruct (AvailableSlots t) as [|s ss] eqn:E; [discriminate|].
    intros _. exists t, ts, s, ss. auto.
  - intros i n H.
    destruct (ReserveTutor_final_inv ctx from margin w) as [w2 [scraped [Hs Hn]]].
    { rewrite H. exact I. }
    rewrite H, newReserve_run in Hn.
    destruct scraped as [|t ts].
    + injection Hn as <- <-. repeat split; eauto 10.
    + destruct (AvailableSlots t) as [|s ss] eqn:E; [|discriminate Hn].
      injection Hn as <- <-. repeat split; eauto 10.
Qed.

(** ** Calendar facts *)

Lemma absDate_cycles (a : Z) :
  absDate a =
  let '(y, yd) := cycles (a / secondsPerDay) in
  let '(m, d) := monthDay (isLeap (y + absoluteZeroYear)) yd in
  (y + absoluteZeroYear, m, d, yd).
Proof.
  unfold absDate, cycles, monthDay. cbv zeta.
  match goal with
  | |- context [isLeap ?y && (?d =? ?k)] =>
      destruct (isLeap y && (d =? k)); [reflexivity|]
  end.
  match goal with
  | |- context [if ?b then (_, _) else (_, _)] => destruct b; reflexivity
  end.
Qed.

Lemma cycles_spec (d : Z) :
  let '(y, yd) := cycles d in
  0 <= yd <= 365 /\
  daysSinceEpoch (y + absoluteZeroYear) = d - yd /\
  (yd = 365 -> isLeap (y + absoluteZeroYear) = true).
Proof.
  unfold cycles, daysSinceEpoch, isLeap.
  change daysPer400Years with 146097. change daysPer100Years with 36524.
  change daysPer4Years with 1461. change absoluteZeroYear with (-292277022399).
  cbv zeta. rewrite !Z.shiftr_div_pow2 by lia. change (2 ^ 2) with 4.
  clear - d. split; [|split].
  - Z.div_mod_to_equations. lia.
  - Z.div_mod_to_equations. lia.
  - intros H.
    rewrite andb_true_iff, orb_true_iff, negb_true_iff, !Z.eqb_eq, Z.eqb_neq.
    rewrite !Z.rem_mod_eq_0 by lia.
    Z.div_mod_to_equations. lia.
Qed.

Lemma monthDay_ok_all (leap : bool) :
  forallb (fun k => monthDay_ok leap (Z.of_nat k))
    (seq 0 (if leap then 366 else 365)) = true.
Proof. destruct leap; vm_compute; reflexivity. Qed.

Lemma monthDay_spec (leap : bool) (yd : Z) :
  0 <= yd <= 365 -> (yd = 365 -> leap = true) ->
  let '(m, d) := monthDay leap yd in
  1 <= m <= 12 /\ 1 <= d <= 31 /\
  daysBeforeAt (m - 1) + (if leap && (m >=? March) then 1 else 0) + (d - 1) = yd.
Proof.
  intros Hyd Hleap.
  pose proof (monthDay_ok_all leap) as Hall.
  rewrite forallb_forall in Hall.
  specialize (Hall (Z.to_nat yd)).
  rewrite Z2Nat.id in Hall by lia.
  assert (Hin : In (Z.to_nat yd) (seq 0 (if leap then 366 else 365))).
  { apply in_seq. destruct leap; [lia|].
    assert (yd <> 365) by (intros E; specialize (Hleap E); discriminate). lia. }
  specialize (Hall Hin). unfold monthDay_ok in Hall.
  destruct (monthDay leap yd) as [m d].
  rewrite !andb_true_iff, !Z.leb_le, Z.eqb_eq in Hall. lia.
Qed.

Lemma absDate_civilDays (a : Z) :
  let '(y, m, d, _) := absDate a in
  1 <= m <= 12 /\ 1 <= d <= 31 /\ civilDays y m d = a / secondsPerDay.
Proof.
  rewrite absDate_cycles.
  pose proof (cycles_spec (a / secondsPerDay)) as Hc.
  destruct (cycles (a / secondsPerDay)) as [y yd].
  destruct Hc as [Hyd [Hdays Hleap]].
  pose proof (monthDay_spec (isLeap (y + absoluteZeroYear)) yd Hyd Hleap) as Hm.
  destruct (monthDay (isLeap (y + absoluteZeroYear)) yd) as [m d].
  destruct Hm as [Hm [Hd Hsum]].
  split; [exact Hm|]. split; [exact Hd|].
  unfold civilDays. rewrite Hdays. lia.
Qed.

Lemma absDate_same_day (a b : Z) :
  a / secondsPerDay = b / secondsPerDay -> absDate a = absDate b.
Proof. intros H. unfold absDate. rewrite H. reflexivity. Qed.

Lemma norm_in_range (hi lo base : Z) : 0 <= lo < base -> norm hi lo base = (hi, lo).
Proof.
  intros H. unfold norm.
  destruct (lo <? 0) eqn:E1; [apply Z.ltb_lt in E1; lia|].
  destruct (lo >=? base) eqn:E2; [apply Z.geb_le in E2; lia|].
  reflexivity.
Qed.

(** On normalised fields, [Date] in UTC lands on the day count of the date
    and the given time of day. *)
Lemma Date_UTC_abs (y : Z) (m : Month) (d hh mm : Z) :
  1 <= m <= 12 -> 0 <= hh < 24 -> 0 <= mm < 60 ->
  abs localLookup (mkTime (ext (Date localLookup y m d hh mm 0 0 UTC)) 0 UTC) =
  civilDays y m d * secondsPerDay + hh * secondsPerHour + mm * secondsPerMinute.
Proof.
  intros Hm Hh Hmm. unfold Date.
  rewrite (norm_in_range y (m - 1) 12) by lia.
  change (norm 0 0 1000000000) with (0, 0). cbv beta iota.
  rewrite (norm_in_range mm 0 60) by lia.
  rewrite (norm_in_range hh mm 60) by lia.
  rewrite (norm_in_range d hh 24) by lia.
  cbv beta iota zeta. cbn [lookup offset]. change (0 =? 0) with true. cbv iota.
  unfold abs, unixSec, setLoc, unixTime, civilDays. cbn [ext nsec loc lookup offset].
  replace (m - 1 + 1) with m by lia.
  change (unixToInternal + internalToAbsolute)
    with (- (absoluteToInternal + internalToUnix)).
  change internalToUnix with (- unixToInternal).
  destruct (isLeap y && (m >=? March)); lia.
Qed.

(** A slot built by [Date] from the date of [from] and a time of day
    reads back as that date and that time, in a local zone of constant
    offset. *)
Lemma time_of_day (days hh mm : Z) :
  0 <= hh < 24 -> 0 <= mm < 60 ->
  let a := days * secondsPerDay + hh * secondsPerHour + mm * secondsPerMinute in
  a / secondsPerDay = days /\
  (a mod secondsPerDay) / secondsPerHour = hh /\
  (a mod secondsPerHour) / secondsPerMinute = mm.
Proof.
  intros Hh Hmm. clear - Hh Hmm. cbv zeta.
  change secondsPerDay with 86400. change secondsPerHour with 3600.
  change secondsPerMinute with 60.
  repeat split; Z.div_mod_to_equations; lia.
Qed.

Lemma Date_reads_back (off : Z) (from : Time) (hh mm : Z) :
  (forall s, offset (localLookup s) = off) ->
  0 <= hh < 24 -> 0 <= mm < 60 ->
  let slot :=
    Date localLookup (Time_Year localLookup from) (Time_Month localLookup from)
      (Time_Day localLookup from) hh mm 0 0 Local in
  Time_Year localLookup slot = Time_Year localLookup from /\
  Time_Month localLookup slot = Time_Month localLookup from /\
  Time_Day localLookup slot = Time_Day localLookup from /\
  Time_Hour localLookup slot = hh /\
  Time_Minute localLookup slot = mm.
Proof.
  intros Hoff Hh Hmm. cbv zeta.
  unfold Time_Year, Time_Month, Time_Day, Time_Hour, Time_Minute.
  pose proof (absDate_civilDays (abs localLookup from)) as Hc.
  destruct (absDate (abs localLookup from)) as [[[y m] d] yd] eqn:Ea.
  destruct Hc as [Hm [Hd Hdays]].
  rewrite (Date_constant_offset off _ _ _ _ _ Hoff).
  rewrite (abs_constant_offset off _ _ Hoff).
  rewrite (Date_UTC_abs y m d hh mm Hm Hh Hmm).
  rewrite Hdays.
  destruct (time_of_day (abs localLookup from / secondsPerDay) hh mm Hh Hmm)
    as [Hday [Hhour Hmin]].
  rewrite (absDate_same_day _ _ Hday), Ea.
  auto.
Qed.

(** ** Slots and the search date (lines 169-173) *)

Lemma Date_loc (y : Z) (mo : Month) (d h mi s ns : Z) (l : Location) :
  loc (Date localLookup y mo d h mi s ns l) = l.
Proof.
  unfold Date.
  destruct (norm y (mo - 1) 12) as [y' m'].
  destruct (norm s ns 1000000000) as [s' ns'].
  destruct (norm mi s' 60) as [mi' s''].
  destruct (norm h mi' 60) as [h' mi''].
  destruct (norm d h' 24) as [d' h''].
  reflexivity.
Qed.

(** When the label parses, the iteration ends by appending the slot on
    the search date. *)
Lemma scrapeSlot_parsed (from : Time) (tnum snum : Z) (slots : list Time)
    (w : World) (hdl : Handle) (hh mm : Z) :
  let r1 := wd_FindElement c ByCSSSelector
              (Sprintf tutorTimeSlotButtonSelector [tnum; snum]) w in
  fst (fst r1) = Some hdl ->
  parseTime (fst (fst (we_Text c hdl (snd r1)))) = (hh, mm, None) ->
  Go.outcome (scrapeSlot from tnum snum slots w) =
  Returned
    (match snd (fst r1) with Some _ => slots ++ [zeroTime] | None => slots end
     ++ [Date localLookup (Time_Year localLookup from) (Time_Month localLookup from)
           (Time_Day localLookup from) hh mm 0 0 Local]).
Proof.
  intros r1 Hh Hp. subst r1.
  pose proof (scrapeSlot_run from tnum snum slots w) as Hrun. simpl in Hrun.
  rewrite Hrun, Hh. cbn [Go.outcome]. rewrite Hp. reflexivity.
Qed.

(** When the label does not parse, the zero time is appended and then,
    the iteration going on, a slot built from the hour and minute
    returned with the error: two entries for one element. *)
Lemma scrapeSlot_parse_failure (from : Time) (tnum snum : Z) (slots : list Time)
    (w : World) (hdl : Handle) (hh mm : Z) (perr : error) :
  let r1 := wd_FindElement c ByCSSSelector
              (Sprintf tutorTimeSlotButtonSelector [tnum; snum]) w in
  r1 = ((Some hdl, None), snd r1) ->
  parseTime (fst (fst (we_Text c hdl (snd r1)))) = (hh, mm, Some perr) ->
  Go.outcome (scrapeSlot from tnum snum slots w) =
  Returned
    (slots ++
     [zeroTime;
      Date localLookup (Time_Year localLookup from) (Time_Month localLookup from)
        (Time_Day localLookup from) hh mm 0 0 Local]).
Proof.
  intros r1 Hr Hp. subst r1.
  pose proof (scrapeSlot_run from tnum snum slots w) as Hrun. simpl in Hrun.
  rewrite Hrun. rewrite Hr. cbn [fst snd Go.outcome].
  rewrite Hr in Hp. cbn [fst snd] in Hp. rewrite Hp. cbn [fst snd].
  rewrite <- app_assoc. reflexivity.
Qed.

(** The iteration on a slot whose button is found and whose label reads
    [text]. *)
Lemma scrapeSlot_found (from : Time) (tnum snum : Z) (slots : list Time)
    (w w1 w2 : World) (hdl : Handle) (text : string) (terr : option error)
    (hh mm : Z) (perr : option error) :
  wd_FindElement c ByCSSSelector
    (Sprintf tutorTimeSlotButtonSelector [tnum; snum]) w = ((Some hdl, None), w1) ->
  we_Text c hdl w1 = ((text, terr), w2) ->
  parseTime text = (hh, mm, perr) ->
  Go.outcome (scrapeSlot from tnum snum slots w) =
    Returned
      (slots ++
       match perr with Some _ => [zeroTime] | None => [] end ++
       [Date localLookup (Time_Year localLookup from) (Time_Month localLookup from)
          (Time_Day localLookup from) hh mm 0 0 Local])
  /\ Go.final (scrapeSlot from tnum snum slots w) = w2.
Proof.
  intros Hfind Htext Hparse.
  pose proof (scrapeSlot_run from tnum snum slots w) as Hrun. simpl in Hrun.
  rewrite Hrun, Hfind. cbn [fst snd]. rewrite Htext. cbn [fst snd Go.outcome Go.final].
  rewrite Hparse. cbn [fst snd].
  split; [|reflexivity].
  destruct perr; [rewrite <- app_assoc|]; reflexivity.
Qed.


(** ** How [ReserveTutor] ends (lines 125-212) *)

(** X1: [ReserveTutor] ends in one of four ways: it returns a [Reserve]
    with a nil error, it returns no [Reserve] with an error (the sentinel
    or a wrapped error), it panics on a nil element, or it panics on the
    final index.  It never returns nil with nil, nor a [Reserve] with an
    error. *)
Theorem ReserveTutor_outcomes
    (ctx : Context) (from : Time) (margin : Duration) (w : World) :
  match Go.outcome (ReserveTutor ctx from margin w) with
  | Returned (Some _, None) => True
  | Returned (None, Some e) =>
      e = ErrSpreadAcrossTwoDays \/ exists f a e', e = Errorf f a e'
  | Returned _ => False
  | Panicked p => p = NilDereference \/ p = IndexOutOfRange 0 0
  end.
Proof.
  destruct (Go.outcome (ReserveTutor ctx from margin w)) as [[r err]|p] eqn:E.
  - destruct (margin <? 24 * Hour) eqn:E1;
      [destruct (Time_Hour localLookup from <?
                 Time_Hour localLookup (Time_Add (Time_Local from) margin)) eqn:E2|].
    + apply Z.ltb_lt in E1. apply Z.ltb_lt in E2.
      destruct (ReserveTutor_accepted ctx from margin E1 E2 w _ E)
        as [[x Hx]|[f [a [e He]]]]; inversion_clear Hx || inversion_clear He; eauto.
    + rewrite (ReserveTutor_rejected ctx from margin w) in E.
      * injection E as <- <-. left. reflexivity.
      * intros [_ H2]. apply Z.ltb_lt in H2. congruence.
    + rewrite (ReserveTutor_rejected ctx from margin w) in E.
      * injection E as <- <-. left. reflexivity.
      * intros [H1 _]. apply Z.ltb_lt in H1. congruence.
  - destruct p as [|i n]; [left; reflexivity|]. right.
    destruct (ReserveTutor_final_inv ctx from margin w) as [w2 [tutors [_ Hn]]].
    { rewrite E. exact I. }
    rewrite E, newReserve_run in Hn.
    destruct tutors as [|t ts]; [injection Hn as <- <-; reflexivity|].
    destruct (AvailableSlots t); [injection Hn as <- <-; reflexivity|discriminate Hn].
Qed.

Lemma failedLast_one (e : error) (call : Call) :
  match call with
  | CallGet _ | CallFindElement _ _ | CallFindElements _ _ | CallWait => True
  | _ => False
  end ->
  failedLast e [Ev call (Some e)].
Proof. intros H. exists [], call. split; [reflexivity|exact H]. Qed.

Lemma failedLast_cons (e : error) (ev : Event) (evs : list Event) :
  failedLast e evs -> failedLast e (ev :: evs).
Proof.
  intros [pre [call [-> H]]]. exists (ev :: pre), call. split; [reflexivity|exact H].
Qed.

Lemma failedLast_app (e : error) (evs evs' : list Event) :
  failedLast e evs' -> failedLast e (evs ++ evs').
Proof.
  intros [pre [call [-> H]]]. exists (evs ++ pre), call.
  split; [apply app_assoc|exact H].
Qed.

Ltac failed_last :=
  repeat first [ apply failedLast_one; exact I
               | apply failedLast_cons
               | apply failedLast_app ].

Lemma scrapeTutor_failedLast (from : Time) (tnum : Z) (tutors : Tutors) :
  emits (scrapeTutor from tnum tutors) (fun evs o =>
    forall x, o = Returned (Return_ x) ->
    exists e,
      x = (None, Some (Errorf "failed to get time slots for tutor #%d" [tnum] e))
      /\ failedLast e evs).
Proof.
  unfold scrapeTutor, FindElement, Text, FindElements.
  apply emits_bind_invoke. intros [nameElm nerr].
  apply emits_bind_method. destruct nameElm as [hdl|]; [|discriminate].
  apply emits_bind_invoke. intros [name terr].
  apply emits_bind_invoke. intros [slotElms [e|]].
  - apply emits_ret. intros x H. injection H as <-. exists e.
    split; [reflexivity|]. cbn [snd]. failed_last.
  - eapply emits_bind; [apply (emits_weaken _ (fun _ _ => True) (fun _ _ => True));
                        [intros w; exact I|auto]| |].
    + intros evs slots _. apply emits_ret. discriminate.
    + intros evs p _. discriminate.
Qed.

Lemma scrapeTutors_failedLast (from : Time) (n : nat) :
  forall tnum tutors,
  emits (scrapeTutors from n tnum tutors) (fun evs o =>
    forall x, o = Returned (Return_ x) ->
    exists k e,
      x = (None, Some (Errorf "failed to get time slots for tutor #%d" [k] e))
      /\ failedLast e evs).
Proof.
  induction n as [|n IH]; intros tnum tutors; simpl.
  - apply emits_ret. discriminate.
  - eapply emits_bind; [apply scrapeTutor_failedLast| |].
    + intros evs [tutors'|x] H1.
      * eapply emits_weaken; [apply IH|]. simpl.
        intros evs' o H2 x Hx. destruct (H2 x Hx) as [k [e [-> Hl]]].
        exists k, e. split; [reflexivity|]. failed_last. exact Hl.
      * apply emits_ret. rewrite app_nil_r. intros x' Hx. injection Hx as <-.
        destruct (H1 x eq_refl) as [e [-> Hl]]. eauto.
    + intros evs p _. discriminate.
Qed.

Lemma ReserveTutor_failedLast (ctx : Context) (from : Time) (margin : Duration) :
  emits (ReserveTutor ctx from margin) (fun evs o =>
    forall r err, o = Returned (r, Some err) ->
    (err = ErrSpreadAcrossTwoDays /\ evs = []) \/
    exists msg args e,
      err = Errorf msg args e /\
      ((evs = [] /\
        snd (generateTutorSearchQuery from (Time_Add (Time_Local from) margin))
          = Some e)
       \/ failedLast e evs)).
Proof.
  unfold ReserveTutor.
  destruct (negb _).
  { apply emits_ret. intros r err H. injection H as <- <-. left. auto. }
  destruct (generateTutorSearchQuery _ _) as [queryURL [e|]].
  { apply emits_ret. intros r err H. injection H as <- <-. right.
    eexists _, _, e. split; [reflexivity|]. left. auto. }
  unfold Get, WaitUntilElementLoaded, FindElements.
  apply emits_bind_invoke. intros [e|].
  { apply emits_ret. intros r err H. injection H as <- <-. right.
    eexists _, _, e. split; [reflexivity|]. right. failed_last. }
  apply emits_bind_invoke. intros werr.
  apply emits_bind_invoke. intros [tutorList [e|]].
  { apply emits_ret. intros r err H. injection H as <- <-. right.
    eexists _, _, e. split; [reflexivity|]. right. cbn [snd]. failed_last. }
  eapply emits_bind; [apply scrapeTutors_failedLast| |].
  2:{ intros evs p _. discriminate. }
  intros evs [tutors|x] H1.
  2:{ apply emits_ret. rewrite app_nil_r. intros r err Hx.
      destruct (H1 x eq_refl) as [k [e [-> Hl]]]. injection Hx as <- <-. right.
      eexists _, _, e. split; [reflexivity|]. right. failed_last. exact Hl. }
  unfold FindElement, Click, CurrentURL, WaitUntilURLChanged.
  apply emits_bind_invoke. intros werr2.
  apply emits_bind_invoke. intros [timeSlot [e|]].
  { apply emits_ret. intros r err H. injection H as <- <-. right.
    eexists _, _, e. split; [reflexivity|]. right. cbn [snd]. failed_last. }
  apply emits_bind_method. destruct timeSlot as [h1|]; [|discriminate].
  apply emits_bind_invoke. intros cerr.
  apply emits_bind_invoke. intros [url uerr].
  apply emits_bind_invoke. intros werr3.
  apply emits_bind_invoke. intros [reserveButton [e|]].
  { apply emits_ret. intros r err H. injection H as <- <-. right.
    eexists _, _, e. split; [reflexivity|]. right. cbn [snd]. failed_last. }
  apply emits_bind_method. destruct reserveButton as [h2|]; [|discriminate].
  apply emits_bind_invoke. intros cerr2.
  apply emits_bind_invoke. intros werr4.
  intros w r err. rewrite newReserve_run.
  destruct tutors as [|t ts]; [discriminate|].
  destruct (AvailableSlots t); discriminate.
Qed.

(** X2: [ReserveTutor] stops at the first failure it checks.  An error
    it returns is the sentinel, with nothing asked of the backend; or it
    wraps the error of the query builder, again with nothing asked of the
    backend; or it wraps the error of the last call recorded, a [Get],
    [FindElements] or [FindElement]: no call follows the failed one. *)
Theorem ReserveTutor_error_is_of_last_call
    (ctx : Context) (from : Time) (margin : Duration) (w : World)
    (r : option Reserve) (err : error) :
  Go.outcome (ReserveTutor ctx from margin w) = Returned (r, Some err) ->
  (err = ErrSpreadAcrossTwoDays /\ Go.events (ReserveTutor ctx from margin w) = []) \/
  exists msg args e,
    err = Errorf msg args e /\
    ((Go.events (ReserveTutor ctx from margin w) = [] /\
      snd (generateTutorSearchQuery from (Time_Add (Time_Local from) margin))
        = Some e)
     \/ failedLast e (Go.events (ReserveTutor ctx from margin w))).
Proof. apply ReserveTutor_failedLast. Qed.

(** ** More on [Login] (lines 88-123) *)

Lemma Login_checked_calls (ctx : Context) (username password : string) :
  emits (Login ctx username password) (fun evs o =>
    match o with
    | Returned (Some err) => exists msg e, err = Errorf msg [] e /\ failedLast e evs
    | Returned None =>
        (forall call e, In (Ev call (Some e)) evs -> unchecked call) /\
        exists pre, evs = pre ++ [Ev CallWait None]
    | Panicked p => p = NilDereference
    end).
Proof.
  unfold Login, Get, WaitUntilElementLoaded, FindElement, SendKeys, Click, Wait.
  apply emits_bind_invoke. intros [e|].
  { apply emits_ret. eexists _, e. split; [reflexivity|]. failed_last. }
  apply emits_bind_invoke. intros werr1.
  apply emits_bind_invoke. intros [emailInput [e|]].
  { apply emits_ret. eexists _, e. split; [reflexivity|]. cbn [snd]. failed_last. }
  apply emits_bind_method. destruct emailInput as [h1|]; [|reflexivity].
  apply emits_bind_invoke. intros kerr1.
  apply emits_bind_invoke. intros werr2.
  apply emits_bind_invoke. intros [passwordInput [e|]].
  { apply emits_ret. eexists _, e. split; [reflexivity|]. cbn [snd]. failed_last. }
  apply emits_bind_method. destruct passwordInput as [h2|]; [|reflexivity].
  apply emits_bind_invoke. intros kerr2.
  apply emits_bind_invoke. intros [submit [e|]].
  { apply emits_ret. eexists _, e. split; [reflexivity|]. cbn [snd]. failed_last. }
  apply emits_bind_method. destruct submit as [h3|]; [|reflexivity].
  apply emits_bind_invoke. intros cerr.
  apply emits_bind_invoke. intros [e|].
  { apply emits_ret. eexists _, e. split; [reflexivity|]. failed_last. }
  apply emits_ret. cbn [snd]. split.
  - intros call e Hin. simpl in Hin.
    repeat (destruct Hin as [Hin|Hin]; [inversion Hin; exact I|]).
    destruct Hin.
  - eexists [_; _; _; _; _; _; _; _; _]. reflexivity.
Qed.

(** X3: [Login] checks the navigation, the three element lookups and the
    final wait, and nothing else.  An error it returns wraps the error of
    the last call recorded, one of those; when it returns nil, the last
    call is the wait, which succeeded, and any failed call of the trace
    is a [SendKeys], a [Click] or a [waitUntilElementLoaded], whose
    errors are dropped.  The only panic is a nil element. *)
Theorem Login_checks_lookups_only
    (ctx : Context) (username password : string) (w : World) :
  match Go.outcome (Login ctx username password w) with
  | Returned (Some err) =>
      exists msg e,
        err = Errorf msg [] e /\
        failedLast e (Go.events (Login ctx username password w))
  | Returned None =>
      (forall call e,
         In (Ev call (Some e)) (Go.events (Login ctx username password w)) ->
         unchecked call) /\
      exists pre, Go.events (Login ctx username password w) = pre ++ [Ev CallWait None]
  | Panicked p => p = NilDereference
  end.
Proof. apply Login_checked_calls. Qed.

Lemma Login_form_actions (ctx : Context) (username password : string) :
  emits (Login ctx username password) (fun evs o =>
    exists h1 h2 h3 n,
      formActions evs =
        firstn n [CallSendKeys h1 (Getenv "RAREJOB_EMAIL");
                  CallSendKeys h2 (Getenv "RAREJOB_PASSWORD");
                  CallClick h3]
      /\ (o = Returned None -> n = 3%nat)).
Proof.
  unfold Login, Get, WaitUntilElementLoaded, FindElement, SendKeys, Click, Wait.
  apply emits_bind_invoke. intros [e|].
  { apply emits_ret. exists 0, 0, 0, 0%nat. split; [reflexivity|discriminate]. }
  apply emits_bind_invoke. intros werr1.
  apply emits_bind_invoke. intros [emailInput [e|]].
  { apply emits_ret. exists 0, 0, 0, 0%nat. split; [reflexivity|discriminate]. }
  apply emits_bind_method. destruct emailInput as [h1|].
  2:{ exists 0, 0, 0, 0%nat. split; [reflexivity|discriminate]. }
  apply emits_bind_invoke. intros kerr1.
  apply emits_bind_invoke. intros werr2.
  apply emits_bind_invoke. intros [passwordInput [e|]].
  { apply emits_ret. exists h1, 0, 0, 1%nat. split; [reflexivity|discriminate]. }
  apply emits_bind_method. destruct passwordInput as [h2|].
  2:{ exists h1, 0, 0, 1%nat. split; [reflexivity|discriminate]. }
  apply emits_bind_invoke. intros kerr2.
  apply emits_bind_invoke. intros [submit [e|]].
  { apply emits_ret. exists h1, h2, 0, 2%nat. split; [reflexivity|discriminate]. }
  apply emits_bind_method. destruct submit as [h3|].
  2:{ exists h1, h2, 0, 2%nat. split; [reflexivity|discriminate]. }
  apply emits_bind_invoke. intros cerr.
  apply emits_bind_invoke. intros [e|].
  { apply emits_ret. exists h1, h2, h3, 3%nat. split; [reflexivity|discriminate]. }
  apply emits_ret. exists h1, h2, h3, 3%nat. split; reflexivity.
Qed.

(** X4: [Login] acts on the page in a fixed order: it types the email,
    then types the password, then clicks submit.  The actions of any run
    are an initial part of that sequence, so the form is never submitted
    before both fields were typed, and a run that returns nil did all
    three. *)
Theorem Login_submits_after_typing
    (ctx : Context) (username password : string) (w : World) :
  exists h1 h2 h3 n,
    formActions (Go.events (Login ctx username password w)) =
      firstn n [CallSendKeys h1 (Getenv "RAREJOB_EMAIL");
                CallSendKeys h2 (Getenv "RAREJOB_PASSWORD");
                CallClick h3]
    /\ (Go.outcome (Login ctx username password w) = Returned None -> n = 3%nat).
Proof. apply Login_form_actions. Qed.

(** X5: with a [Wait] that returns no error only once its condition
    holds, a [Login] that returns nil leaves a session whose identifier
    is not empty. *)
Theorem Login_success_has_session
    (ctx : Context) (username password : string) (w : World) :
  waitsForCondition ->
  Go.outcome (Login ctx username password w) = Returned None ->
  wd_SessionID c (Go.final (Login ctx username password w)) <> "".
Proof.
  intros Hwait.
  unfold Login, Get, WaitUntilElementLoaded, FindElement, SendKeys, Click, Wait,
    Go.method.
  rewrite outcome_bind, final_bind. cbn [Go.outcome Go.final Go.invoke].
  destruct (fst (wd_Get c rarejobLoginURL w)) as [e|]; [discriminate|].
  rewrite outcome_bind, final_bind. cbn [Go.outcome Go.final Go.invoke].
  rewrite outcome_bind, final_bind. cbn [Go.outcome Go.final Go.invoke].
  match goal with
  | |- context [wd_FindElement c ?b ?v ?w0] =>
      destruct (wd_FindElement c b v w0) as [[[h1|] [e|]] w1]
  end; cbn [fst snd]; try discriminate;
    try (rewrite outcome_bind; cbn; discriminate).
  rewrite outcome_bind, final_bind. cbn [Go.outcome Go.final Go.invoke].
  rewrite outcome_bind, final_bind. cbn [Go.outcome Go.final Go.invoke].
  rewrite outcome_bind, final_bind. cbn [Go.outcome Go.final Go.invoke].
  match goal with
  | |- context [wd_FindElement c ?b ?v ?w0] =>
      destruct (wd_FindElement c b v w0) as [[[h2|] [e|]] w2]
  end; cbn [fst snd]; try discriminate;
    try (rewrite outcome_bind; cbn; discriminate).
  rewrite outcome_bind, final_bind. cbn [Go.outcome Go.final Go.invoke].
  rewrite outcome_bind, final_bind. cbn [Go.outcome Go.final Go.invoke].
  match goal with
  | |- context [wd_FindElement c ?b ?v ?w0] =>
      destruct (wd_FindElement c b v w0) as [[[h3|] [e|]] w3]
  end; cbn [fst snd]; try discriminate;
    try (rewrite outcome_bind; cbn; discriminate).
  rewrite outcome_bind, final_bind. cbn [Go.outcome Go.final Go.invoke].
  rewrite outcome_bind, final_bind. cbn [Go.outcome Go.final Go.invoke].
  match goal with
  | |- context [wd_Wait c ?cond ?w0] =>
      pose proof (Hwait cond w0) as Hc;
      destruct (wd_Wait c cond w0) as [[e|] w4]
  end; cbn [fst snd] in *; [discriminate|].
  intros _. specialize (Hc eq_refl). cbn [fst] in Hc.
  unfold Go.ret. cbn [Go.final].
  apply negb_true_iff in Hc. intros E. rewrite E in Hc. discriminate Hc.
Qed.

(** ** What the scrape gathers (lines 152-179) *)

Lemma scrapeTutors_appends (from : Time) (n : nat) :
  forall tnum tutors,
  returns (scrapeTutors from n tnum tutors) (fun r =>
    match r with
    | Next tutors' =>
        exists added, tutors' = tutors ++ added /\ List.length added = n
    | Return_ _ => True
    end).
Proof.
  induction n as [|n IH]; intros tnum tutors; simpl.
  - apply returns_ret. exists []. split; [symmetry; apply app_nil_r|reflexivity].
  - apply returns_bind with (P := fun r =>
      match r with
      | Next tutors' => exists t, tutors' = tutors ++ [t]
      | Return_ _ => True
      end).
    + unfold scrapeTutor.
      apply returns_bind_any. intros [nameElm nerr].
      apply returns_bind_any. intros [name terr].
      apply returns_bind_any. intros [slotElms [e|]].
      * apply returns_ret. exact I.
      * apply returns_bind_any. intros slots. apply returns_ret. eauto.
    + intros [tutors'|x] H.
      * destruct H as [t ->].
        eapply returns_weaken; [apply IH|].
        intros [tutors''|x] H'; [|exact I].
        destruct H' as [added [-> Hlen]]. exists (t :: added).
        split; [rewrite <- app_assoc; reflexivity|simpl; congruence].
      * apply returns_ret. exact I.
Qed.

(** X6: a scrape that runs to its end gathers exactly one [Tutor] per
    listed row, appended in row order to the tutors it already held.  So
    a [Reserve] is only ever returned when at least one tutor row was
    listed, and then as many tutors were gathered as rows were listed. *)
Theorem scrapeTutors_one_tutor_per_row
    (ctx : Context) (from : Time) (margin : Duration) (w : World) :
  (forall n tnum tutors w1 tutors',
     Go.outcome (scrapeTutors from n tnum tutors w1) = Returned (Next tutors') ->
     exists added, tutors' = tutors ++ added /\ List.length added = n)
  /\ (forall r err,
        Go.outcome (ReserveTutor ctx from margin w) = Returned (Some r, err) ->
        fst (listedTutors from margin w) <> [] /\
        exists tutors,
          Go.outcome
            (scrapeTutors from (List.length (fst (listedTutors from margin w))) 1 []
               (snd (listedTutors from margin w)))
            = Returned (Next tutors) /\
          List.length tutors = List.length (fst (listedTutors from margin w))).
Proof.
  split.
  - intros n tnum tutors w1 tutors' H.
    exact (scrapeTutors_appends from n tnum tutors w1 _ H).
  - intros r err H.
    destruct (ReserveTutor_returned_inv ctx from margin w r err H)
      as [w2 [tutors [Hs Hn]]].
    destruct (scrapeTutors_appends from _ 1 [] _ _ Hs) as [added [Hadd Hlen]].
    simpl in Hadd. subst added.
    rewrite newReserve_run in Hn.
    split.
    + intros Hnil. rewrite Hnil in Hlen. destruct tutors; [discriminate Hn|].
      discriminate Hlen.
    + exists tutors. split; assumption.
Qed.

(** ** What a row's slots hold (lines 162-174) *)

Lemma failedLookups_app (xs ys : list Event) :
  failedLookups (xs ++ ys) = (failedLookups xs + failedLookups ys)%nat.
Proof. unfold failedLookups. rewrite filter_app, length_app. reflexivity. Qed.

Lemma scrapeSlot_counts (from : Time) (tnum snum : Z) (slots : list Time) :
  emits (scrapeSlot from tnum snum slots) (fun evs o =>
    forall slots', o = Returned slots' ->
    exists added,
      slots' = slots ++ added /\
      (1 + failedLookups evs <= List.length added <= 2 + failedLookups evs)%nat /\
      ((forall text, snd (parseTime text) = None) ->
       List.length added = (1 + failedLookups evs)%nat)).
Proof.
  unfold scrapeSlot, FindElement, Text.
  apply emits_bind_invoke. intros [slotElm err].
  apply emits_bind_method. destruct slotElm as [hdl|]; [|discriminate].
  apply emits_bind_invoke. intros [text terr].
  pose proof (fun H : forall text, snd (parseTime text) = None => H text) as Hp.
  destruct (parseTime text) as [[hh mm] perr].
  apply emits_ret. intros slots' H. injection H as <-. cbn [snd] in *.
  destruct err as [e|], perr as [pe|]; rewrite <- ?app_assoc;
    (eexists; split; [reflexivity|]); unfold failedLookups; simpl;
    (split; [lia|]); intros Hall; specialize (Hp Hall);
    try discriminate Hp; reflexivity.
Qed.

Lemma scrapeSlots_counts (from : Time) (tnum : Z) (n : nat) :
  forall snum slots,
  emits (scrapeSlots from tnum n snum slots) (fun evs o =>
    forall slots', o = Returned slots' ->
    exists added,
      slots' = slots ++ added /\
      (n + failedLookups evs <= List.length added <= 2 * n + failedLookups evs)%nat /\
      ((forall text, snd (parseTime text) = None) ->
       List.length added = (n + failedLookups evs)%nat)).
Proof.
  induction n as [|n IH]; intros snum slots; cbn [scrapeSlots].
  - apply emits_ret. intros slots' H. injection H as <-. exists [].
    split; [symmetry; apply app_nil_r|]. cbn. split; [lia|reflexivity].
  - eapply emits_bind; [apply scrapeSlot_counts| |].
    + intros evs slots1 H1.
      destruct (H1 slots1 eq_refl) as [added1 [-> [Hb1 He1]]].
      eapply emits_weaken; [apply IH|]. cbn beta.
      intros evs' o H2 slots' Ho.
      destruct (H2 slots' Ho) as [added2 [-> [Hb2 He2]]].
      exists (added1 ++ added2). rewrite failedLookups_app, length_app.
      split; [symmetry; apply app_assoc|].
      split; [lia|]. intros Hall. rewrite (He1 Hall), (He2 Hall). lia.
    + intros evs p _. discriminate.
Qed.

(** X7: a row's slot sequence only grows, and by a bounded number of
    entries: the loop over [n] slot elements appends one entry per
    element, one more for every lookup that returned an error, and at
    most one more per element for a label that did not parse.  With a
    parser that never fails the count is exact. *)
Theorem scrapeSlots_entry_count
    (from : Time) (tnum : Z) (n : nat) (snum : Z) (slots : list Time) (w : World)
    (slots' : list Time) :
  Go.outcome (scrapeSlots from tnum n snum slots w) = Returned slots' ->
  let failed := failedLookups (Go.events (scrapeSlots from tnum n snum slots w)) in
  exists added,
    slots' = slots ++ added /\
    (n + failed <= List.length added <= 2 * n + failed)%nat /\
    ((forall text, snd (parseTime text) = None) ->
     List.length added = (n + failed)%nat).
Proof. intros H. exact (scrapeSlots_counts from tnum n snum slots w slots' H). Qed.

(** X8: the first entry of a row's slots, the one a [Reserve] reports as
    [StartAt], is decided by the first slot element alone: it is the slot
    on the search date when the lookup returned no error and the label
    parsed, and the zero time otherwise. *)
Theorem scrapeSlots_first_entry
    (from : Time) (tnum : Z) (n : nat) (snum : Z) (w : World)
    (slots' : list Time) (hdl : Handle) :
  let r1 := wd_FindElement c ByCSSSelector
              (Sprintf tutorTimeSlotButtonSelector [tnum; snum]) w in
  let p := parseTime (fst (fst (we_Text c hdl (snd r1)))) in
  fst (fst r1) = Some hdl ->
  Go.outcome (scrapeSlots from tnum (S n) snum [] w) = Returned slots' ->
  hd_error slots' =
  Some
    match snd (fst r1), snd p with
    | None, None =>
        Date localLookup (Time_Year localLookup from) (Time_Month localLookup from)
          (Time_Day localLookup from) (fst (fst p)) (snd (fst p)) 0 0 Local
    | _, _ => zeroTime
    end.
Proof.
  intros r1 p Hh. subst r1 p. cbn [scrapeSlots]. rewrite outcome_bind.
  pose proof (scrapeSlot_run from tnum snum [] w) as Hrun. simpl in Hrun.
  rewrite Hrun, Hh. cbn [Go.outcome Go.final].
  intros H.
  match type of H with
  | Go.outcome (scrapeSlots _ _ _ _ ?s1 ?w1) = _ =>
      destruct (scrapeSlots_counts from tnum n (snum + 1) s1 w1 slots' H)
        as [added [-> _]]
  end.
  destruct (snd (fst (wd_FindElement c ByCSSSelector
                        (Sprintf tutorTimeSlotButtonSelector [tnum; snum]) w)));
    destruct (snd (parseTime _)); reflexivity.
Qed.

(** ** Failed element lookups (lines 156-168, 188, 199) *)

(** Sequencing after a backend call whose results all satisfy [P]. *)
Lemma emits_bind_invoke_post {A B} (cl : Call) (errOf : A -> option error)
    (op : World -> A * World) (k : A -> Go B) (P : A -> Prop)
    (Q : list Event -> Outcome B -> Prop) :
  (forall w, P (fst (op w))) ->
  (forall a, P a -> emits (k a) (fun evs o => Q (Ev cl (errOf a) :: evs) o)) ->
  emits (Go.bind (Go.invoke cl errOf op) k) Q.
Proof.
  intros HP H w. rewrite events_bind, outcome_bind.
  cbn [Go.invoke Go.events Go.outcome Go.final]. exact (H _ (HP w) _).
Qed.

Lemma lookupFatal_nil {A} (ok : error -> Outcome A -> Prop) (o : Outcome A) :
  lookupFatal ok [] o.
Proof. intros by_ value e []. Qed.

Lemma lookupFatal_one {A} (ok : error -> Outcome A -> Prop)
    (by_ : By) (value : string) (e : error) (o : Outcome A) :
  ok e o -> lookupFatal ok [Ev (CallFindElement by_ value) (Some e)] o.
Proof.
  intros H by' value' e' [Hin|[]]. injection Hin as <- <- <-.
  split; [exists []; reflexivity|exact H].
Qed.

Lemma lookupFatal_cons {A} (ok : error -> Outcome A -> Prop)
    (ev : Event) (evs : list Event) (o : Outcome A) :
  (forall by_ value e, ev <> Ev (CallFindElement by_ value) (Some e)) ->
  lookupFatal ok evs o -> lookupFatal ok (ev :: evs) o.
Proof.
  intros Hev H by_ value e [Hin|Hin]; [exfalso; exact (Hev _ _ _ Hin)|].
  destruct (H _ _ _ Hin) as [[pre ->] Hok].
  split; [exists (ev :: pre); reflexivity|exact Hok].
Qed.

Lemma lookupFatal_app {A} (ok : error -> Outcome A -> Prop)
    (evs evs' : list Event) (o : Outcome A) :
  (forall by_ value e, ~ In (Ev (CallFindElement by_ value) (Some e)) evs) ->
  lookupFatal ok evs' o -> lookupFatal ok (evs ++ evs') o.
Proof.
  intros Hno H by_ value e Hin. apply in_app_or in Hin.
  destruct Hin as [Hin|Hin]; [exfalso; exact (Hno _ _ _ Hin)|].
  destruct (H _ _ _ Hin) as [[pre ->] Hok].
  split; [exists (evs ++ pre); apply app_assoc|exact Hok].
Qed.

(** A run that went on after its calls saw no failed lookup. *)
Lemma lookupFatal_returned {B} (evs : list Event) (a : B) :
  lookupFatal nilPanic evs (Returned a) ->
  forall by_ value e, ~ In (Ev (CallFindElement by_ value) (Some e)) evs.
Proof. intros H by_ value e Hin. destruct (H _ _ _ Hin) as [_ Hp]. discriminate Hp. Qed.

Lemma lookupFatal_panicked {A B} (evs : list Event) (p : Panic) :
  lookupFatal nilPanic evs (@Panicked A p) ->
  lookupFatal nilPanic evs (@Panicked B p).
Proof.
  intros H by_ value e Hin. destruct (H _ _ _ Hin) as [Hl Hp].
  split; [exact Hl|]. unfold nilPanic in *. congruence.
Qed.

Ltac lookup_fatal :=
  repeat first
    [ apply lookupFatal_nil
    | apply lookupFatal_cons; [intros ? ? ?; discriminate|] ].

Lemma scrapeSlot_lookupFatal (from : Time) (tnum snum : Z) (slots : list Time) :
  nilOnError ->
  emits (scrapeSlot from tnum snum slots) (lookupFatal nilPanic).
Proof.
  intros Hc. unfold scrapeSlot, FindElement, Text.
  apply emits_bind_invoke_post with (P := fun a =>
    match a with (Some _, None) | (None, Some _) => True | _ => False end).
  { intros w. apply Hc. }
  intros [[hdl|] [e|]] []; cbn [snd].
  - apply emits_bind_method. apply emits_bind_invoke. intros [text terr].
    destruct (parseTime text) as [[hh mm] perr]. apply emits_ret. lookup_fatal.
  - apply emits_bind_method. apply lookupFatal_one. reflexivity.
Qed.

Lemma scrapeSlots_lookupFatal (from : Time) (tnum : Z) (n : nat) :
  nilOnError ->
  forall snum slots,
  emits (scrapeSlots from tnum n snum slots) (lookupFatal nilPanic).
Proof.
  intros Hc. induction n as [|n IH]; intros snum slots; cbn [scrapeSlots].
  - apply emits_ret. apply lookupFatal_nil.
  - eapply emits_bind; [apply scrapeSlot_lookupFatal, Hc| |].
    + intros evs slots1 H1. eapply emits_weaken; [apply IH|]. cbn beta.
      intros evs' o H2.
      apply lookupFatal_app; [exact (lookupFatal_returned _ _ H1)|exact H2].
    + intros evs p H1. exact H1.
Qed.

Lemma scrapeTutor_lookupFatal (from : Time) (tnum : Z) (tutors : Tutors) :
  nilOnError ->
  emits (scrapeTutor from tnum tutors) (lookupFatal nilPanic).
Proof.
  intros Hc. unfold scrapeTutor, FindElement, Text, FindElements.
  apply emits_bind_invoke_post with (P := fun a =>
    match a with (Some _, None) | (None, Some _) => True | _ => False end).
  { intros w. apply Hc. }
  intros [[hdl|] [e|]] []; cbn [snd].
  2:{ apply emits_bind_method. apply lookupFatal_one. reflexivity. }
  apply emits_bind_method. apply emits_bind_invoke. intros [name terr].
  apply emits_bind_invoke. intros [slotElms [e|]].
  - apply emits_ret. lookup_fatal.
  - eapply emits_bind; [apply scrapeSlots_lookupFatal, Hc| |].
    + intros evs slots H1. apply emits_ret. rewrite app_nil_r.
      do 3 (apply lookupFatal_cons; [intros ? ? ?; discriminate|]).
      intros by_ value e Hin.
      exfalso. exact (lookupFatal_returned _ _ H1 _ _ _ Hin).
    + intros evs p H1.
      do 3 (apply lookupFatal_cons; [intros ? ? ?; discriminate|]).
      exact (lookupFatal_panicked _ _ H1).
Qed.

Lemma scrapeTutors_lookupFatal (from : Time) (n : nat) :
  nilOnError ->
  forall tnum tutors,
  emits (scrapeTutors from n tnum tutors) (lookupFatal nilPanic).
Proof.
  intros Hc. induction n as [|n IH]; intros tnum tutors; cbn [scrapeTutors].
  - apply emits_ret. apply lookupFatal_nil.
  - eapply emits_bind; [apply scrapeTutor_lookupFatal, Hc| |].
    + intros evs [tutors'|x] H1.
      * eapply emits_weaken; [apply IH|]. cbn beta. intros evs' o H2.
        apply lookupFatal_app; [exact (lookupFatal_returned _ _ H1)|exact H2].
      * apply emits_ret. rewrite app_nil_r.
        intros by_ value e Hin.
        exfalso. exact (lookupFatal_returned _ _ H1 _ _ _ Hin).
    + intros evs p H1. exact H1.
Qed.

Lemma ReserveTutor_lookupFatal (ctx : Context) (from : Time) (margin : Duration) :
  nilOnError ->
  emits (ReserveTutor ctx from margin) (lookupFatal nilPanicOrWrapped).
Proof.
  intros Hc. unfold ReserveTutor.
  destruct (negb _); [apply emits_ret; apply lookupFatal_nil|].
  destruct (generateTutorSearchQuery _ _) as [queryURL [e|]];
    [apply emits_ret; apply lookupFatal_nil|].
  unfold Get, WaitUntilElementLoaded, FindElements.
  apply emits_bind_invoke. intros [e|].
  { apply emits_ret. lookup_fatal. }
  apply emits_bind_invoke. intros werr.
  apply emits_bind_invoke. intros [tutorList [e|]].
  { apply emits_ret. lookup_fatal. }
  eapply emits_bind; [apply (scrapeTutors_lookupFatal from _ Hc)| |].
  2:{ intros evs p H1. do 3 (apply lookupFatal_cons; [intros ? ? ?; discriminate|]).
      intros by_ value e Hin. destruct (H1 _ _ _ Hin) as [Hl Hp].
      split; [exact Hl|]. left. injection Hp as ->. reflexivity. }
  intros evs [tutors|x] H1.
  2:{ apply emits_ret. rewrite app_nil_r.
      do 3 (apply lookupFatal_cons; [intros ? ? ?; discriminate|]).
      intros by_ value e Hin.
      exfalso. exact (lookupFatal_returned _ _ H1 _ _ _ Hin). }
  pose proof (lookupFatal_returned _ _ H1) as Hno.
  unfold FindElement, Click, CurrentURL, WaitUntilURLChanged.
  apply emits_bind_invoke. intros werr2.
  apply emits_bind_invoke_post with (P := fun a =>
    match a with (Some _, None) | (None, Some _) => True | _ => False end).
  { intros w. apply Hc. }
  intros [[h1|] [e|]] []; cbn [snd].
  2:{ apply emits_ret. do 3 (apply lookupFatal_cons; [intros ? ? ?; discriminate|]).
      apply lookupFatal_app; [exact Hno|].
      apply lookupFatal_cons; [intros ? ? ?; discriminate|].
      apply lookupFatal_one. right. eauto. }
  apply emits_bind_method.
  apply emits_bind_invoke. intros cerr.
  apply emits_bind_invoke. intros [url uerr].
  apply emits_bind_invoke. intros werr3.
  apply emits_bind_invoke_post with (P := fun a =>
    match a with (Some _, None) | (None, Some _) => True | _ => False end).
  { intros w. apply Hc. }
  intros [[h2|] [e|]] []; cbn [snd].
  2:{ apply emits_ret. do 3 (apply lookupFatal_cons; [intros ? ? ?; discriminate|]).
      apply lookupFatal_app; [exact Hno|].
      do 5 (apply lookupFatal_cons; [intros ? ? ?; discriminate|]).
      apply lookupFatal_one. right. eauto. }
  apply emits_bind_method.
  apply emits_bind_invoke. intros cerr2.
  apply emits_bind_invoke. intros werr4.
  intros w.
  assert (Hev : Go.events (newReserve tutors w) = []).
  { rewrite newReserve_run. destruct tutors as [|t ts]; [reflexivity|].
    destruct (AvailableSlots t); reflexivity. }
  rewrite Hev.
  do 3 (apply lookupFatal_cons; [intros ? ? ?; discriminate|]).
  apply lookupFatal_app; [exact Hno|].
  lookup_fatal.
Qed.

Lemma failedLookups_positive (evs : list Event) :
  failedLookups evs <> 0%nat ->
  exists by_ value e, In (Ev (CallFindElement by_ value) (Some e)) evs.
Proof.
  unfold failedLookups. induction evs as [|[call [e|]] evs IH]; simpl.
  - intros H. congruence.
  - destruct call; try (intros H; destruct (IH H) as [b [v [e' Hin]]]; eauto 6).
    intros _. exists by_, value, e. left. reflexivity.
  - destruct call; intros H; destruct (IH H) as [b [v [e' Hin]]]; eauto 6.
Qed.

(** X9: with selenium's [FindElement], which yields the nil handle
    exactly when it returns an error, a [FindElement] written in the body
    of [ReserveTutor] (lines 156, 164, 188 and 199) that returns an error
    is the last call the body makes: the run ends in a nil dereference
    (lookups of the scrape, whose errors are dropped) or in the wrapped
    error (slot button and reserve link).  So no returned [Reserve] ever
    saw one of these lookups fail, and the zero time appended for one
    (line 166) never reaches a caller.  Lookups the two wait helpers make
    on the driver are not meant: they are inside the helper's one event,
    the body drops the helper's error, and the run goes on after them. *)
Theorem ReserveTutor_failed_lookup_is_last
    (ctx : Context) (from : Time) (margin : Duration) (w : World) :
  nilOnError ->
  (forall by_ value e,
     In (Ev (CallFindElement by_ value) (Some e))
        (Go.events (ReserveTutor ctx from margin w)) ->
     (exists pre,
        Go.events (ReserveTutor ctx from margin w)
          = pre ++ [Ev (CallFindElement by_ value) (Some e)]) /\
     (Go.outcome (ReserveTutor ctx from margin w) = Panicked NilDereference \/
      exists msg,
        Go.outcome (ReserveTutor ctx from margin w)
          = Returned (None, Some (Errorf msg [] e))))
  /\ (forall r err,
        Go.outcome (ReserveTutor ctx from margin w) = Returned (Some r, err) ->
        failedLookups (Go.events (ReserveTutor ctx from margin w)) = 0%nat).
Proof.
  intros Hc. pose proof (ReserveTutor_lookupFatal ctx from margin Hc w) as H.
  split; [exact H|].
  intros r err Hr.
  destruct (Nat.eq_dec (failedLookups (Go.events (ReserveTutor ctx from margin w))) 0)
    as [E|E]; [exact E|].
  destruct (failedLookups_positive _ E) as [b [v [e Hin]]].
  destruct (H _ _ _ Hin) as [_ [Hp|[msg Hm]]]; rewrite Hr in *; discriminate.
Qed.

(** ** What the flow never asks of the backend *)

Lemma scrapeSlots_calls (P : Call -> Prop) (from : Time) (tnum : Z) (n : nat) :
  (forall by_ value, P (CallFindElement by_ value)) ->
  (forall h, P (CallText h)) ->
  forall snum slots,
  emits (scrapeSlots from tnum n snum slots) (fun evs _ =>
    Forall (fun ev => P (callOf ev)) evs).
Proof.
  intros Hf Ht. induction n as [|n IH]; intros snum slots; cbn [scrapeSlots].
  - apply emits_ret. constructor.
  - apply emits_bind with (P := fun evs _ => Forall (fun ev => P (callOf ev)) evs).
    + unfold scrapeSlot, FindElement, Text.
      apply emits_bind_invoke. intros [slotElm err].
      apply emits_bind_method. destruct slotElm as [hdl|].
      * apply emits_bind_invoke. intros [text terr].
        destruct (parseTime text) as [[hh mm] perr]. apply emits_ret.
        repeat constructor; cbn; auto.
      * repeat constructor; cbn; auto.
    + intros evs slots1 H1. eapply emits_weaken; [apply IH|]. cbn beta.
      intros evs' _ H2. apply Forall_app. split; assumption.
    + intros evs p H1. exact H1.
Qed.

Lemma scrapeTutors_calls (P : Call -> Prop) (from : Time) (n : nat) :
  (forall by_ value, P (CallFindElement by_ value)) ->
  (forall by_ value, P (CallFindElements by_ value)) ->
  (forall h, P (CallText h)) ->
  forall tnum tutors,
  emits (scrapeTutors from n tnum tutors) (fun evs _ =>
    Forall (fun ev => P (callOf ev)) evs).
Proof.
  intros Hf Hfs Ht. induction n as [|n IH]; intros tnum tutors; cbn [scrapeTutors].
  - apply emits_ret. constructor.
  - apply emits_bind with (P := fun evs _ => Forall (fun ev => P (callOf ev)) evs).
    + unfold scrapeTutor, FindElement, Text, FindElements.
      apply emits_bind_invoke. intros [nameElm nerr].
      apply emits_bind_method. destruct nameElm as [hdl|].
      2:{ repeat constructor; cbn; auto. }
      apply emits_bind_invoke. intros [name terr].
      apply emits_bind_invoke. intros [slotElms [e|]].
      * apply emits_ret. repeat constructor; cbn; auto.
      * eapply emits_bind; [apply (scrapeSlots_calls P from tnum _ Hf Ht)| |].
        -- intros evs slots H1. apply emits_ret. rewrite app_nil_r.
           repeat (constructor; [cbn; auto|]). exact H1.
        -- intros evs p H1. repeat (constructor; [cbn; auto|]). exact H1.
    + intros evs [tutors'|x] H1.
      * eapply emits_weaken; [apply IH|]. cbn beta.
        intros evs' _ H2. apply Forall_app. split; assumption.
      * apply emits_ret. rewrite app_nil_r. exact H1.
    + intros evs p H1. exact H1.
Qed.

Lemma newReserve_events (tutors : Tutors) (w : World) :
  Go.events (newReserve tutors w) = [].
Proof.
  rewrite newReserve_run. destruct tutors as [|t ts]; [reflexivity|].
  destruct (AvailableSlots t); reflexivity.
Qed.

Lemma ReserveTutor_calls (ctx : Context) (from : Time) (margin : Duration) :
  emits (ReserveTutor ctx from margin) (fun evs _ =>
    Forall (fun ev => madeByReserveTutor (callOf ev)) evs).
Proof.
  unfold ReserveTutor.
  destruct (negb _); [apply emits_ret; constructor|].
  destruct (generateTutorSearchQuery _ _) as [queryURL [e|]];
    [apply emits_ret; constructor|].
  unfold Get, WaitUntilElementLoaded, FindElements.
  apply emits_bind_invoke. intros [e|].
  { apply emits_ret. repeat constructor. }
  apply emits_bind_invoke. intros werr.
  apply emits_bind_invoke. intros [tutorList [e|]].
  { apply emits_ret. repeat constructor. }
  eapply emits_bind;
    [apply (scrapeTutors_calls madeByReserveTutor from);
     intros; exact I| |].
  2:{ intros evs p H1. repeat (constructor; [exact I|]). exact H1. }
  intros evs [tutors|x] H1.
  2:{ apply emits_ret. rewrite app_nil_r. repeat (constructor; [exact I|]).
      exact H1. }
  unfold FindElement, Click, CurrentURL, WaitUntilURLChanged.
  apply emits_bind_invoke. intros werr2.
  apply emits_bind_invoke. intros [timeSlot [e|]].
  { apply emits_ret. repeat (constructor; [exact I|]).
    apply Forall_app. split; [exact H1|]. repeat constructor. }
  apply emits_bind_method. destruct timeSlot as [h1|].
  2:{ repeat (constructor; [exact I|]).
      apply Forall_app. split; [exact H1|]. repeat constructor. }
  apply emits_bind_invoke. intros cerr.
  apply emits_bind_invoke. intros [url uerr].
  apply emits_bind_invoke. intros werr3.
  apply emits_bind_invoke. intros [reserveButton [e|]].
  { apply emits_ret. repeat (constructor; [exact I|]).
    apply Forall_app. split; [exact H1|]. repeat constructor. }
  apply emits_bind_method. destruct reserveButton as [h2|].
  2:{ repeat (constructor; [exact I|]).
      apply Forall_app. split; [exact H1|]. repeat constructor. }
  apply emits_bind_invoke. intros cerr2.
  apply emits_bind_invoke. intros werr4.
  intros w. rewrite newReserve_events.
  repeat (constructor; [exact I|]).
  apply Forall_app. split; [exact H1|]. repeat constructor.
Qed.

Lemma Login_calls (ctx : Context) (username password : string) :
  emits (Login ctx username password) (fun evs _ =>
    Forall (fun ev => madeByLogin (callOf ev)) evs).
Proof.
  unfold Login, Get, WaitUntilElementLoaded, FindElement, SendKeys, Click, Wait.
  apply emits_bind_invoke. intros [e|]; [apply emits_ret; repeat constructor|].
  apply emits_bind_invoke. intros werr1.
  apply emits_bind_invoke. intros [emailInput [e|]];
    [apply emits_ret; repeat constructor|].
  apply emits_bind_method. destruct emailInput as [h1|]; [|repeat constructor].
  apply emits_bind_invoke. intros kerr1.
  apply emits_bind_invoke. intros werr2.
  apply emits_bind_invoke. intros [passwordInput [e|]];
    [apply emits_ret; repeat constructor|].
  apply emits_bind_method. destruct passwordInput as [h2|]; [|repeat constructor].
  apply emits_bind_invoke. intros kerr2.
  apply emits_bind_invoke. intros [submit [e|]];
    [apply emits_ret; repeat constructor|].
  apply emits_bind_method. destruct submit as [h3|]; [|repeat constructor].
  apply emits_bind_invoke. intros cerr.
  apply emits_bind_invoke. intros [e|]; apply emits_ret; repeat constructor.
Qed.

(** X10: neither [Login] nor [ReserveTutor] ever quits the session or
    stops the driver service, however the run ends: releasing them is
    left to [Teardown].  [ReserveTutor] never types keys, and [Login]
    never reads text or lists elements. *)
Theorem Login_and_ReserveTutor_keep_the_session
    (ctx : Context) (username password : string) (from : Time)
    (margin : Duration) (w : World) :
  Forall (fun ev => madeByLogin (callOf ev))
    (Go.events (Login ctx username password w))
  /\ Forall (fun ev => madeByReserveTutor (callOf ev))
       (Go.events (ReserveTutor ctx from margin w)).
Proof.
  split; [apply Login_calls|apply ReserveTutor_calls].
Qed.

(** ** The clicks of a reservation (lines 185-205) *)

Lemma formActions_app (xs ys : list Event) :
  formActions (xs ++ ys) = formActions xs ++ formActions ys.
Proof. unfold formActions, calls. rewrite map_app, filter_app. reflexivity. Qed.

Lemma formActions_none (evs : list Event) :
  Forall (fun ev =>
    match callOf ev with
    | CallSendKeys _ _ | CallClick _ => False
    | _ => True
    end) evs ->
  formActions evs = [].
Proof.
  unfold formActions, calls. induction 1 as [|[call err] evs H _ IH]; [reflexivity|].
  cbn. cbn in H. destruct call; try contradiction; exact IH.
Qed.

Lemma emits_conj {A} (m : Go A) (P Q : list Event -> Outcome A -> Prop) :
  emits m P -> emits m Q -> emits m (fun evs o => P evs o /\ Q evs o).
Proof. intros HP HQ w. split; [apply HP|apply HQ]. Qed.

Lemma emits_returns {A} (m : Go A) (R : A -> Prop) :
  returns m R -> emits m (fun _ o => forall a, o = Returned a -> R a).
Proof. intros H w a E. exact (H w a E). Qed.

Lemma ReserveTutor_click_sequence (ctx : Context) (from : Time) (margin : Duration) :
  emits (ReserveTutor ctx from margin) (fun evs o =>
    forall r err, o = Returned (Some r, err) ->
    let button := Sprintf tutorTimeSlotButtonSelector [1; 1] in
    exists pre h1 h2 werr1 cerr1 uerr werr2 cerr2 werr3,
      evs = pre ++
        [Ev (CallWaitUntilElementLoaded ByCSSSelector button) werr1;
         Ev (CallFindElement ByCSSSelector button) None;
         Ev (CallClick h1) cerr1;
         Ev CallCurrentURL uerr;
         Ev (CallWaitUntilElementLoaded ByLinkText "予約する") werr2;
         Ev (CallFindElement ByLinkText "予約する") None;
         Ev (CallClick h2) cerr2;
         Ev (CallWaitUntilURLChanged rarejobReservationFinishURL) werr3]
      /\ formActions pre = []).
Proof.
  unfold ReserveTutor.
  destruct (negb _); [apply emits_ret; discriminate|].
  destruct (generateTutorSearchQuery _ _) as [queryURL [e|]];
    [apply emits_ret; discriminate|].
  unfold Get, WaitUntilElementLoaded, FindElements.
  apply emits_bind_invoke. intros [e|]; [apply emits_ret; discriminate|].
  apply emits_bind_invoke. intros werr.
  apply emits_bind_invoke. intros [tutorList [e|]]; [apply emits_ret; discriminate|].
  eapply emits_bind;
    [apply emits_conj;
     [apply (scrapeTutors_calls
               (fun call => match call with
                            | CallSendKeys _ _ | CallClick _ => False
                            | _ => True
                            end) from);
      intros; exact I
     |apply emits_returns, scrapeTutors_return_wrapped]| |].
  2:{ intros evs p _. discriminate. }
  intros evs [tutors|x] [H1 H2].
  2:{ apply emits_ret. rewrite app_nil_r. intros r err Hx. exfalso.
      destruct (H2 _ eq_refl) as [f [a [e He]]]. congruence. }
  unfold FindElement, Click, CurrentURL, WaitUntilURLChanged.
  apply emits_bind_invoke. intros werr2.
  apply emits_bind_invoke. intros [timeSlot [e|]]; [apply emits_ret; discriminate|].
  apply emits_bind_method. destruct timeSlot as [h1|]; [|discriminate].
  apply emits_bind_invoke. intros cerr.
  apply emits_bind_invoke. intros [url uerr].
  apply emits_bind_invoke. intros werr3.
  apply emits_bind_invoke. intros [reserveButton [e|]]; [apply emits_ret; discriminate|].
  apply emits_bind_method. destruct reserveButton as [h2|]; [|discriminate].
  apply emits_bind_invoke. intros cerr2.
  apply emits_bind_invoke. intros werr4.
  intros w r err _. rewrite newReserve_events. cbn [snd].
  eexists (_ :: _ :: _ :: evs), h1, h2, _, _, _, _, _, _.
  split; [reflexivity|].
  cbn. apply formActions_none. exact H1.
Qed.

(** X11: every [Reserve] returned was obtained in the same way, whatever
    the scrape gathered: wait for and look up the slot button of row 1,
    position 1, click it, read the URL, wait for and look up the reserve
    link, click it, wait for the finish URL.  These eight calls end the
    trace, nothing is clicked or typed before them, and the errors of the
    clicks, of the URL read and of the waits are not looked at. *)
Theorem ReserveTutor_clicks_first_slot_then_reserve
    (ctx : Context) (from : Time) (margin : Duration) (w : World)
    (r : Reserve) (err : option error) :
  Go.outcome (ReserveTutor ctx from margin w) = Returned (Some r, err) ->
  let button := Sprintf tutorTimeSlotButtonSelector [1; 1] in
  exists pre h1 h2 werr1 cerr1 uerr werr2 cerr2 werr3,
    Go.events (ReserveTutor ctx from margin w) = pre ++
      [Ev (CallWaitUntilElementLoaded ByCSSSelector button) werr1;
       Ev (CallFindElement ByCSSSelector button) None;
       Ev (CallClick h1) cerr1;
       Ev CallCurrentURL uerr;
       Ev (CallWaitUntilElementLoaded ByLinkText "予約する") werr2;
       Ev (CallFindElement ByLinkText "予約する") None;
       Ev (CallClick h2) cerr2;
       Ev (CallWaitUntilURLChanged rarejobReservationFinishURL) werr3]
    /\ formActions pre = [].
Proof. intros H. exact (ReserveTutor_click_sequence ctx from margin w r err H). Qed.

(** ** Accepted windows (lines 133-136) *)

Lemma accepted_window (ctx : Context) (from : Time) (margin : Duration) (w : World) :
  Go.outcome (ReserveTutor ctx from margin w)
    <> Returned (None, Some ErrSpreadAcrossTwoDays) ->
  margin < 24 * Hour /\
  Time_Hour localLookup from <
  Time_Hour localLookup (Time_Add (Time_Local from) margin).
Proof.
  intros H.
  destruct (Z_lt_dec margin (24 * Hour)) as [H1|H1];
    [destruct (Z_lt_dec (Time_Hour localLookup from)
                 (Time_Hour localLookup (Time_Add (Time_Local from) margin)))
       as [H2|H2]; [auto|]|];
    exfalso; apply H;
    rewrite (ReserveTutor_rejected ctx from margin w); try reflexivity;
    intros [? ?]; contradiction.
Qed.

(** The seconds [Add] moves a well-formed time by. *)
Lemma Time_Add_seconds (t : Time) (d : Duration) :
  0 <= nsec t < 1000000000 ->
  (0 <= d -> d < 24 * Hour ->
   0 <= ext (Time_Add t d) - ext t <= 86400) /\
  (- (24 * Hour) <= d -> d < 0 ->
   - 86400 <= ext (Time_Add t d) - ext t <= 0).
Proof.
  intros Hns. rewrite day_in_nanoseconds. clear - Hns. unfold Time_Add.
  destruct (nsec t + Z.rem d 1000000000 >=? 1000000000) eqn:E1;
    [|destruct (nsec t + Z.rem d 1000000000 <? 0) eqn:E2]; cbn [ext];
    try apply Z.geb_le in E1; try apply Z.ltb_lt in E2;
    try apply Z.ltb_ge in E2;
    split; intros; Z.to_euclidean_division_equations; lia.
Qed.

Lemma abs_Add_local (off : Z) (from : Time) (margin : Duration) :
  (forall s, offset (localLookup s) = off) ->
  loc from = Local ->
  abs localLookup (Time_Add (Time_Local from) margin) =
  abs localLookup from + (ext (Time_Add from margin) - ext from).
Proof.
  intros Hoff Hloc. unfold abs, unixSec, Time_Local, setLoc, Time_Add.
  cbn [ext nsec loc].
  destruct (nsec from + Z.rem margin 1000000000 >=? 1000000000);
    [|destruct (nsec from + Z.rem margin 1000000000 <? 0)];
    cbn [ext loc]; rewrite Hloc; cbn [lookup]; rewrite !Hoff; lia.
Qed.

Lemma hour_ahead_same_day (a d : Z) :
  0 <= d <= 86400 ->
  (a mod secondsPerDay) / secondsPerHour
    < ((a + d) mod secondsPerDay) / secondsPerHour ->
  (a + d) / secondsPerDay = a / secondsPerDay.
Proof.
  change secondsPerDay with 86400. change secondsPerHour with 3600.
  intros Hd H. clear - Hd H. Z.div_mod_to_equations. lia.
Qed.

Lemma hour_ahead_day_before (a d : Z) :
  - 86400 <= d <= 0 ->
  (a mod secondsPerDay) / secondsPerHour
    < ((a + d) mod secondsPerDay) / secondsPerHour ->
  (a + d) / secondsPerDay = a / secondsPerDay - 1.
Proof.
  change secondsPerDay with 86400. change secondsPerHour with 3600.
  intros Hd H. clear - Hd H. Z.div_mod_to_equations. lia.
Qed.

(** X12: for a margin that is not negative, the validation is sound: a
    window it accepts ends on the local day it starts on ([from] taken in
    the local zone, of constant offset), so [by] has the year, month and
    day of [from], and a later hour. *)
Theorem accepted_window_stays_in_the_day
    (ctx : Context) (from : Time) (margin : Duration) (w : World) (off : Z) :
  (forall s, offset (localLookup s) = off) ->
  loc from = Local ->
  0 <= nsec from < 1000000000 ->
  0 <= margin ->
  Go.outcome (ReserveTutor ctx from margin w)
    <> Returned (None, Some ErrSpreadAcrossTwoDays) ->
  let by_ := Time_Add (Time_Local from) margin in
  localDay by_ = localDay from /\
  Time_Year localLookup by_ = Time_Year localLookup from /\
  Time_Month localLookup by_ = Time_Month localLookup from /\
  Time_Day localLookup by_ = Time_Day localLookup from /\
  Time_Hour localLookup from < Time_Hour localLookup by_.
Proof.
  intros Hoff Hloc Hns Hm Hacc by_. subst by_.
  destruct (accepted_window ctx from margin w Hacc) as [H1 H2].
  destruct (Time_Add_seconds from margin Hns) as [Hpos _].
  specialize (Hpos Hm H1).
  assert (Hday : localDay (Time_Add (Time_Local from) margin) = localDay from).
  { unfold localDay. rewrite (abs_Add_local off from margin Hoff Hloc).
    apply hour_ahead_same_day; [exact Hpos|].
    unfold Time_Hour in H2. rewrite (abs_Add_local off from margin Hoff Hloc) in H2.
    exact H2. }
  split; [exact Hday|].
  unfold Time_Year, Time_Month, Time_Day.
  rewrite (absDate_same_day _ _ Hday). auto.
Qed.

(** X13: a negative margin is not rejected as such.  Down to minus 24
    hours, a window the validation accepts ends on the day before the one
    it starts on: the hour of [by] can only be the larger one by reaching
    back over midnight. *)
Theorem accepted_negative_margin_reaches_the_day_before
    (ctx : Context) (from : Time) (margin : Duration) (w : World) (off : Z) :
  (forall s, offset (localLookup s) = off) ->
  loc from = Local ->
  0 <= nsec from < 1000000000 ->
  - (24 * Hour) <= margin < 0 ->
  Go.outcome (ReserveTutor ctx from margin w)
    <> Returned (None, Some ErrSpreadAcrossTwoDays) ->
  localDay (Time_Add (Time_Local from) margin) = localDay from - 1.
Proof.
  intros Hoff Hloc Hns [Hlo Hhi] Hacc.
  destruct (accepted_window ctx from margin w Hacc) as [_ H2].
  destruct (Time_Add_seconds from margin Hns) as [_ Hneg].
  specialize (Hneg Hlo Hhi).
  unfold localDay. rewrite (abs_Add_local off from margin Hoff Hloc).
  apply hour_ahead_day_before; [exact Hneg|].
  unfold Time_Hour in H2. rewrite (abs_Add_local off from margin Hoff Hloc) in H2.
  exact H2.
Qed.

End Client.

(** ** The client on the scripted page *)

Abbreviation fakeReserveTutor :=
  (ReserveTutor Fake.jst Fake.backend Fake.Sprintf
     Fake.rarejobReservationFinishURL Fake.tutorListSelector
     Fake.tutorNameSelector Fake.tutorTimeSlotSelector
     Fake.tutorTimeSlotButtonSelector SlotText.parseTime
     Fake.generateTutorSearchQuery Fake.waitUntilElementLoaded
     Fake.waitUntilURLChanged).

Abbreviation fakeScrapeSlot :=
  (scrapeSlot Fake.jst Fake.backend Fake.Sprintf
     Fake.tutorTimeSlotButtonSelector SlotText.parseTime).

Abbreviation fakeScrapeSlots :=
  (scrapeSlots Fake.jst Fake.backend Fake.Sprintf
     Fake.tutorTimeSlotButtonSelector SlotText.parseTime).

Abbreviation fakeLogin :=
  (Login Fake.Getenv Fake.backend Fake.rarejobLoginURL
     Fake.loginPageEmailSelector Fake.loginPagePasswordSelector
     Fake.waitUntilElementLoaded).



(** With a margin of 25 hours nothing is asked of the backend. *)
Lemma ReserveTutor_validates_before_navigation_witness :
  fakeReserveTutor tt Fake.morning (25 * Hour) Fake.pageAliceBob
    = Go.mkRun (Returned (None, Some ErrSpreadAcrossTwoDays)) Fake.pageAliceBob []
  /\ exists err rest,
       Go.events (fakeReserveTutor tt Fake.morning (2 * Hour) Fake.pageAliceBob)
         = Ev (CallGet "https://www.rarejob.com/reservation/") err :: rest.
Proof.
  split.
  - exact (proj1
      (ReserveTutor_validates_before_navigation Fake.jst Fake.backend
         Fake.Sprintf Fake.rarejobReservationFinishURL Fake.tutorListSelector
         Fake.tutorNameSelector Fake.tutorTimeSlotSelector
         Fake.tutorTimeSlotButtonSelector SlotText.parseTime
         Fake.generateTutorSearchQuery Fake.waitUntilElementLoaded
         Fake.waitUntilURLChanged tt Fake.morning (25 * Hour) Fake.pageAliceBob)
      (or_introl eq_refl)).
  - exact (proj2
      (ReserveTutor_validates_before_navigation Fake.jst Fake.backend
         Fake.Sprintf Fake.rarejobReservationFinishURL Fake.tutorListSelector
         Fake.tutorNameSelector Fake.tutorTimeSlotSelector
         Fake.tutorTimeSlotButtonSelector SlotText.parseTime
         Fake.generateTutorSearchQuery Fake.waitUntilElementLoaded
         Fake.waitUntilURLChanged tt Fake.morning (2 * Hour) Fake.pageAliceBob)
      eq_refl eq_refl _ eq_refl).
Defined.

(** C2, on the page whose first row carries the labels 9:00, N/A and
    10:30, for any parser that reads the first and the third and reports
    an error on the second: the three slot elements give four entries.
    The zero time stands at the second place, and after it comes a slot
    built from the hour and minute returned with the error, which moves
    the third label to the fourth place. *)
Theorem scrapeSlots_malformed_label_adds_an_entry
    (parseTime : string -> Z * Z * option error) (h m : Z) (e : error) :
  parseTime "9:00" = (9, 0, None) ->
  parseTime "N/A" = (h, m, Some e) ->
  parseTime "10:30" = (10, 30, None) ->
  Go.outcome
    (scrapeSlots Fake.jst Fake.backend Fake.Sprintf
       Fake.tutorTimeSlotButtonSelector parseTime Fake.morning 1 3 1 []
       Fake.pageAliceBob)
    = Returned
        [Date Fake.jst 2024 5 1 9 0 0 0 Local;
         zeroTime;
         Date Fake.jst 2024 5 1 h m 0 0 Local;
         Date Fake.jst 2024 5 1 10 30 0 0 Local].
Proof.
  intros H1 H2 H3.
  assert (Hstep : forall snum label hh mm perr slots,
            wd_FindElement Fake.backend ByCSSSelector
              (Fake.Sprintf Fake.tutorTimeSlotButtonSelector [1; snum])
              Fake.pageAliceBob
              = ((Some (Fake.slotHandle 1 snum), None), Fake.pageAliceBob) ->
            we_Text Fake.backend (Fake.slotHandle 1 snum) Fake.pageAliceBob
              = ((label, None), Fake.pageAliceBob) ->
            parseTime label = (hh, mm, perr) ->
            Go.outcome
              (scrapeSlot Fake.jst Fake.backend Fake.Sprintf
                 Fake.tutorTimeSlotButtonSelector parseTime Fake.morning 1 snum
                 slots Fake.pageAliceBob)
              = Returned
                  (slots ++
                   match perr with Some _ => [zeroTime] | None => [] end ++
                   [Date Fake.jst 2024 5 1 hh mm 0 0 Local])
            /\ Go.final
                 (scrapeSlot Fake.jst Fake.backend Fake.Sprintf
                    Fake.tutorTimeSlotButtonSelector parseTime Fake.morning 1 snum
                    slots Fake.pageAliceBob)
               = Fake.pageAliceBob).
  { intros snum label hh mm perr slots Hfind Htext Hparse.
    exact (scrapeSlot_found Fake.jst Fake.backend Fake.Sprintf
             Fake.tutorTimeSlotButtonSelector parseTime Fake.morning 1 snum slots
             _ _ _ _ _ _ hh mm perr Hfind Htext Hparse). }
  destruct (Hstep 1 "9:00" 9 0 None [] eq_refl eq_refl H1) as [E1 F1].
  destruct (Hstep 2 "N/A" h m (Some e)
              [Date Fake.jst 2024 5 1 9 0 0 0 Local] eq_refl eq_refl H2)
    as [E2 F2].
  destruct (Hstep 3 "10:30" 10 30 None
              [Date Fake.jst 2024 5 1 9 0 0 0 Local; zeroTime;
               Date Fake.jst 2024 5 1 h m 0 0 Local] eq_refl eq_refl H3)
    as [E3 F3].
  cbn [scrapeSlots].
  rewrite outcome_bind, E1, F1. cbn [app Z.add Pos.add Pos.succ].
  rewrite outcome_bind, E2, F2. cbn [app Z.add Pos.add Pos.succ].
  rewrite outcome_bind, E3. reflexivity.
Qed.

(** With the parser modelled on the label format, the row of three
    labels gives four slots. *)
Lemma scrapeSlots_malformed_label_adds_an_entry_witness :
  SlotText.parseTime "N/A" = (0, 0, Some (ExternalError "invalid time format"))
  /\ forall slots,
       Go.outcome (fakeScrapeSlots Fake.morning 1 3 1 [] Fake.pageAliceBob)
         = Returned slots ->
       List.length slots = 4%nat /\ nth_error slots 1 = Some zeroTime.
Proof.
  split; [reflexivity|].
  intros slots H.
  rewrite (scrapeSlots_malformed_label_adds_an_entry SlotText.parseTime 0 0
             (ExternalError "invalid time format") eq_refl eq_refl eq_refl) in H.
  injection H as <-. split; reflexivity.
Defined.

(** When quitting the session fails, the driver service is not stopped:
    the trace of [Teardown] holds the quit alone. *)
Lemma Teardown_quit_failure_skips_stop :
  fst (wd_Quit Fake.backend Fake.pageQuitFails)
    = Some (ExternalError "invalid session id")
  /\ calls (Go.events (Teardown Fake.backend Fake.pageQuitFails)) = [CallQuit]
  /\ ~ In CallStop (calls (Go.events (Teardown Fake.backend Fake.pageQuitFails))).
Proof.
  split; [reflexivity|]. split; [reflexivity|].
  vm_compute. intros [H|[]]. discriminate H.
Qed.

(** Whatever the parameters, the keys typed are those of the environment. *)
Lemma Login_ignores_its_credentials_witness :
  fakeLogin tt "alice@example.com" "secret" Fake.pageAliceBob
    = fakeLogin tt "" "" Fake.pageAliceBob
  /\ sentKeys (Go.events
       (fakeLogin tt "alice@example.com" "secret" Fake.pageAliceBob))
     = ["student@example.com"; "hunter2"].
Proof.
  destruct (Login_ignores_its_credentials Fake.Getenv Fake.backend
              Fake.rarejobLoginURL Fake.loginPageEmailSelector
              Fake.loginPagePasswordSelector Fake.waitUntilElementLoaded
              tt "alice@example.com" "secret" "" "" Fake.pageAliceBob)
    as [Heq [_ Hkeys]].
  split; [exact Heq|]. apply Hkeys. reflexivity.
Defined.

(** The second slot button of the row is missing: the lookup fails, the
    handle is nil, and the iteration panics on [Text]. *)
Lemma scrapeSlot_calls_Text_after_failed_lookup_witness :
  fakeScrapeSlot Fake.morning 1 2 [] Fake.pageMissingButton
    = Go.mkRun (Panicked NilDereference) Fake.pageMissingButton
        [Ev (CallFindElement ByCSSSelector
               (Fake.Sprintf Fake.tutorTimeSlotButtonSelector [1; 2]))
            (Some Fake.noSuchElement)]
  /\ Go.outcome (fakeReserveTutor tt Fake.morning (2 * Hour) Fake.pageMissingButton)
       = Panicked NilDereference.
Proof.
  split; [|vm_compute; reflexivity].
  apply (scrapeSlot_calls_Text_after_failed_lookup Fake.jst Fake.backend
           Fake.Sprintf Fake.tutorTimeSlotButtonSelector SlotText.parseTime
           Fake.morning 1 2 [] Fake.pageMissingButton Fake.noSuchElement).
  reflexivity.
Defined.

(** Enumerating the slots of the second row fails: the first row, already
    gathered, is dropped and the error is returned. *)
Lemma ReserveTutor_slot_enumeration_failure_is_fatal_witness :
  In (Ev (CallFindElements ByCSSSelector
            (Fake.Sprintf Fake.tutorTimeSlotSelector [2]))
         (Some Fake.noSuchElement))
     (Go.events (fakeReserveTutor tt Fake.morning (2 * Hour) Fake.pageSlotsError))
  /\ (Go.outcome (fakeReserveTutor tt Fake.morning (2 * Hour) Fake.pageSlotsError)
        = Returned (None, Some (Errorf "failed to get tutor info" []
                                  Fake.noSuchElement))
      \/ exists tnum,
         Go.outcome (fakeReserveTutor tt Fake.morning (2 * Hour) Fake.pageSlotsError)
           = Returned
               (None,
                Some (Errorf "failed to get time slots for tutor #%d" [tnum]
                        Fake.noSuchElement))).
Proof.
  assert (Hin :
    In (Ev (CallFindElements ByCSSSelector
              (Fake.Sprintf Fake.tutorTimeSlotSelector [2]))
           (Some Fake.noSuchElement))
       (Go.events
          (fakeReserveTutor tt Fake.morning (2 * Hour) Fake.pageSlotsError))).
  { vm_compute. do 10 right. left. reflexivity. }
  split; [exact Hin|].
  exact (ReserveTutor_slot_enumeration_failure_is_fatal Fake.jst Fake.backend
           Fake.Sprintf Fake.rarejobReservationFinishURL Fake.tutorListSelector
           Fake.tutorNameSelector Fake.tutorTimeSlotSelector
           Fake.tutorTimeSlotButtonSelector SlotText.parseTime
           Fake.generateTutorSearchQuery Fake.waitUntilElementLoaded
           Fake.waitUntilURLChanged tt Fake.morning (2 * Hour) Fake.pageSlotsError
           ByCSSSelector (Fake.Sprintf Fake.tutorTimeSlotSelector [2])
           Fake.noSuchElement Hin).
Defined.

(** Alice's first label is 9:00: the lesson runs from 09:00 to 09:25. *)
Lemma ReserveTutor_returns_first_tutor_first_slot_witness :
  let r :=
    mkReserve "Alice" (Date Fake.jst 2024 5 1 9 0 0 0 Local)
      (Date Fake.jst 2024 5 1 9 25 0 0 Local) in
  Go.outcome (fakeReserveTutor tt Fake.morning (2 * Hour) Fake.pageAliceBob)
    = Returned (Some r, None)
  /\ EndAt r = Time_Add (StartAt r) (25 * Minute)
  /\ unixSec (EndAt r) = unixSec (StartAt r) + 25 * 60
  /\ (Time_Year Fake.jst (EndAt r), Time_Month Fake.jst (EndAt r),
      Time_Day Fake.jst (EndAt r), Time_Hour Fake.jst (EndAt r),
      Time_Minute Fake.jst (EndAt r)) = (2024, 5, 1, 9, 25).
Proof.
  intros r.
  assert (H : Go.outcome
                (fakeReserveTutor tt Fake.morning (2 * Hour) Fake.pageAliceBob)
              = Returned (Some r, None)) by (vm_compute; reflexivity).
  split; [exact H|].
  destruct (ReserveTutor_returns_first_tutor_first_slot Fake.jst Fake.backend
              Fake.Sprintf Fake.rarejobReservationFinishURL Fake.tutorListSelector
              Fake.tutorNameSelector Fake.tutorTimeSlotSelector
              Fake.tutorTimeSlotButtonSelector SlotText.parseTime
              Fake.generateTutorSearchQuery Fake.waitUntilElementLoaded
              Fake.waitUntilURLChanged tt Fake.morning (2 * Hour)
              Fake.pageAliceBob r None H)
    as [_ [_ [H3 [H4 [_ [_ H7]]]]]].
  split; [exact H3|]. split; [exact H4|].
  exact (proj2 (H7 (9 * 3600) (fun _ => eq_refl) eq_refl)).
Defined.

(** The tutor list is read before the page has rendered it: the scrape
    gathers no tutor, the slot button is found once rendered, and the
    final construction panics. *)
Lemma newReserve_indexes_unguarded_witness :
  Go.outcome (fakeReserveTutor tt Fake.morning (2 * Hour) Fake.pageRenderedLate)
    = Panicked (IndexOutOfRange 0 0)
  /\ Go.outcome (newReserve [] Fake.pageRenderedLate)
       = Panicked (IndexOutOfRange 0 0)
  /\ Go.outcome (newReserve [mkTutor "Alice" []] Fake.pageRenderedLate)
       = Panicked (IndexOutOfRange 0 0)
  /\ exists scraped,
       Go.outcome
         (scrapeTutors Fake.jst Fake.backend Fake.Sprintf Fake.tutorNameSelector
            Fake.tutorTimeSlotSelector Fake.tutorTimeSlotButtonSelector
            SlotText.parseTime Fake.morning 0 1 [] Fake.pageRenderedLate)
         = Returned (Next scraped) /\
       (scraped = [] \/ exists t ts, scraped = t :: ts /\ AvailableSlots t = []).
Proof.
  assert (H : Go.outcome
                (fakeReserveTutor tt Fake.morning (2 * Hour) Fake.pageRenderedLate)
              = Panicked (IndexOutOfRange 0 0)) by (vm_compute; reflexivity).
  split; [exact H|].
  destruct (newReserve_indexes_unguarded Fake.jst Fake.backend Fake.Sprintf
              Fake.rarejobReservationFinishURL Fake.tutorListSelector
              Fake.tutorNameSelector Fake.tutorTimeSlotSelector
              Fake.tutorTimeSlotButtonSelector SlotText.parseTime
              Fake.generateTutorSearchQuery Fake.waitUntilElementLoaded
              Fake.waitUntilURLChanged tt Fake.morning (2 * Hour) []
              Fake.pageRenderedLate)
    as [_ [Hnil [_ Hpanic]]].
  destruct (newReserve_indexes_unguarded Fake.jst Fake.backend Fake.Sprintf
              Fake.rarejobReservationFinishURL Fake.tutorListSelector
              Fake.tutorNameSelector Fake.tutorTimeSlotSelector
              Fake.tutorTimeSlotButtonSelector SlotText.parseTime
              Fake.generateTutorSearchQuery Fake.waitUntilElementLoaded
              Fake.waitUntilURLChanged tt Fake.morning (2 * Hour)
              [mkTutor "Alice" []] Fake.pageRenderedLate)
    as [_ [Hslots _]].
  pose proof (Hnil (or_introl eq_refl)) as Hempty.
  split; [rewrite Hempty; reflexivity|].
  split.
  { rewrite Hslots; [reflexivity|].
    right. exists (mkTutor "Alice" []), []. split; reflexivity. }
  exact (proj2 (proj2 (Hpanic 0 0 H))).
Defined.



(** ** The finish wait, the log and the construction *)

Lemma outcome_bind_ext {World A B} (m : Go.M World A) (k1 k2 : A -> Go.M World B)
    (w : World) :
  (forall a w', Go.outcome (k1 a w') = Go.outcome (k2 a w')) ->
  Go.outcome (Go.bind m k1 w) = Go.outcome (Go.bind m k2 w).
Proof.
  intros H. unfold Go.bind. cbv zeta.
  destruct (Go.outcome (m w)); cbn [Go.outcome]; auto.
Qed.

(** X14: how [ReserveTutor] ends does not depend on [waitUntilURLChanged]:
    with any two versions of the helper the outcome is the same, so a
    [Reserve] is returned whether or not the browser ever reached the
    reservation-finished URL. *)
Theorem ReserveTutor_ignores_the_finish_wait
    (localLookup : Z -> zone) {World : Type} (c : Backend World)
    (Sprintf : string -> list Z -> string)
    (rarejobReservationFinishURL tutorListSelector tutorNameSelector
     tutorTimeSlotSelector tutorTimeSlotButtonSelector : string)
    (parseTime : string -> Z * Z * option error)
    (generateTutorSearchQuery : Time -> Time -> string * option error)
    (waitUntilElementLoaded : By -> string -> World -> option error * World)
    (wait1 wait2 : string -> World -> option error * World)
    (ctx : Context) (from : Time) (margin : Duration) (w : World) :
  Go.outcome
    (ReserveTutor localLookup c Sprintf rarejobReservationFinishURL
       tutorListSelector tutorNameSelector tutorTimeSlotSelector
       tutorTimeSlotButtonSelector parseTime generateTutorSearchQuery
       waitUntilElementLoaded wait1 ctx from margin w)
  = Go.outcome
      (ReserveTutor localLookup c Sprintf rarejobReservationFinishURL
         tutorListSelector tutorNameSelector tutorTimeSlotSelector
         tutorTimeSlotButtonSelector parseTime generateTutorSearchQuery
         waitUntilElementLoaded wait2 ctx from margin w).
Proof.
  unfold ReserveTutor.
  destruct (negb _); [reflexivity|].
  destruct (generateTutorSearchQuery _ _) as [queryURL [e|]]; [reflexivity|].
  apply outcome_bind_ext; intros [e|] w1; [reflexivity|].
  apply outcome_bind_ext; intros _ w2.
  apply outcome_bind_ext; intros [tutorList [e|]] w3; [reflexivity|].
  apply outcome_bind_ext; intros [tutors|x] w4; [|reflexivity].
  apply outcome_bind_ext; intros _ w5.
  apply outcome_bind_ext; intros [timeSlot [e|]] w6; [reflexivity|].
  apply outcome_bind_ext; intros _ w7.
  apply outcome_bind_ext; intros _ w8.
  apply outcome_bind_ext; intros _ w9.
  apply outcome_bind_ext; intros [reserveButton [e|]] w10; [reflexivity|].
  apply outcome_bind_ext; intros _ w11.
  unfold WaitUntilURLChanged.
  rewrite !outcome_bind. cbn [Go.outcome Go.final Go.invoke].
  rewrite !newReserve_run.
  destruct tutors as [|t ts]; [reflexivity|].
  destruct (AvailableSlots t); reflexivity.
Qed.

Lemma MarshalLogArray_range_kept (ts : Tutors) :
  forall a,
  Tutors_MarshalLogArray_range keepObjects ts a
  = a ++ map (fun t => [("name", TutorName t)]) ts.
Proof.
  induction ts as [|t ts IH]; intros a; cbn.
  - symmetry. apply app_nil_r.
  - rewrite IH, <- app_assoc. reflexivity.
Qed.

Lemma MarshalLogArray_range_names {A} (enc : ArrayEncoder A) (ts : Tutors) :
  forall ts' a,
  map TutorName ts' = map TutorName ts ->
  Tutors_MarshalLogArray_range enc ts' a = Tutors_MarshalLogArray_range enc ts a.
Proof.
  induction ts as [|t ts IH]; intros [|t' ts'] a Hn; try discriminate Hn.
  - reflexivity.
  - cbn [map] in Hn. injection Hn as Hname Hrest.
    cbn [Tutors_MarshalLogArray_range]. unfold Tutor_MarshalLogObject.
    rewrite Hname.
    destruct (AppendObject enc _ a) as [err a1].
    apply IH. exact Hrest.
Qed.


(** X16: [NewClient] returns either a client and no error, or no client
    and the error of the library call that failed, as it is, without a
    wrapping message.  A returned client holds the service and the session
    the two calls returned.  When the service does not start, no session
    is asked for. *)
Theorem NewClient_client_or_library_error
    {Host Service Driver : Type} (selenium : Selenium Host Service Driver)
    (Sprintf : string -> list Z -> string) (h : Host) :
  let opts := [StartFrameBuffer; GeckoDriver geckoDriverPath] in
  let started :=
    NewSeleniumService selenium seleniumPath port opts (SetDebug selenium false h) in
  let opened :=
    NewRemote selenium [("browserName", "firefox")]
      (Sprintf "http://localhost:%d/wd/hub" [port]) (snd started) in
  let run := NewClient selenium Sprintf h in
  match fst (fst run) with
  | (Some cl, None) =>
      snd (fst started) = None /\ snd (fst opened) = None /\
      cl = mkClient (fst (fst started)) (fst (fst opened))
  | (None, Some e) =>
      snd (fst started) = Some e \/
      (snd (fst started) = None /\ snd (fst opened) = Some e)
  | _ => False
  end
  /\ (snd (fst started) <> None ->
      snd (fst run) = snd started /\
      forall caps url, ~ In (CallNewRemote caps url) (snd run)).
Proof.
  cbv zeta. unfold NewClient.
  destruct (NewSeleniumService selenium seleniumPath port
              [StartFrameBuffer; GeckoDriver geckoDriverPath]
              (SetDebug selenium false h)) as [[service [e|]] h1]; cbn [fst snd].
  - split; [left; reflexivity|]. intros _. split; [reflexivity|].
    intros caps url [H|[H|[]]]; discriminate H.
  - destruct (NewRemote selenium [("browserName", "firefox")]
                (Sprintf "http://localhost:%d/wd/hub" [port]) h1)
      as [[wd [e|]] h2]; cbn [fst snd].
    + split; [right; split; reflexivity|]. intros H. destruct H. reflexivity.
    + split; [repeat split|]. intros H. destruct H. reflexivity.
Qed.

(** ** The further properties on the scripted page *)

Abbreviation fakeLoginRejectingInput :=
  (Login Fake.Getenv Fake.backendRejectingInput Fake.rarejobLoginURL
     Fake.loginPageEmailSelector Fake.loginPagePasswordSelector
     Fake.waitUntilElementLoaded).

Abbreviation fakeReserveTutorPolling :=
  (ReserveTutor Fake.jst Fake.backend Fake.Sprintf
     Fake.rarejobReservationFinishURL Fake.tutorListSelector
     Fake.tutorNameSelector Fake.tutorTimeSlotSelector
     Fake.tutorTimeSlotButtonSelector SlotText.parseTime
     Fake.generateTutorSearchQuery Fake.waitUntilElementLoadedPolling
     Fake.waitUntilURLChanged).

Abbreviation fakeScrapeTutors :=
  (scrapeTutors Fake.jst Fake.backend Fake.Sprintf Fake.tutorNameSelector
     Fake.tutorTimeSlotSelector Fake.tutorTimeSlotButtonSelector
     SlotText.parseTime).

(** Enumerating the slots of the second tutor fails: the error returned
    wraps that of the last call made. *)
Lemma ReserveTutor_error_is_of_last_call_witness :
  failedLast Fake.noSuchElement
    (Go.events (fakeReserveTutor tt Fake.morning (2 * Hour) Fake.pageSlotsError)).
Proof.
  assert (Hout : Go.outcome
            (fakeReserveTutor tt Fake.morning (2 * Hour) Fake.pageSlotsError)
          = Returned
              (None,
               Some (Errorf "failed to get time slots for tutor #%d" [2]
                       Fake.noSuchElement)))
    by (vm_compute; reflexivity).
  destruct (ReserveTutor_error_is_of_last_call Fake.jst Fake.backend Fake.Sprintf
     Fake.rarejobReservationFinishURL Fake.tutorListSelector
     Fake.tutorNameSelector Fake.tutorTimeSlotSelector
     Fake.tutorTimeSlotButtonSelector SlotText.parseTime
     Fake.generateTutorSearchQuery Fake.waitUntilElementLoaded
     Fake.waitUntilURLChanged tt Fake.morning (2 * Hour) Fake.pageSlotsError
     _ _ Hout) as [[H _]|(msg & args & e & He & [[H _]|H])].
  - discriminate H.
  - vm_compute in H. discriminate H.
  - injection He as _ _ He. rewrite He. exact H.
Defined.

(** Typing and clicking fail, and [Login] returns nil: the calls that
    failed are the unchecked ones, and the wait came last. *)
Lemma Login_checks_lookups_only_witness :
  Go.outcome (fakeLoginRejectingInput tt "u" "p" Fake.pageAliceBob) = Returned None
  /\ In (Ev (CallSendKeys 1 "student@example.com")
           (Some (ExternalError "element not interactable")))
        (Go.events (fakeLoginRejectingInput tt "u" "p" Fake.pageAliceBob))
  /\ unchecked (CallSendKeys 1 "student@example.com")
  /\ exists pre,
       Go.events (fakeLoginRejectingInput tt "u" "p" Fake.pageAliceBob)
         = pre ++ [Ev CallWait None].
Proof.
  assert (Hout : Go.outcome (fakeLoginRejectingInput tt "u" "p" Fake.pageAliceBob)
                 = Returned None) by (vm_compute; reflexivity).
  assert (Hin : In (Ev (CallSendKeys 1 "student@example.com")
                      (Some (ExternalError "element not interactable")))
                   (Go.events (fakeLoginRejectingInput tt "u" "p" Fake.pageAliceBob)))
    by (vm_compute; do 3 right; left; reflexivity).
  pose proof (Login_checks_lookups_only Fake.Getenv Fake.backendRejectingInput
     Fake.rarejobLoginURL Fake.loginPageEmailSelector
     Fake.loginPagePasswordSelector Fake.waitUntilElementLoaded tt "u" "p"
     Fake.pageAliceBob) as H.
  rewrite Hout in H. destruct H as [Hun Hpre].
  split; [exact Hout|]. split; [exact Hin|].
  split; [exact (Hun _ _ Hin)|exact Hpre].
Defined.

(** A login that returns nil has typed both variables and clicked, also
    when every one of the three failed. *)
Lemma Login_submits_after_typing_witness :
  exists h1 h2 h3,
    formActions (Go.events (fakeLoginRejectingInput tt "u" "p" Fake.pageAliceBob))
    = [CallSendKeys h1 "student@example.com"; CallSendKeys h2 "hunter2";
       CallClick h3].
Proof.
  destruct (Login_submits_after_typing Fake.Getenv Fake.backendRejectingInput
     Fake.rarejobLoginURL Fake.loginPageEmailSelector
     Fake.loginPagePasswordSelector Fake.waitUntilElementLoaded tt "u" "p"
     Fake.pageAliceBob) as (h1 & h2 & h3 & n & Heq & Hn).
  assert (Hout : Go.outcome (fakeLoginRejectingInput tt "u" "p" Fake.pageAliceBob)
                 = Returned None) by (vm_compute; reflexivity).
  rewrite (Hn Hout) in Heq.
  exists h1, h2, h3. exact Heq.
Defined.

(** The scripted driver waits until the condition holds. *)
Lemma Login_success_has_session_witness :
  wd_SessionID Fake.backend (Go.final (fakeLogin tt "u" "p" Fake.pageAliceBob)) <> "".
Proof.
  apply (Login_success_has_session Fake.Getenv Fake.backend
     Fake.rarejobLoginURL Fake.loginPageEmailSelector
     Fake.loginPagePasswordSelector Fake.waitUntilElementLoaded tt "u" "p"
     Fake.pageAliceBob).
  - intros cond p. cbn [wd_Wait Fake.backend fst snd].
    destruct (fst (cond p)); [reflexivity|discriminate].
  - vm_compute. reflexivity.
Defined.

(** Two rows give two tutors. *)
Lemma scrapeTutors_one_tutor_per_row_witness :
  (exists tutors,
     Go.outcome (fakeScrapeTutors Fake.morning 2 1 [] Fake.pageAliceBob)
       = Returned (Next tutors)
     /\ List.length tutors = 2%nat)
  /\ fst (listedTutors Fake.backend Fake.tutorListSelector
            Fake.generateTutorSearchQuery Fake.waitUntilElementLoaded
            Fake.morning (2 * Hour) Fake.pageAliceBob) <> [].
Proof.
  pose proof (scrapeTutors_one_tutor_per_row Fake.jst Fake.backend Fake.Sprintf
     Fake.rarejobReservationFinishURL Fake.tutorListSelector
     Fake.tutorNameSelector Fake.tutorTimeSlotSelector
     Fake.tutorTimeSlotButtonSelector SlotText.parseTime
     Fake.generateTutorSearchQuery Fake.waitUntilElementLoaded
     Fake.waitUntilURLChanged tt Fake.morning (2 * Hour) Fake.pageAliceBob)
    as [Hrows Hreserve].
  split.
  - eexists. split; [vm_compute; reflexivity|].
    destruct (Hrows 2%nat 1 [] Fake.pageAliceBob _ ltac:(vm_compute; reflexivity))
      as (added & Heq & Hlen).
    rewrite Heq. exact Hlen.
  - assert (Hout : {r | Go.outcome
                          (fakeReserveTutor tt Fake.morning (2 * Hour)
                             Fake.pageAliceBob) = Returned (Some r, None)})
      by (eexists; vm_compute; reflexivity).
    destruct Hout as [r Hout].
    exact (proj1 (Hreserve r None Hout)).
Defined.

(** Three slot elements, one label malformed, no lookup failed: between
    three and six entries. *)
Lemma scrapeSlots_entry_count_witness :
  exists slots,
    Go.outcome (fakeScrapeSlots Fake.morning 1 3 1 [] Fake.pageAliceBob)
      = Returned slots
    /\ (3 <= List.length slots <= 6)%nat.
Proof.
  eexists. split; [vm_compute; reflexivity|].
  pose proof (scrapeSlots_entry_count Fake.jst Fake.backend Fake.Sprintf
     Fake.tutorTimeSlotButtonSelector SlotText.parseTime Fake.morning 1 3 1 []
     Fake.pageAliceBob _ ltac:(vm_compute; reflexivity)) as H.
  cbv zeta in H. destruct H as (added & Heq & Hlen & _).
  assert (Hf : failedLookups
                 (Go.events (fakeScrapeSlots Fake.morning 1 3 1 [] Fake.pageAliceBob))
               = 0%nat) by (vm_compute; reflexivity).
  rewrite Hf in Hlen. rewrite Heq. cbn [app]. lia.
Defined.

(** The first label is malformed: the first entry is the zero time, and
    it is what [ReserveTutor] returns as the start of the lesson. *)
Lemma scrapeSlots_first_entry_witness :
  (exists slots,
     Go.outcome (fakeScrapeSlots Fake.morning 1 2 1 [] Fake.pageFirstMalformed)
       = Returned slots
     /\ hd_error slots = Some zeroTime)
  /\ Go.outcome (fakeReserveTutor tt Fake.morning (2 * Hour) Fake.pageFirstMalformed)
     = Returned (Some (mkReserve "Alice" zeroTime (Time_Add zeroTime (25 * Minute))),
                 None).
Proof.
  split; [|vm_compute; reflexivity].
  eexists. split; [vm_compute; reflexivity|].
  pose proof (scrapeSlots_first_entry Fake.jst Fake.backend Fake.Sprintf
     Fake.tutorTimeSlotButtonSelector SlotText.parseTime Fake.morning 1 1 1
     Fake.pageFirstMalformed _ (Fake.slotHandle 1 1)
     ltac:(vm_compute; reflexivity) ltac:(vm_compute; reflexivity)) as H.
  exact (eq_trans H eq_refl).
Defined.

(** The second slot button is missing: the failed lookup is the last call
    and the method call on its nil result panics.  With a helper that
    looks the element up itself and fails, the failure is the helper's
    error, which the body drops: a [Reserve] is returned, and no lookup
    of the body failed. *)
Lemma ReserveTutor_failed_lookup_is_last_witness :
  ((exists pre,
      Go.events (fakeReserveTutor tt Fake.morning (2 * Hour) Fake.pageMissingButton)
        = pre ++
          [Ev (CallFindElement ByCSSSelector
                 (Fake.Sprintf Fake.tutorTimeSlotButtonSelector [1; 2]))
              (Some Fake.noSuchElement)])
   /\ Go.outcome (fakeReserveTutor tt Fake.morning (2 * Hour) Fake.pageMissingButton)
      = Panicked NilDereference)
  /\ (In (Ev (CallWaitUntilElementLoaded ByCSSSelector Fake.tutorListSelector)
             (Some Fake.noSuchElement))
         (Go.events (fakeReserveTutorPolling tt Fake.morning (2 * Hour)
                       Fake.pageAliceBob))
      /\ failedLookups
           (Go.events (fakeReserveTutorPolling tt Fake.morning (2 * Hour)
                         Fake.pageAliceBob)) = 0%nat).
Proof.
  assert (Hnil : nilOnError Fake.backend).
  { intros by_ value p. cbn [wd_FindElement Fake.backend].
    unfold Fake.FindElement. cbv zeta.
    match goal with
    | |- context [match ?x with
                  | Some _ => _
                  | None => ((None, Some Fake.noSuchElement), p)
                  end] => destruct x
    end; exact I. }
  split.
  - assert (Hin : In (Ev (CallFindElement ByCSSSelector
                            (Fake.Sprintf Fake.tutorTimeSlotButtonSelector [1; 2]))
                         (Some Fake.noSuchElement))
                     (Go.events
                        (fakeReserveTutor tt Fake.morning (2 * Hour)
                           Fake.pageMissingButton)))
      by (vm_compute; do 8 right; left; reflexivity).
    destruct (proj1 (ReserveTutor_failed_lookup_is_last Fake.jst Fake.backend
       Fake.Sprintf Fake.rarejobReservationFinishURL Fake.tutorListSelector
       Fake.tutorNameSelector Fake.tutorTimeSlotSelector
       Fake.tutorTimeSlotButtonSelector SlotText.parseTime
       Fake.generateTutorSearchQuery Fake.waitUntilElementLoaded
       Fake.waitUntilURLChanged tt Fake.morning (2 * Hour) Fake.pageMissingButton
       Hnil) _ _ _ Hin) as [Hlast _].
    split; [exact Hlast|vm_compute; reflexivity].
  - split; [vm_compute; right; left; reflexivity|].
    assert (Hout : {r | Go.outcome
                          (fakeReserveTutorPolling tt Fake.morning (2 * Hour)
                             Fake.pageAliceBob) = Returned (Some r, None)})
      by (eexists; vm_compute; reflexivity).
    destruct Hout as [r Hout].
    exact (proj2 (ReserveTutor_failed_lookup_is_last Fake.jst Fake.backend
       Fake.Sprintf Fake.rarejobReservationFinishURL Fake.tutorListSelector
       Fake.tutorNameSelector Fake.tutorTimeSlotSelector
       Fake.tutorTimeSlotButtonSelector SlotText.parseTime
       Fake.generateTutorSearchQuery Fake.waitUntilElementLoadedPolling
       Fake.waitUntilURLChanged tt Fake.morning (2 * Hour) Fake.pageAliceBob
       Hnil) r None Hout).
Defined.

(** The clicks of a reservation on the page of Alice and Bob. *)
Lemma ReserveTutor_clicks_first_slot_then_reserve_witness :
  exists pre h1 h2 werr1 cerr1 uerr werr2 cerr2 werr3,
    Go.events (fakeReserveTutor tt Fake.morning (2 * Hour) Fake.pageAliceBob)
    = pre ++
      [Ev (CallWaitUntilElementLoaded ByCSSSelector
             (Fake.Sprintf Fake.tutorTimeSlotButtonSelector [1; 1])) werr1;
       Ev (CallFindElement ByCSSSelector
             (Fake.Sprintf Fake.tutorTimeSlotButtonSelector [1; 1])) None;
       Ev (CallClick h1) cerr1; Ev CallCurrentURL uerr;
       Ev (CallWaitUntilElementLoaded ByLinkText "予約する") werr2;
       Ev (CallFindElement ByLinkText "予約する") None;
       Ev (CallClick h2) cerr2;
       Ev (CallWaitUntilURLChanged Fake.rarejobReservationFinishURL) werr3]
    /\ formActions pre = [].
Proof.
  assert (Hout : {r | Go.outcome
                        (fakeReserveTutor tt Fake.morning (2 * Hour)
                           Fake.pageAliceBob) = Returned (Some r, None)})
    by (eexists; vm_compute; reflexivity).
  destruct Hout as [r Hout].
  exact (ReserveTutor_clicks_first_slot_then_reserve Fake.jst Fake.backend
     Fake.Sprintf Fake.rarejobReservationFinishURL Fake.tutorListSelector
     Fake.tutorNameSelector Fake.tutorTimeSlotSelector
     Fake.tutorTimeSlotButtonSelector SlotText.parseTime
     Fake.generateTutorSearchQuery Fake.waitUntilElementLoaded
     Fake.waitUntilURLChanged tt Fake.morning (2 * Hour) Fake.pageAliceBob
     r None Hout).
Defined.

(** From 08:00 with a margin of two hours, in Japan Standard Time. *)
Lemma accepted_window_stays_in_the_day_witness :
  let by_ := Time_Add (Time_Local Fake.morning) (2 * Hour) in
  localDay Fake.jst by_ = localDay Fake.jst Fake.morning
  /\ Time_Year Fake.jst by_ = Time_Year Fake.jst Fake.morning
  /\ Time_Month Fake.jst by_ = Time_Month Fake.jst Fake.morning
  /\ Time_Day Fake.jst by_ = Time_Day Fake.jst Fake.morning
  /\ Time_Hour Fake.jst Fake.morning < Time_Hour Fake.jst by_.
Proof.
  apply (accepted_window_stays_in_the_day Fake.jst Fake.backend
     Fake.Sprintf Fake.rarejobReservationFinishURL Fake.tutorListSelector
     Fake.tutorNameSelector Fake.tutorTimeSlotSelector
     Fake.tutorTimeSlotButtonSelector SlotText.parseTime
     Fake.generateTutorSearchQuery Fake.waitUntilElementLoaded
     Fake.waitUntilURLChanged tt Fake.morning (2 * Hour) Fake.pageAliceBob
     (9 * 3600)).
  - intros s. reflexivity.
  - reflexivity.
  - simpl. lia.
  - vm_compute. discriminate.
  - intros H. vm_compute in H. discriminate H.
Defined.

(** From 08:00 with a margin of minus nine hours the window is accepted,
    8 being less than 23, and [by] is 23:00 of the day before. *)
Lemma accepted_negative_margin_reaches_the_day_before_witness :
  Time_Hour Fake.jst (Time_Add (Time_Local Fake.morning) (-9 * Hour)) = 23
  /\ localDay Fake.jst (Time_Add (Time_Local Fake.morning) (-9 * Hour))
     = localDay Fake.jst Fake.morning - 1.
Proof.
  split; [vm_compute; reflexivity|].
  apply (accepted_negative_margin_reaches_the_day_before Fake.jst Fake.backend
     Fake.Sprintf Fake.rarejobReservationFinishURL Fake.tutorListSelector
     Fake.tutorNameSelector Fake.tutorTimeSlotSelector
     Fake.tutorTimeSlotButtonSelector SlotText.parseTime
     Fake.generateTutorSearchQuery Fake.waitUntilElementLoaded
     Fake.waitUntilURLChanged tt Fake.morning (-9 * Hour) Fake.pageAliceBob
     (9 * 3600)).
  - intros s. reflexivity.
  - reflexivity.
  - simpl. lia.
  - vm_compute. split; [discriminate|reflexivity].
  - intros H. vm_compute in H. discriminate H.
Defined.

(** The finish URL is never reached, and the reservation is returned. *)
Lemma ReserveTutor_ignores_the_finish_wait_witness :
  Go.outcome
    (ReserveTutor Fake.jst Fake.backend Fake.Sprintf
       Fake.rarejobReservationFinishURL Fake.tutorListSelector
       Fake.tutorNameSelector Fake.tutorTimeSlotSelector
       Fake.tutorTimeSlotButtonSelector SlotText.parseTime
       Fake.generateTutorSearchQuery Fake.waitUntilElementLoaded
       Fake.waitUntilURLChangedTimeout tt Fake.morning (2 * Hour)
       Fake.pageAliceBob)
  = Go.outcome (fakeReserveTutor tt Fake.morning (2 * Hour) Fake.pageAliceBob)
  /\ In (Ev (CallWaitUntilURLChanged Fake.rarejobReservationFinishURL)
           (Some (ExternalError "timeout")))
        (Go.events
           (ReserveTutor Fake.jst Fake.backend Fake.Sprintf
              Fake.rarejobReservationFinishURL Fake.tutorListSelector
              Fake.tutorNameSelector Fake.tutorTimeSlotSelector
              Fake.tutorTimeSlotButtonSelector SlotText.parseTime
              Fake.generateTutorSearchQuery Fake.waitUntilElementLoaded
              Fake.waitUntilURLChangedTimeout tt Fake.morning (2 * Hour)
              Fake.pageAliceBob)).
Proof.
  split.
  - exact (ReserveTutor_ignores_the_finish_wait Fake.jst Fake.backend
       Fake.Sprintf Fake.rarejobReservationFinishURL Fake.tutorListSelector
       Fake.tutorNameSelector Fake.tutorTimeSlotSelector
       Fake.tutorTimeSlotButtonSelector SlotText.parseTime
       Fake.generateTutorSearchQuery Fake.waitUntilElementLoaded
       Fake.waitUntilURLChangedTimeout Fake.waitUntilURLChanged tt Fake.morning
       (2 * Hour) Fake.pageAliceBob).
  - vm_compute. repeat ((left; reflexivity) || right).
Defined.


(** The service does not start: its error is returned and no session is
    asked for.  The session is refused: its error is returned. *)
Lemma NewClient_client_or_library_error_witness :
  (fst (fst (NewClient Fake.seleniumNotInstalled Fake.Sprintf tt))
     = (None, Some (ExternalError "no such file or directory"))
   /\ forall caps url,
        ~ In (CallNewRemote caps url)
             (snd (NewClient Fake.seleniumNotInstalled Fake.Sprintf tt)))
  /\ fst (fst (NewClient Fake.seleniumRefusing Fake.Sprintf tt))
     = (None, Some (ExternalError "connection refused")).
Proof.
  split.
  - split; [reflexivity|].
    refine (proj2 (proj2
      (NewClient_client_or_library_error Fake.seleniumNotInstalled Fake.Sprintf tt)
      _)).
    discriminate.
  - reflexivity.
Defined.
